(** * stock_analysis: data-source failover, indicators, strategies, risk

    A shallow embedding of the decision logic of the stock analysis
    system:

    - [src/data_source/base.py], [src/data_source/factory.py] and
      [src/analysis/engine.py]: the adapter registry, primary selection,
      the history fetch with failover, and the market clock of the base
      class and of the adapters;
    - [src/analysis/technical_indicators.py]: the KDJ recursion, RSI,
      OBV and the signal detector;
    - [src/analysis/engine.py]: the technical status and the
      recommendation of a summary;
    - [src/strategy/turtle_strategy.py]: the two breakout systems, their
      combination, position sizing, the stop loss and the
      recommendation;
    - [src/strategy/retail_strategy.py]: the traditional signals, the
      combined decision and the risk management of a decision;
    - [src/risk/assessment.py]: the overall score and the risk buckets,
      the technical risk factor and the warnings.

    Numbers.  Python and numpy floats are embedded as exact rationals
    extended with the three special values the code can produce or test
    for: not-a-number and the two infinities.  Rounding, overflow to
    infinity and the sign of zero are not part of the embedding. *)

From Stdlib Require Import QArith Qabs Lqa ZArith Lia Bool List String.
From Stdlib Require Import Sorted Permutation DecimalString.
Import ListNotations.

(* ===================================================================== *)
(** ** Python floats *)
(* ===================================================================== *)

Module PyFloat.

Local Open Scope Q_scope.

Inductive pyfloat : Type :=
| NaN
| PInf
| NInf
| Fin (q : Q).

Definition Qltb (x y : Q) : bool := negb (Qle_bool y x).

(** [pd.isna] on a scalar: true for NaN only, the infinities are values. *)
Definition isna (x : pyfloat) : bool :=
  match x with NaN => true | _ => false end.

Definition is_zero (x : pyfloat) : bool :=
  match x with Fin q => Qeq_bool q 0 | _ => false end.

Definition fneg (x : pyfloat) : pyfloat :=
  match x with
  | NaN => NaN
  | PInf => NInf
  | NInf => PInf
  | Fin q => Fin (- q)
  end.

Definition fadd (x y : pyfloat) : pyfloat :=
  match x, y with
  | NaN, _ | _, NaN => NaN
  | PInf, NInf | NInf, PInf => NaN
  | PInf, _ | _, PInf => PInf
  | NInf, _ | _, NInf => NInf
  | Fin a, Fin b => Fin (a + b)
  end.

Definition fsub (x y : pyfloat) : pyfloat := fadd x (fneg y).

(** The sign of a rational as an infinity, NaN for zero: the value of
    [q * inf] and of [q / 0]. *)
Definition signed_inf (q : Q) : pyfloat :=
  if Qltb 0 q then PInf else if Qltb q 0 then NInf else NaN.

Definition fmul (x y : pyfloat) : pyfloat :=
  match x, y with
  | NaN, _ | _, NaN => NaN
  | PInf, PInf | NInf, NInf => PInf
  | PInf, NInf | NInf, PInf => NInf
  | PInf, Fin b | Fin b, PInf => signed_inf b
  | NInf, Fin b | Fin b, NInf => signed_inf (- b)
  | Fin a, Fin b => Fin (a * b)
  end.

(** numpy division: a zero divisor gives an infinity or NaN (with a
    warning), it does not raise. *)
Definition fdiv (x y : pyfloat) : pyfloat :=
  match x, y with
  | NaN, _ | _, NaN => NaN
  | (PInf | NInf), (PInf | NInf) => NaN
  | PInf, Fin b => if Qltb b 0 then NInf else PInf
  | NInf, Fin b => if Qltb b 0 then PInf else NInf
  | Fin _, (PInf | NInf) => Fin 0
  | Fin a, Fin b => if Qeq_bool b 0 then signed_inf a else Fin (a / b)
  end.

Definition fabs (x : pyfloat) : pyfloat :=
  match x with
  | NaN => NaN
  | PInf | NInf => PInf
  | Fin q => Fin (Qabs q)
  end.

(** Comparisons: every comparison with NaN is false. *)
Definition flt (x y : pyfloat) : bool :=
  match x, y with
  | NaN, _ | _, NaN => false
  | _, NInf => false
  | NInf, _ => true
  | PInf, _ => false
  | Fin _, PInf => true
  | Fin a, Fin b => Qltb a b
  end.

Definition fle (x y : pyfloat) : bool :=
  match x, y with
  | NaN, _ | _, NaN => false
  | NInf, _ => true
  | _, PInf => true
  | PInf, _ => false
  | Fin _, NInf => false
  | Fin a, Fin b => Qle_bool a b
  end.

Definition fgt (x y : pyfloat) : bool := flt y x.
Definition fge (x y : pyfloat) : bool := fle y x.

(** Python's builtin [min(a, b)] and [max(a, b)]: the first argument is
    kept unless the second compares strictly smaller (larger). *)
Definition py_min (a b : pyfloat) : pyfloat := if flt b a then b else a.
Definition py_max (a b : pyfloat) : pyfloat := if fgt b a then b else a.

(** Equality of values: [Qeq] on the rational part. *)
Definition feq (x y : pyfloat) : Prop :=
  match x, y with
  | NaN, NaN | PInf, PInf | NInf, NInf => True
  | Fin a, Fin b => a == b
  | _, _ => False
  end.

(** [lo <= x <= hi] as a proposition on values; false for NaN. *)
Definition in_range (lo hi : Q) (x : pyfloat) : Prop :=
  match x with
  | Fin q => lo <= q /\ q <= hi
  | _ => False
  end.

(** A value that is a number: neither NaN nor an infinity. *)
Definition is_number (x : pyfloat) : Prop :=
  match x with Fin _ => True | _ => False end.

(** A number that is not negative. *)
Definition nonneg (x : pyfloat) : Prop :=
  match x with Fin q => 0 <= q | _ => False end.

End PyFloat.

(* ===================================================================== *)
(** ** Exceptions and pandas series *)
(* ===================================================================== *)

Module Py.

(** The exceptions the embedded code can raise.  A function whose body
    sits in [try ... except Exception] is embedded as a body of type
    [result A] and a wrapper that maps every [Raise] to the handler's
    value. *)
Inductive exn : Type :=
| IndexError
| KeyError
| ZeroDivisionError.

Inductive result (A : Type) : Type :=
| Ok (a : A)
| Raise (e : exn).

Arguments Ok {A} a.
Arguments Raise {A} e.

Definition bind {A B : Type} (m : result A) (k : A -> result B) : result B :=
  match m with
  | Ok a => k a
  | Raise e => Raise e
  end.

Definition try_except {A : Type} (m : result A) (handler : A) : A :=
  match m with
  | Ok a => a
  | Raise _ => handler
  end.

Definition of_option {A : Type} (e : exn) (o : option A) : result A :=
  match o with
  | Some a => Ok a
  | None => Raise e
  end.

Module Notations.
Notation "x <- m ;; k" := (bind m (fun x => k))
  (at level 61, m at next level, right associativity).
End Notations.

End Py.

Module Pandas.

Import PyFloat.

(** A [pd.Series] of floats, by position. *)
Definition Series : Type := list pyfloat.

(** [s.iloc[-1]]: the last element, [IndexError] on an empty series. *)
Definition iloc_last (s : Series) : Py.result pyfloat :=
  Py.of_option Py.IndexError (List.last (List.map Some s) None).

(** [s.iloc[-(n+1):-1]]: of the last [n+1] positions (fewer when the
    series is shorter), all but the last. *)
Definition iloc_window (n : nat) (s : Series) : Series :=
  let len := List.length s in
  let start := (len - (n + 1))%nat in
  List.firstn (len - 1 - start) (List.skipn start s).

(** [s.tail(n)] *)
Definition tail (n : nat) (s : Series) : Series :=
  List.skipn (List.length s - n) s.

Definition dropna (s : Series) : Series :=
  List.filter (fun x => negb (isna x)) s.

(** [s.max()] and [s.min()] skip NaN; NaN when nothing is left. *)
Definition series_max (s : Series) : pyfloat :=
  match dropna s with
  | [] => NaN
  | x :: xs => List.fold_left (fun m y => if flt m y then y else m) xs x
  end.

Definition series_min (s : Series) : pyfloat :=
  match dropna s with
  | [] => NaN
  | x :: xs => List.fold_left (fun m y => if flt y m then y else m) xs x
  end.

Definition series_sum (s : Series) : pyfloat :=
  List.fold_left fadd s (Fin 0).

(** [s.mean()] skips NaN; NaN when nothing is left. *)
Definition series_mean (s : Series) : pyfloat :=
  match dropna s with
  | [] => NaN
  | xs => fdiv (series_sum xs) (Fin (inject_Z (Z.of_nat (List.length xs))))
  end.

(** [np.mean] of a Python list: no value is skipped. *)
Definition np_mean (l : list pyfloat) : pyfloat :=
  fdiv (series_sum l) (Fin (inject_Z (Z.of_nat (List.length l)))).

End Pandas.

(* ===================================================================== *)
(** ** Data sources: [src/data_source/base.py], [src/data_source/factory.py],
       [src/analysis/engine.py] *)
(* ===================================================================== *)

Module DataSource.

Import PyFloat.
Local Open Scope string_scope.
Local Open Scope Z_scope.

(** *** Canonical bars and the adapters' behaviour *)

Record PriceBar : Type := {
  date : string;
  open : pyfloat;
  high : pyfloat;
  low : pyfloat;
  close : pyfloat;
  volume : pyfloat
}.

(** A normalized history frame; [df.empty] is the empty list. *)
Definition Frame : Type := list PriceBar.

Definition empty (df : Frame) : bool :=
  match df with [] => true | _ => false end.

(** The two date ranges a fetch asks for: [days] back from today, and 30
    days back from today.  The adapters see them as formatted dates. *)
Inductive Window : Type :=
| FullWindow (days : Z)
| ShortWindow.

(** What a call of an adapter's [get_price_data] does: it returns a
    frame, or an exception escapes. *)
Inductive FetchOutcome : Type :=
| Returns (df : Frame)
| FetchRaises.

(** What a call of an adapter's [connect] does.  The six adapters return
    [True] exactly when they set [is_connected = True]; on failure they
    reset the flag ([ProbeFailed]), or return [False] and leave it as it
    was ([ProbeFlagKept], the early returns of the tushare and akshare
    adapters); [connect_all] also guards against an escaping exception
    ([ProbeRaises]). *)
Inductive ProbeOutcome : Type :=
| ProbeOk
| ProbeFailed
| ProbeFlagKept
| ProbeRaises.

(** A [BaseDataSource] object: its name, its flag, and how the provider
    behind it answers. *)
Record Source : Type := {
  name : string;
  is_connected : bool;
  probe : ProbeOutcome;
  get_price_data : Window -> FetchOutcome
}.

Definition set_connected (b : bool) (s : Source) : Source :=
  {| name := name s; is_connected := b; probe := probe s;
     get_price_data := get_price_data s |}.

(** [source.connect()]: the updated object and the returned value, [None]
    when the call raises. *)
Definition connect (s : Source) : Source * option bool :=
  match probe s with
  | ProbeOk => (set_connected true s, Some true)
  | ProbeFailed => (set_connected false s, Some false)
  | ProbeFlagKept => (s, Some false)
  | ProbeRaises => (s, None)
  end.

(** *** [DataSourceManager] *)

(** [sources] is a Python dictionary keyed by name: insertion-ordered,
    one entry per key. *)
Record DataSourceManager : Type := {
  sources : list Source;
  primary_source : option string
}.

Definition empty_manager : DataSourceManager :=
  {| sources := []; primary_source := None |}.

(** [d[key] = value] on an insertion-ordered dictionary: an existing key
    keeps its place. *)
Fixpoint dict_set {V : Type} (key : V -> string) (v : V) (d : list V)
  : list V :=
  match d with
  | [] => [v]
  | x :: rest =>
      if (key x =? key v)%string then v :: rest
      else x :: dict_set key v rest
  end.

Definition add_source (m : DataSourceManager) (source : Source)
  : DataSourceManager :=
  {| sources := dict_set name source (sources m);
     primary_source :=
       match primary_source m with
       | None => Some (name source)
       | Some p => Some p
       end |}.

Definition get_source_by_name (m : DataSourceManager) (source_name : string)
  : option Source :=
  List.find (fun s => (name s =? source_name)%string) (sources m).

(** [get_source(source_name=None)]: the primary source stands in for a
    missing name; [None] stands for the [ValueError] on a name that is
    not a key, which includes the primary of an empty registry. *)
Definition get_source (m : DataSourceManager) (source_name : option string)
  : option Source :=
  let source_name :=
    match source_name with
    | Some n => Some n
    | None => primary_source m
    end in
  match source_name with
  | Some n => get_source_by_name m n
  | None => None
  end.

(** [set_primary_source]: [None] stands for the [ValueError]. *)
Definition set_primary_source (m : DataSourceManager) (source_name : string)
  : option DataSourceManager :=
  match get_source_by_name m source_name with
  | Some _ =>
      Some {| sources := sources m; primary_source := Some source_name |}
  | None => None
  end.

(** [connect_all]: every source is probed in dictionary order; the
    result dictionary maps a name to the returned value, [False] when
    the probe raised. *)
Definition connect_all (m : DataSourceManager)
  : DataSourceManager * list (string * bool) :=
  let probed := List.map connect (sources m) in
  ({| sources := List.map fst probed; primary_source := primary_source m |},
   List.map
     (fun sr => (name (fst sr),
                 match snd sr with Some b => b | None => false end))
     probed).

Definition get_available_sources (m : DataSourceManager) : list string :=
  List.map name (List.filter is_connected (sources m)).

(** *** [DataSourceFactory.create_data_source_manager] *)

(** An entry of the configuration dictionary: the two keys the factory
    reads for ordering and filtering; a key may be missing.  The entries
    are typed: an entry is a dictionary, ['enabled'] holds a bool and
    ['priority'] an int where they are there.  Configurations with other
    values (a stored [None], a priority that is not a number, an entry
    that is not a dictionary), on which [update] or [sorted] raise, are
    outside this type. *)
Record SourceConfig : Type := {
  enabled : option bool;
  priority : option Z
}.

Definition Config : Type := list (string * SourceConfig).

Definition default_config : Config :=
  [ ("akshare", {| enabled := Some true; priority := Some 3 |});
    ("tushare", {| enabled := Some true; priority := Some 2 |});
    ("eastmoney", {| enabled := Some true; priority := Some 1 |});
    ("sina", {| enabled := Some true; priority := Some 4 |});
    ("qqstock", {| enabled := Some true; priority := Some 5 |});
    ("wangyi", {| enabled := Some true; priority := Some 6 |}) ].

Definition or_else {A : Type} (o base : option A) : option A :=
  match o with Some a => Some a | None => base end.

(** [base.update(upd)] on the two keys. *)
Definition update_config (base upd : SourceConfig) : SourceConfig :=
  {| enabled := or_else (enabled upd) (enabled base);
     priority := or_else (priority upd) (priority base) |}.

(** One step of the merge loop: an entry of the caller's configuration
    updates the default of the same name, or is appended. *)
Fixpoint merge_entry (entry : string * SourceConfig) (d : Config) : Config :=
  match d with
  | [] => [entry]
  | (n, c) :: rest =>
      if (n =? fst entry)%string then (n, update_config c (snd entry)) :: rest
      else (n, c) :: merge_entry entry rest
  end.

Definition merge_config (config : Config) : Config :=
  List.fold_left (fun d entry => merge_entry entry d) config default_config.

(** [x[1].get('priority', 99)] *)
Definition sort_key (entry : string * SourceConfig) : Z :=
  match priority (snd entry) with Some p => p | None => 99 end.

(** [sorted(items, key=...)]: a stable sort, here by insertion. *)
Fixpoint insert_by_key (x : string * SourceConfig) (l : Config) : Config :=
  match l with
  | [] => [x]
  | y :: rest =>
      if sort_key x <=? sort_key y then x :: l
      else y :: insert_by_key x rest
  end.

Fixpoint sorted_by_key (l : Config) : Config :=
  match l with
  | [] => []
  | x :: rest => insert_by_key x (sorted_by_key rest)
  end.

(** The six adapter classes of the [if]/[elif] chain. *)
Definition known_sources : list string :=
  ["akshare"; "tushare"; "eastmoney"; "sina"; "qqstock"; "wangyi"].

Definition is_known (source_name : string) : bool :=
  List.existsb (fun n => (n =? source_name)%string) known_sources.

(** The providers as the process finds them: for each adapter class,
    whether its constructor succeeds, how its probe answers, and what
    its history call gives. *)
Record Provider : Type := {
  constructs : bool;
  provider_probe : ProbeOutcome;
  provider_history : Window -> FetchOutcome
}.

Definition World : Type := string -> Provider.

Definition new_source (w : World) (source_name : string) : Source :=
  {| name := source_name; is_connected := false;
     probe := provider_probe (w source_name);
     get_price_data := provider_history (w source_name) |}.

(** The loop over [sorted_sources]. *)
Fixpoint add_sources (w : World) (sorted_sources : Config)
    (manager : DataSourceManager) : DataSourceManager :=
  match sorted_sources with
  | [] => manager
  | (source_name, source_config) :: rest =>
      if negb (match enabled source_config with
               | Some b => b | None => true end)
      then add_sources w rest manager
      else if negb (is_known source_name)
      then add_sources w rest manager
      else if constructs (w source_name)
      then add_sources w rest (add_source manager (new_source w source_name))
      else add_sources w rest manager
  end.

Definition create_data_source_manager (w : World) (config : option Config)
  : DataSourceManager :=
  let merged :=
    match config with
    | Some c => merge_config c
    | None => default_config
    end in
  add_sources w (sorted_by_key merged) empty_manager.

(** *** [get_data_source_manager] *)

(** [DATA_SOURCES] of [config.py]. *)
Definition DATA_SOURCES : Config :=
  [ ("akshare", {| enabled := Some false; priority := Some 3 |});
    ("tushare", {| enabled := Some false; priority := Some 2 |});
    ("eastmoney", {| enabled := Some true; priority := Some 1 |});
    ("sina", {| enabled := Some true; priority := Some 4 |});
    ("qqstock", {| enabled := Some true; priority := Some 5 |});
    ("wangyi", {| enabled := Some false; priority := Some 6 |}) ].

Definition priority_order : list string :=
  ["eastmoney"; "tushare"; "akshare"; "sina"; "qqstock"; "wangyi"].

Definition mem (x : string) (l : list string) : bool :=
  List.existsb (fun y => (y =? x)%string) l.

(** The selection of the primary source after [connect_all]; [None]
    stands for the [ValueError] of [set_primary_source]. *)
Definition select_primary (m : DataSourceManager)
    (connection_results : list (string * bool))
  : option DataSourceManager :=
  let connected_sources :=
    List.map fst (List.filter snd connection_results) in
  let available_sources := get_available_sources m in
  match available_sources with
  | [] => Some m
  | first_available :: _ =>
      match List.find (fun n => mem n connected_sources) priority_order with
      | Some primary => set_primary_source m primary
      | None => set_primary_source m first_available
      end
  end.

(** The module-level singleton is passed in and out.  A [None]
    configuration stands for the import of [DATA_SOURCES]. *)
Definition get_data_source_manager
    (w : World) (_global_manager : option DataSourceManager)
    (config : option Config)
  : option (DataSourceManager * option DataSourceManager) :=
  match _global_manager with
  | Some m => Some (m, Some m)
  | None =>
      let config :=
        match config with
        | Some c => c
        | None => DATA_SOURCES
        end in
      let created := create_data_source_manager w (Some config) in
      let connected := connect_all created in
      match select_primary (fst connected) (snd connected) with
      | Some m => Some (m, Some m)
      | None => None
      end
  end.

(** *** [AnalysisEngine._get_stock_data] *)

(** What a run of the fetch leaves behind: the returned frame, the
    adapter calls in the order they were made, and the frame handed to
    [save_daily_prices], if any. *)
Record FetchRun : Type := {
  result : Frame;
  consulted : list (string * Window);
  saved : option Frame
}.

(** [not df.empty and len(df) >= days * 0.8] *)
Definition cache_covers (df : Frame) (days : Z) : bool :=
  negb (empty df)
  && Qle_bool (inject_Z days * 0.8)%Q (inject_Z (Z.of_nat (List.length df))).

(** One [for source_name in available_sources] loop.  [df] is the
    variable the loop assigns; the second component is the list of calls
    made.  A non-empty frame breaks out of the loop, an exception
    continues with the next name and leaves [df] as it was. *)
Fixpoint fetch_loop (m : DataSourceManager) (window : Window)
    (names : list string) (df : Frame) : Frame * list (string * Window) :=
  match names with
  | [] => (df, [])
  | source_name :: rest =>
      match get_source_by_name m source_name with
      | Some source =>
          if is_connected source then
            match get_price_data source window with
            | Returns df' =>
                if negb (empty df') then (df', [(source_name, window)])
                else
                  let r := fetch_loop m window rest df' in
                  (fst r, (source_name, window) :: snd r)
            | FetchRaises =>
                let r := fetch_loop m window rest df in
                (fst r, (source_name, window) :: snd r)
            end
          else fetch_loop m window rest df
      | None => fetch_loop m window rest df
      end
  end.

(** *** The date arithmetic of the fetch *)

(** A day is its proleptic Gregorian ordinal ([date.toordinal()]): 1 is
    0001-01-01 and 3652059 is 9999-12-31.  [None] stands for
    [OverflowError]. *)

(** [timedelta(days=n)] *)
Definition timedelta (n : Z) : option Z :=
  if Z.abs n <=? 999999999 then Some n else None.

(** [now - delta] on a [datetime]: the time of day is kept, so it is the
    day that can leave the range. *)
Definition datetime_sub (day delta : Z) : option Z :=
  let d := day - delta in
  if (1 <=? d) && (d <=? 3652059) then Some d else None.

(** [datetime.now() - timedelta(days=n)], [today] the day of
    [datetime.now()]. *)
Definition days_before (today n : Z) : option Z :=
  match timedelta n with
  | Some delta => datetime_sub today delta
  | None => None
  end.

(** How a fetch ends: it returns, or the [OverflowError] of the date
    arithmetic escapes, after the adapter calls [made]. *)
Inductive Fetch : Type :=
| Completed (run : FetchRun)
| OverflowError (made : list (string * Window)).

(** [today] is the day of [datetime.now()], read as one day for the
    whole call; [db_frame] is what [db_manager.get_daily_prices] returns
    for the request.  [symbol] and [period] are passed through to the
    adapters and left out.  The two subtractions of dates stand outside
    every [try]. *)
Definition _get_stock_data (today : Z) (m : DataSourceManager)
    (db_frame : Frame) (days : Z) (force_update : bool) : Fetch :=
  match days_before today days with
  | None => OverflowError []
  | Some _start_date =>
      if negb force_update && cache_covers db_frame days then
        Completed {| result := db_frame; consulted := []; saved := None |}
      else
        let available_sources := get_available_sources m in
        let pass1 := fetch_loop m (FullWindow days) available_sources [] in
        if empty (fst pass1) && (30 <? days) then
          match days_before today 30 with
          | None => OverflowError (snd pass1)
          | Some _shorter_start =>
              let pass2 :=
                fetch_loop m ShortWindow available_sources (fst pass1) in
              Completed
                {| result := fst pass2;
                   consulted := snd pass1 ++ snd pass2;
                   saved := if negb (empty (fst pass2))
                            then Some (fst pass2) else None |}
          end
        else
          Completed
            {| result := fst pass1;
               consulted := snd pass1;
               saved := if negb (empty (fst pass1))
                        then Some (fst pass1) else None |}
  end.

(** *** Reference quantities for the properties *)

(** Order of two configuration entries by their sort key. *)
Definition key_le (a b : string * SourceConfig) : Prop :=
  sort_key a <= sort_key b.

(** The entries the factory keeps, in the order it visits them. *)
Definition kept (w : World) (entry : string * SourceConfig) : bool :=
  match enabled (snd entry) with Some b => b | None => true end
  && is_known (fst entry) && constructs (w (fst entry)).

Definition configured (w : World) (config : option Config) : Config :=
  List.filter (kept w)
    (sorted_by_key
       (match config with Some c => merge_config c | None => default_config end)).

(** [l] is [l'] with some elements left out, order kept. *)
Inductive Subsequence {A : Type} : list A -> list A -> Prop :=
| subseq_nil : Subsequence [] []
| subseq_keep (x : A) (l l' : list A) :
    Subsequence l l' -> Subsequence (x :: l) (x :: l')
| subseq_drop (x : A) (l l' : list A) :
    Subsequence l l' -> Subsequence l (x :: l').

(** The primary by configured priority: the first connected adapter of
    the registry, which is in configured order, and the first adapter of
    the registry when none is connected. *)
Definition first_connected_or_first (m : DataSourceManager) : option string :=
  match get_available_sources m with
  | a :: _ => Some a
  | [] => List.hd_error (List.map name (sources m))
  end.

(** What a fetch leaves behind once its dates are computed: the cache
    test, the loop over the window of [days] days and, after an empty
    first loop with [days] above 30, the loop over the 30-day window. *)
Definition fetch_run (m : DataSourceManager) (db_frame : Frame)
    (days : Z) (force_update : bool) : FetchRun :=
  if negb force_update && cache_covers db_frame days then
    {| result := db_frame; consulted := []; saved := None |}
  else
    let available_sources := get_available_sources m in
    let pass1 := fetch_loop m (FullWindow days) available_sources [] in
    let pass2 :=
      if empty (fst pass1) && (30 <? days)
      then fetch_loop m ShortWindow available_sources (fst pass1)
      else (fst pass1, []) in
    {| result := fst pass2;
       consulted := snd pass1 ++ snd pass2;
       saved := if negb (empty (fst pass2)) then Some (fst pass2) else None |}.

(** An adapter call that yields no frame: an empty frame or an
    exception. *)
Definition yields_nothing (s : Source) (window : Window) : Prop :=
  get_price_data s window = Returns [] \/ get_price_data s window = FetchRaises.

Definition calls (window : Window) (names : list string)
  : list (string * Window) :=
  List.map (fun n => (n, window)) names.

(** [d.get(n)] on a configuration dictionary. *)
Definition config_get (d : Config) (n : string) : option SourceConfig :=
  option_map snd (List.find (fun e => (fst e =? n)%string) d).

End DataSource.

(* ===================================================================== *)
(** ** Turtle strategy: [src/strategy/turtle_strategy.py] *)
(* ===================================================================== *)

Module TurtleStrategy.

Import PyFloat Pandas.
Import Py.Notations.
Local Open Scope string_scope.
Local Open Scope Q_scope.

(** One row of the price frame, and the frame with the one column the
    code tests for ([ 'volume' in price_data.columns ]). *)
Record Bar : Type := {
  high : pyfloat;
  low : pyfloat;
  close : pyfloat;
  volume : pyfloat
}.

Record DataFrame : Type := {
  has_volume : bool;
  rows : list Bar
}.

Definition col (f : Bar -> pyfloat) (df : DataFrame) : Series :=
  List.map f (rows df).

Definition len (df : DataFrame) : nat := List.length (rows df).

(** [self.params] *)
Record Params : Type := {
  system1_entry_period : nat;
  system1_exit_period : nat;
  system2_entry_period : nat;
  system2_exit_period : nat;
  atr_period : nat;
  stop_loss_atr_multiple : pyfloat;
  position_risk_pct : pyfloat;
  total_capital : pyfloat;
  unit_limit_single : pyfloat
}.

Definition params : Params := {|
  system1_entry_period := 20;
  system1_exit_period := 10;
  system2_entry_period := 55;
  system2_exit_period := 20;
  atr_period := 20;
  stop_loss_atr_multiple := Fin 2.0;
  position_risk_pct := Fin 0.02;
  total_capital := Fin 100000;
  unit_limit_single := Fin 0.05
|}.

(** The [system_result] dictionary; [None] stands for Python's [None]
    and for a key that was never set. *)
Record SystemResult : Type := {
  entry_signal : string;
  exit_signal : string;
  entry_price : option pyfloat;
  exit_price : option pyfloat;
  breakout_high : option pyfloat;
  breakout_low : option pyfloat;
  exit_high : option pyfloat;
  exit_low : option pyfloat;
  confidence : pyfloat
}.

(** *** [_calculate_breakout_strength] *)

Definition breakout_strength_body
    (price_data : DataFrame) (breakout_level : pyfloat) (is_upward : bool)
  : Py.result pyfloat :=
  current_price <- iloc_last (col close price_data) ;;
  current_volume <-
    (if has_volume price_data then iloc_last (col volume price_data)
     else Py.Ok (Fin 0)) ;;
  let breakout_pct :=
    if is_upward
    then fdiv (fsub current_price breakout_level) breakout_level
    else fdiv (fsub breakout_level current_price) breakout_level in
  let avg_volume :=
    if has_volume price_data
    then series_mean (tail 20 (col volume price_data))
    else Fin 1 in
  let volume_ratio :=
    if fgt avg_volume (Fin 0) then fdiv current_volume avg_volume
    else Fin 1 in
  let base_confidence := py_min (fmul breakout_pct (Fin 10)) (Fin 0.5) in
  let volume_boost :=
    py_min (fmul (fsub volume_ratio (Fin 1)) (Fin 0.1)) (Fin 0.3) in
  let confidence :=
    py_min (fadd (fadd base_confidence volume_boost) (Fin 0.3)) (Fin 0.9) in
  Py.Ok (py_max confidence (Fin 0.1)).

Definition _calculate_breakout_strength
    (price_data : DataFrame) (breakout_level : pyfloat) (is_upward : bool)
  : pyfloat :=
  Py.try_except (breakout_strength_body price_data breakout_level is_upward)
                (Fin 0.5).

(** *** [_analyze_system]

    The arguments [symbol] and [atr_data] are not read by the function
    and are left out. *)

Definition _analyze_system
    (p : Params) (system_num : Z) (price_data : DataFrame)
  : Py.result SystemResult :=
  let entry_period :=
    if (system_num =? 1)%Z then system1_entry_period p
    else system2_entry_period p in
  let exit_period :=
    if (system_num =? 1)%Z then system1_exit_period p
    else system2_exit_period p in
  if (len price_data <? entry_period + 1)%nat then
    Py.Ok {| entry_signal := "NONE"; exit_signal := "NONE";
             entry_price := None; exit_price := None;
             breakout_high := None; breakout_low := None;
             exit_high := None; exit_low := None;
             confidence := Fin 0.0 |}
  else
    _current_price <- iloc_last (col close price_data) ;;
    current_high <- iloc_last (col high price_data) ;;
    current_low <- iloc_last (col low price_data) ;;
    let entry_high := series_max (iloc_window entry_period (col high price_data)) in
    let entry_low := series_min (iloc_window entry_period (col low price_data)) in
    let exits :=
      if (exit_period + 1 <=? len price_data)%nat
      then (series_max (iloc_window exit_period (col high price_data)),
            series_min (iloc_window exit_period (col low price_data)))
      else (entry_high, entry_low) in
    let entry :=
      if fgt current_high entry_high then
        ("BUY", Some entry_high,
         _calculate_breakout_strength price_data entry_high true)
      else if flt current_low entry_low then
        ("SELL", Some entry_low,
         _calculate_breakout_strength price_data entry_low false)
      else ("NONE", None, Fin 0.0) in
    let exit :=
      if flt current_low (snd exits) then ("EXIT_LONG", Some (snd exits))
      else if fgt current_high (fst exits) then ("EXIT_SHORT", Some (fst exits))
      else ("NONE", None) in
    Py.Ok {| entry_signal := fst (fst entry);
             exit_signal := fst exit;
             entry_price := snd (fst entry);
             exit_price := snd exit;
             breakout_high := Some entry_high;
             breakout_low := Some entry_low;
             exit_high := Some (fst exits);
             exit_low := Some (snd exits);
             confidence := snd entry |}.

(** *** [_combine_signals] *)

Definition _combine_signals (system1 system2 : SystemResult) : string :=
  if negb (entry_signal system2 =? "NONE")%string then
    entry_signal system2
  else if negb (entry_signal system1 =? "NONE")%string
          && fgt (confidence system1) (Fin 0.6) then
    entry_signal system1
  else if negb (exit_signal system2 =? "NONE")%string then
    "EXIT"
  else if negb (exit_signal system1 =? "NONE")%string then
    "EXIT"
  else
    "HOLD".

(** *** [_calculate_position_size]

    The divisor [atr] may reach the function as a Python or as a numpy
    number; the embedding takes the stricter reading of [/], where a zero
    divisor raises. *)

Definition py_div (x y : pyfloat) : Py.result pyfloat :=
  if is_zero y then Py.Raise Py.ZeroDivisionError else Py.Ok (fdiv x y).

Definition position_size_body
    (p : Params) (price_data : DataFrame) (atr : pyfloat)
  : Py.result pyfloat :=
  current_price <- iloc_last (col close price_data) ;;
  if fle atr (Fin 0) || fle current_price (Fin 0) then
    Py.Ok (Fin 0.05)
  else
    let risk_amount := fmul (total_capital p) (position_risk_pct p) in
    let dollar_volatility := atr in
    position_value <- py_div risk_amount dollar_volatility ;;
    position_size <- py_div position_value (total_capital p) ;;
    let max_position := unit_limit_single p in
    Py.Ok (py_min position_size max_position).

Definition _calculate_position_size
    (p : Params) (price_data : DataFrame) (atr : pyfloat) : pyfloat :=
  Py.try_except (position_size_body p price_data atr) (Fin 0.05).

(** *** [_calculate_stop_loss] *)

(** [None] stands for Python's [None].  The subtraction and the addition
    are exact here: a distance below half a unit in the last place of
    the close, which a float subtraction loses, is kept. *)
Definition stop_loss_body
    (p : Params) (price_data : DataFrame) (atr : pyfloat) (signal : string)
  : Py.result (option pyfloat) :=
  current_price <- iloc_last (col close price_data) ;;
  let stop_distance := fmul atr (stop_loss_atr_multiple p) in
  if (signal =? "BUY")%string then
    Py.Ok (Some (fsub current_price stop_distance))
  else if (signal =? "SELL")%string then
    Py.Ok (Some (fadd current_price stop_distance))
  else Py.Ok None.

Definition _calculate_stop_loss
    (p : Params) (price_data : DataFrame) (atr : pyfloat) (signal : string)
  : option pyfloat :=
  Py.try_except (stop_loss_body p price_data atr signal) None.

(** *** [analyze_turtle_signals]

    [price_data] is what [db_manager.get_daily_prices] returned and
    [atr_data] what [_calculate_atr] returned for it (an exponentially
    weighted mean, not embedded; the empty series when it failed).  The
    keys ['risk_metrics'], ['symbol'] and ['timestamp'] are left out:
    [_calculate_risk_metrics] catches its own exceptions and nothing
    else reads its result. *)

(** The value of the key ['error']: the fixed message of the length
    test, or the text of an exception. *)
Inductive ErrorText : Type :=
| DataShort
| Raised (e : Py.exn).

Record TurtleAnalysis : Type := {
  system1 : option SystemResult;
  system2 : option SystemResult;
  combined_signal : string;
  position_size : pyfloat;
  stop_loss : option pyfloat;
  error : option ErrorText
}.

Definition analyze_turtle_signals
    (p : Params) (price_data : DataFrame) (atr_data : Series)
  : TurtleAnalysis :=
  let result :=
    {| system1 := None; system2 := None; combined_signal := "HOLD";
       position_size := Fin 0; stop_loss := None; error := None |} in
  if (len price_data
      <? Nat.max (system2_entry_period p) (atr_period p) + 5)%nat
  then
    {| system1 := system1 result; system2 := system2 result;
       combined_signal := combined_signal result;
       position_size := position_size result;
       stop_loss := stop_loss result; error := Some DataShort |}
  else
    match (match atr_data with
           | [] => Py.Ok (Fin 0)
           | _ => iloc_last atr_data
           end) with
    | Py.Raise e =>
        {| system1 := None; system2 := None; combined_signal := "HOLD";
           position_size := Fin 0; stop_loss := None;
           error := Some (Raised e) |}
    | Py.Ok current_atr =>
        match _analyze_system p 1 price_data with
        | Py.Raise e =>
            {| system1 := None; system2 := None; combined_signal := "HOLD";
               position_size := Fin 0; stop_loss := None;
               error := Some (Raised e) |}
        | Py.Ok s1 =>
            match _analyze_system p 2 price_data with
            | Py.Raise e =>
                {| system1 := Some s1; system2 := None;
                   combined_signal := "HOLD";
                   position_size := Fin 0; stop_loss := None;
                   error := Some (Raised e) |}
            | Py.Ok s2 =>
                let combined := _combine_signals s1 s2 in
                if (combined =? "BUY")%string || (combined =? "SELL")%string
                then
                  {| system1 := Some s1; system2 := Some s2;
                     combined_signal := combined;
                     position_size :=
                       _calculate_position_size p price_data current_atr;
                     stop_loss :=
                       _calculate_stop_loss p price_data current_atr combined;
                     error := None |}
                else
                  {| system1 := Some s1; system2 := Some s2;
                     combined_signal := combined;
                     position_size := Fin 0; stop_loss := None;
                     error := None |}
            end
        end
    end.

(** *** [get_turtle_recommendation] *)

(** The text of the key ['reason']. *)
Inductive Reason : Type :=
| ErrorReason (e : ErrorText)
| Text (s : string).

Record Recommendation : Type := {
  recommendation : string;
  rec_confidence : pyfloat;
  reason : Reason;
  rec_position_size : option pyfloat;
  rec_stop_loss : option pyfloat;
  system_details : option (option SystemResult * option SystemResult)
}.

(** The decimal digits of a number in an f-string. *)
Definition decimal (n : nat) : string :=
  NilEmpty.string_of_uint (Nat.to_uint n).

(** [self.params[f'system{k}_entry_period']] for [k] 1 or 2. *)
Definition entry_period_of (p : Params) (active_system : nat) : nat :=
  if (active_system =? 2)%nat then system2_entry_period p
  else system1_entry_period p.

(** The confidence of a [system] dictionary; an empty dictionary has no
    such key. *)
Definition system_confidence (s : option SystemResult) : Py.result pyfloat :=
  match s with
  | Some r => Py.Ok (confidence r)
  | None => Py.Raise Py.KeyError
  end.

Definition system_entry (s : option SystemResult) : Py.result string :=
  match s with
  | Some r => Py.Ok (entry_signal r)
  | None => Py.Raise Py.KeyError
  end.

(** On an analysis that carries an error, the short dictionary is
    returned: it has no position size, stop loss or system details.  The
    function has no handler of its own. *)
Definition get_turtle_recommendation
    (p : Params) (price_data : DataFrame) (atr_data : Series)
  : Py.result Recommendation :=
  let turtle_analysis := analyze_turtle_signals p price_data atr_data in
  match error turtle_analysis with
  | Some e =>
      Py.Ok {| recommendation := "NO_ACTION"; rec_confidence := Fin 0.0;
               reason := ErrorReason e; rec_position_size := None;
               rec_stop_loss := None; system_details := None |}
  | None =>
      let signal := combined_signal turtle_analysis in
      let finish (c : pyfloat) (r : string) :=
        Py.Ok {| recommendation := signal; rec_confidence := c;
                 reason := Text r;
                 rec_position_size := Some (position_size turtle_analysis);
                 rec_stop_loss := stop_loss turtle_analysis;
                 system_details :=
                   Some (system1 turtle_analysis, system2 turtle_analysis) |} in
      if (signal =? "BUY")%string then
        e2 <- system_entry (system2 turtle_analysis) ;;
        let active_system := if (e2 =? "BUY")%string then 2%nat else 1%nat in
        c <- (if (active_system =? 2)%nat
              then system_confidence (system2 turtle_analysis)
              else system_confidence (system1 turtle_analysis)) ;;
        finish c
          ("价格突破" ++ decimal (entry_period_of p active_system)
           ++ "天高点，海龟系统" ++ decimal active_system ++ "发出买入信号")
      else if (signal =? "SELL")%string then
        e2 <- system_entry (system2 turtle_analysis) ;;
        let active_system := if (e2 =? "SELL")%string then 2%nat else 1%nat in
        c <- (if (active_system =? 2)%nat
              then system_confidence (system2 turtle_analysis)
              else system_confidence (system1 turtle_analysis)) ;;
        finish c
          ("价格跌破" ++ decimal (entry_period_of p active_system)
           ++ "天低点，海龟系统" ++ decimal active_system ++ "发出卖出信号")
      else if (signal =? "EXIT")%string then
        finish (Fin 0.8) "价格触发出场信号，建议平仓"
      else
        finish (Fin 0.3) "价格在震荡区间内，未触发海龟交易信号"
  end.

(** *** Reference quantities for the properties *)

(** The highest high of the [n] bars before the last one. *)
Definition trailing_high (n : nat) (price_data : DataFrame) : pyfloat :=
  series_max
    (List.firstn n (List.skipn (len price_data - (n + 1)) (col high price_data))).

End TurtleStrategy.

(* ===================================================================== *)
(** ** Indicators: [src/analysis/technical_indicators.py] *)
(* ===================================================================== *)

Module TechnicalIndicators.

Import PyFloat Pandas.
Local Open Scope Q_scope.

(** [s.rolling(window=w).agg()]: NaN until [w] observations are there
    and whenever the window holds a NaN. *)
Definition rolling (agg : Series -> pyfloat) (window : nat) (s : Series)
  : Series :=
  List.map
    (fun i =>
       if (i + 1 <? window)%nat then NaN
       else
         let w := List.firstn window (List.skipn (i + 1 - window) s) in
         if List.existsb isna w then NaN else agg w)
    (List.seq 0 (List.length s)).

(** Element-wise arithmetic of two series of one frame. *)
Definition map2 (f : pyfloat -> pyfloat -> pyfloat) (a b : Series) : Series :=
  List.map (fun xy => f (fst xy) (snd xy)) (List.combine a b).

Definition nan_series (n : nat) : Series := List.repeat NaN n.

(** [rsv = (close - lowest_low) / (highest_high - lowest_low) * 100] *)
Definition rsv_series (high low close : Series) (k_period : nat) : Series :=
  let lowest_low := rolling series_min k_period low in
  let highest_high := rolling series_max k_period high in
  List.map (fun x => fmul x (Fin 100))
    (map2 fdiv (map2 fsub close lowest_low)
               (map2 fsub highest_high lowest_low)).

(** One step of either smoothing loop:
    [(2/3) * prev + (1/3) * val]. *)
Definition smooth_step (prev val : pyfloat) : pyfloat :=
  fadd (fmul (Fin (2 / 3)) prev) (fmul (Fin (1 / 3)) val).

(** The two loops of [calculate_kdj] ([for rsv_val in rsv] with
    [k_prev], [for k_val in k_series] with [d_prev]) have the same body;
    [prev] is the loop's carried variable, the result the list the loop
    appends to. *)
Fixpoint smooth_loop (prev : pyfloat) (vals : Series) : Series :=
  match vals with
  | [] => []
  | val :: rest =>
      if isna val then NaN :: smooth_loop prev rest
      else
        let current := smooth_step prev val in
        current :: smooth_loop current rest
  end.

Record KDJ : Type := {
  kdj_k : Series;
  kdj_d : Series;
  kdj_j : Series
}.

(** [d_period] and [j_period] are accepted and not read. *)
Definition calculate_kdj (high low close : Series) (k_period : nat) : KDJ :=
  if (List.length close <? k_period)%nat then
    let nan := nan_series (List.length close) in
    {| kdj_k := nan; kdj_d := nan; kdj_j := nan |}
  else
    let rsv := rsv_series high low close k_period in
    let k_series := smooth_loop (Fin 50) rsv in
    let d_series := smooth_loop (Fin 50) k_series in
    let j_series :=
      map2 fsub (List.map (fmul (Fin 3)) k_series)
                (List.map (fmul (Fin 2)) d_series) in
    {| kdj_k := k_series; kdj_d := d_series; kdj_j := j_series |}.

(** *** [get_latest_signals] *)

(** A row of the augmented frame, restricted to the columns the detector
    reads.  A column that is missing reads as NaN: [latest.get(c)] is
    then [None], and [pd.isna(None)] holds.  [kdj_k_val] and [kdj_d_val]
    are the columns ['kdj_k'] and ['kdj_d']. *)
Record Row : Type := {
  close : pyfloat;
  ma5 : pyfloat;
  ma20 : pyfloat;
  macd : pyfloat;
  macd_signal : pyfloat;
  rsi : pyfloat;
  kdj_k_val : pyfloat;
  kdj_d_val : pyfloat;
  boll_upper : pyfloat;
  boll_lower : pyfloat
}.

(** The [signals] dictionary: a field is [true] when the key was set. *)
Record Signals : Type := {
  ma_golden_cross : bool;
  ma_death_cross : bool;
  macd_golden_cross : bool;
  macd_death_cross : bool;
  rsi_overbought : bool;
  rsi_oversold : bool;
  kdj_golden_cross : bool;
  kdj_death_cross : bool;
  boll_breakthrough_upper : bool;
  boll_breakthrough_lower : bool
}.

Definition no_signals : Signals := {|
  ma_golden_cross := false; ma_death_cross := false;
  macd_golden_cross := false; macd_death_cross := false;
  rsi_overbought := false; rsi_oversold := false;
  kdj_golden_cross := false; kdj_death_cross := false;
  boll_breakthrough_upper := false; boll_breakthrough_lower := false
|}.

(** The [if ... elif ...] pair of a crossover of line [a] over line [b],
    under the guard on the latest row. *)
Definition golden (a b : Row -> pyfloat) (prev latest : Row) : bool :=
  negb (isna (a latest)) && negb (isna (b latest))
  && (fgt (a latest) (b latest) && fle (a prev) (b prev)).

Definition death (a b : Row -> pyfloat) (prev latest : Row) : bool :=
  negb (isna (a latest)) && negb (isna (b latest))
  && negb (fgt (a latest) (b latest) && fle (a prev) (b prev))
  && (flt (a latest) (b latest) && fge (a prev) (b prev)).

Definition signals_of_rows (prev latest : Row) : Signals := {|
  ma_golden_cross := golden ma5 ma20 prev latest;
  ma_death_cross := death ma5 ma20 prev latest;
  macd_golden_cross := golden macd macd_signal prev latest;
  macd_death_cross := death macd macd_signal prev latest;
  rsi_overbought :=
    negb (isna (rsi latest)) && fgt (rsi latest) (Fin 70);
  rsi_oversold :=
    negb (isna (rsi latest)) && negb (fgt (rsi latest) (Fin 70))
    && flt (rsi latest) (Fin 30);
  kdj_golden_cross := golden kdj_k_val kdj_d_val prev latest;
  kdj_death_cross := death kdj_k_val kdj_d_val prev latest;
  boll_breakthrough_upper :=
    negb (isna (close latest)) && negb (isna (boll_upper latest))
    && negb (isna (boll_lower latest))
    && fgt (close latest) (boll_upper latest);
  boll_breakthrough_lower :=
    negb (isna (close latest)) && negb (isna (boll_upper latest))
    && negb (isna (boll_lower latest))
    && negb (fgt (close latest) (boll_upper latest))
    && flt (close latest) (boll_lower latest)
|}.

(** [latest = df.iloc[-1]], [prev = df.iloc[-2]]; an empty dictionary on
    fewer than two rows. *)
Definition get_latest_signals (df : list Row) : Signals :=
  match List.rev df with
  | latest :: prev :: _ => signals_of_rows prev latest
  | _ => no_signals
  end.

(** *** Reference quantities for the properties *)

Definition present (x : pyfloat) : Prop := isna x = false.

(** A value that is a number or NaN, not an infinity. *)
Definition no_inf (x : pyfloat) : Prop :=
  match x with PInf | NInf => False | _ => True end.

(** Both lines of a crossover present on both rows. *)
Definition present_on_both (a b : Row -> pyfloat) (prev latest : Row) : Prop :=
  present (a prev) /\ present (b prev)
  /\ present (a latest) /\ present (b latest).

(** *** [calculate_rsi] *)

(** [s.diff()]: the first row has no predecessor. *)
Definition diff (s : Series) : Series :=
  match s with
  | [] => []
  | _ :: rest => NaN :: map2 fsub rest s
  end.

(** [s.where(cond, other)], for a condition computed row by row from
    [s] itself. *)
Definition where_ (cond : pyfloat -> bool) (other : pyfloat) (s : Series)
  : Series :=
  List.map (fun x => if cond x then x else other) s.

Definition calculate_rsi (prices : Series) (period : nat) : Series :=
  if (List.length prices <? period + 1)%nat then
    nan_series (List.length prices)
  else
    let delta := diff prices in
    let gain := where_ (fun d => fgt d (Fin 0)) (Fin 0) delta in
    let loss := List.map fneg (where_ (fun d => flt d (Fin 0)) (Fin 0) delta) in
    let avg_gain := rolling series_mean period gain in
    let avg_loss := rolling series_mean period loss in
    let rs := map2 fdiv avg_gain avg_loss in
    List.map (fun r => fsub (Fin 100) (fdiv (Fin 100) (fadd (Fin 1) r))) rs.

(** *** [calculate_obv] *)

(** The loop over [enumerate(zip(price_change, volume))]: [i] is the
    index, [obv_current] the running total, the result the list the loop
    appends to. *)
Fixpoint obv_loop (i : nat) (obv_current : pyfloat)
    (rows : list (pyfloat * pyfloat)) : Series :=
  match rows with
  | [] => []
  | (price_diff, vol) :: rest =>
      if (i =? 0)%nat || isna price_diff || isna vol then
        NaN :: obv_loop (S i) obv_current rest
      else
        let obv_current :=
          if fgt price_diff (Fin 0) then fadd obv_current vol
          else if flt price_diff (Fin 0) then fsub obv_current vol
          else obv_current in
        obv_current :: obv_loop (S i) obv_current rest
  end.

(** [None] stands for the [ValueError] of [pd.Series(obv_values,
    index=close.index)] when [zip] stopped at a shorter [volume]. *)
Definition calculate_obv (close volume : Series) : option Series :=
  if (List.length close <? 2)%nat then
    Some (nan_series (List.length close))
  else
    let price_change := diff close in
    let obv_values := obv_loop 0 (Fin 0) (List.combine price_change volume) in
    if (List.length obv_values =? List.length close)%nat
    then Some obv_values
    else None.

(** *** Reference quantities for [calculate_obv] *)

(** The last value of a series that is not NaN, [default] when there is
    none. *)
Definition last_value (default : pyfloat) (s : Series) : pyfloat :=
  List.fold_left (fun acc x => if isna x then acc else x) s default.

End TechnicalIndicators.

(* ===================================================================== *)
(** ** Summary of an analysis: [src/analysis/engine.py] *)
(* ===================================================================== *)

Module AnalysisEngine.

Import PyFloat TechnicalIndicators.
Import Py.Notations.
Local Open Scope string_scope.

(** The [status] dictionary; [None] is a key that was not set. *)
Record TechnicalStatus : Type := {
  trend : option string;
  rsi_status : option string;
  macd_status : option string
}.

(** [_analyze_technical_status]: [df.iloc[-1]] raises on an empty frame
    (the caller tests for it).  As in [Row], a column that is missing
    reads as NaN: the guard [c in latest and pd.notna(latest[c])] fails
    for both. *)
Definition _analyze_technical_status (df : list Row)
  : Py.result TechnicalStatus :=
  latest <- Py.of_option Py.IndexError (List.last (List.map Some df) None) ;;
  Py.Ok
    {| trend :=
         if negb (isna (ma5 latest)) && negb (isna (ma20 latest)) then
           if fgt (ma5 latest) (ma20 latest) then Some "上升趋势"
           else Some "下降趋势"
         else None;
       rsi_status :=
         if negb (isna (rsi latest)) then
           let rsi_val := rsi latest in
           if fgt rsi_val (Fin 70) then Some "超买"
           else if flt rsi_val (Fin 30) then Some "超卖"
           else Some "正常"
         else None;
       macd_status :=
         if negb (isna (macd latest)) && negb (isna (macd_signal latest)) then
           if fgt (macd latest) (macd_signal latest) then Some "多头"
           else Some "空头"
         else None |}.

(** [signals.keys()]: the keys [get_latest_signals] has set, in the
    order it sets them. *)
Definition signal_keys (s : Signals) : list string :=
  ((if ma_golden_cross s then ["ma_golden_cross"] else [])
   ++ (if ma_death_cross s then ["ma_death_cross"] else [])
   ++ (if macd_golden_cross s then ["macd_golden_cross"] else [])
   ++ (if macd_death_cross s then ["macd_death_cross"] else [])
   ++ (if rsi_overbought s then ["rsi_overbought"] else [])
   ++ (if rsi_oversold s then ["rsi_oversold"] else [])
   ++ (if kdj_golden_cross s then ["kdj_golden_cross"] else [])
   ++ (if kdj_death_cross s then ["kdj_death_cross"] else [])
   ++ (if boll_breakthrough_upper s then ["boll_breakthrough_upper"] else [])
   ++ (if boll_breakthrough_lower s then ["boll_breakthrough_lower"] else []))%list.

(** [keyword in signal] on strings: [keyword] occurs in [signal]. *)
Fixpoint contains (keyword signal : string) : bool :=
  String.prefix keyword signal
  || match signal with
     | EmptyString => false
     | String _ rest => contains keyword rest
     end.

(** The loop over [signals.keys()], on the two counters. *)
Fixpoint count_signals (keys : list string) (positive_signals negative_signals : nat)
  : nat * nat :=
  match keys with
  | [] => (positive_signals, negative_signals)
  | signal :: rest =>
      if List.existsb (fun keyword => contains keyword signal)
           ["golden_cross"; "oversold"; "breakthrough_lower"]
      then count_signals rest (positive_signals + 1) negative_signals
      else if List.existsb (fun keyword => contains keyword signal)
                ["death_cross"; "overbought"; "breakthrough_upper"]
      then count_signals rest positive_signals (negative_signals + 1)
      else count_signals rest positive_signals negative_signals
  end.

(** [_generate_recommendation(df, signals)]; of [signals] only the keys
    are read. *)
Definition _generate_recommendation (df : list Row) (signals : list string)
  : string :=
  match df with
  | [] => "数据不足，无法给出建议"
  | _ =>
      let counts := count_signals signals 0 0 in
      let positive_signals := fst counts in
      let negative_signals := snd counts in
      if (negative_signals <? positive_signals)%nat then
        "建议关注，可能存在买入机会"
      else if (positive_signals <? negative_signals)%nat then
        "建议谨慎，可能存在风险"
      else "建议观望，保持关注"
  end.

(** *** Reference quantities for the properties *)

Definition count_true (l : list bool) : nat :=
  List.length (List.filter (fun b => b) l).

(** The signals that speak for a purchase, and the ones that speak
    against. *)
Definition bullish (s : Signals) : nat :=
  count_true [ma_golden_cross s; macd_golden_cross s; rsi_oversold s;
              kdj_golden_cross s; boll_breakthrough_lower s].

Definition bearish (s : Signals) : nat :=
  count_true [ma_death_cross s; macd_death_cross s; rsi_overbought s;
              kdj_death_cross s; boll_breakthrough_upper s].

End AnalysisEngine.

(* ===================================================================== *)
(** ** Rows read back from the indicator table *)
(* ===================================================================== *)

Module TechData.

Import PyFloat.

(** A cell of a row of the frame that [get_technical_indicators]
    builds from the indicator table: the column may be missing from the
    frame; it holds Python's [None] when every row of the column is
    NULL (the column then has no float type); otherwise it holds a float,
    NaN for a NULL. *)
Inductive Cell : Type :=
| Absent
| PyNone
| Value (v : pyfloat).

(** The columns that the strategy and the risk scorer read. *)
Record TechRow : Type := {
  ma5 : Cell;
  ma20 : Cell;
  rsi : Cell;
  macd : Cell;
  macd_signal : Cell
}.

(** [row.get(key, default)]: [None] is Python's [None]. *)
Definition get (c : Cell) (default : pyfloat) : option pyfloat :=
  match c with
  | Absent => Some default
  | PyNone => None
  | Value v => Some v
  end.

(** What a call does: it returns, or an [IndexError], a [TypeError] or
    a [ValueError] escapes. *)
Inductive Outcome (A : Type) : Type :=
| Done (a : A)
| IndexErr
| TypeErr
| ValueErr.

Arguments Done {A} a.
Arguments IndexErr {A}.
Arguments TypeErr {A}.
Arguments ValueErr {A}.

Definition and_then {A B : Type} (m : Outcome A) (k : A -> Outcome B)
  : Outcome B :=
  match m with
  | Done a => k a
  | IndexErr => IndexErr
  | TypeErr => TypeErr
  | ValueErr => ValueErr
  end.

(** An order comparison of two objects: [None] is not ordered against
    anything. *)
Definition compare (op : pyfloat -> pyfloat -> bool) (x y : option pyfloat)
  : Outcome bool :=
  match x, y with
  | Some a, Some b => Done (op a b)
  | _, _ => TypeErr
  end.

(** *** Reference quantities for the properties *)

Definition is_none (c : Cell) : bool :=
  match c with PyNone => true | _ => false end.

(** The value a cell is read as, when it is not [None]. *)
Definition cell_value (c : Cell) (default : pyfloat) : pyfloat :=
  match c with Value v => v | _ => default end.

End TechData.

(* ===================================================================== *)
(** ** Retail strategy: [src/strategy/retail_strategy.py] *)
(* ===================================================================== *)

Module RetailStrategy.

Import PyFloat.
Local Open Scope string_scope.
Local Open Scope Q_scope.

(** [self.params]: the one key [_make_combined_decision] reads, through
    [self.params.get('turtle_weight', 0.6)]. *)
Record Params : Type := {
  turtle_weight : option pyfloat
}.

Definition params : Params := {| turtle_weight := Some (Fin 0.6) |}.

Definition get_turtle_weight (p : Params) : pyfloat :=
  match turtle_weight p with Some w => w | None => Fin 0.6 end.

(** The dictionary of [_analyze_traditional_signals]. *)
Record TraditionalSignals : Type := {
  trend : pyfloat;
  technical : pyfloat;
  volume : pyfloat
}.

(** The keys of the turtle recommendation that the decision reads;
    [confidence] and [reason] are read with a default. *)
Record TurtleSignals : Type := {
  recommendation : string;
  turtle_confidence : option pyfloat;
  reason : option string
}.

Record Decision : Type := {
  action : string;
  confidence : pyfloat;
  reasons : list string;
  traditional_score : pyfloat;
  turtle_score : pyfloat;
  total_score : pyfloat
}.

(** [sum(traditional_signals.values())], from the start value 0. *)
Definition sum_values (t : TraditionalSignals) : pyfloat :=
  fadd (fadd (fadd (Fin 0) (trend t)) (technical t)) (volume t).

Definition traditional_reasons (t : TraditionalSignals) : list string :=
  (if fgt (trend t) (Fin 0) then ["短期均线上穿长期均线"]
   else if flt (trend t) (Fin 0) then ["短期均线下穿长期均线"]
   else [])
  ++ (if fgt (technical t) (Fin 0.2) then ["技术指标显示超卖或多头信号"]
      else if flt (technical t) (Fin (-0.2)) then ["技术指标显示超买或空头信号"]
      else [])
  ++ (if fgt (volume t) (Fin 0) then ["放量上涨"]
      else if flt (volume t) (Fin 0) then ["放量下跌"]
      else []).

(** [None] for either argument stands for Python's [None] and for an
    empty dictionary: both are false in a condition. *)
Definition _make_combined_decision
    (p : Params) (traditional_signals : option TraditionalSignals)
    (turtle_signals : option TurtleSignals) : Decision :=
  let traditional_score :=
    match traditional_signals with
    | Some t => sum_values t
    | None => Fin 0
    end in
  let traditional_weight := fsub (Fin 1) (get_turtle_weight p) in
  let turtle :=
    match turtle_signals with
    | Some ts =>
        if negb (recommendation ts =? "NO_ACTION")%string then
          let turtle_confidence :=
            match turtle_confidence ts with Some c => c | None => Fin 0 end in
          if (recommendation ts =? "BUY")%string then
            (turtle_confidence,
             [("海龟策略: "
               ++ match reason ts with Some r => r | None => "买入信号" end)%string])
          else if (recommendation ts =? "SELL")%string then
            (fneg turtle_confidence,
             [("海龜策略: "
               ++ match reason ts with Some r => r | None => "卖出信号" end)%string])
          else if (recommendation ts =? "EXIT")%string then
            (Fin (-0.8), ["海龜策略: 触发出场信号"])
          else (Fin 0, [])
        else (Fin 0, [])
    | None => (Fin 0, [])
    end in
  let turtle_score := fst turtle in
  let turtle_reasons := snd turtle in
  let total_score :=
    fadd (fmul traditional_score traditional_weight)
         (fmul turtle_score (get_turtle_weight p)) in
  let reasons :=
    (match traditional_signals with
     | Some t => traditional_reasons t
     | None => []
     end ++ turtle_reasons)%list in
  if fgt total_score (Fin 0.3) then
    {| action := "BUY";
       confidence := py_min (Fin 0.9) (fadd (Fin 0.5) (fabs total_score));
       reasons := reasons;
       traditional_score := traditional_score;
       turtle_score := turtle_score;
       total_score := total_score |}
  else if flt total_score (Fin (-0.3)) then
    {| action := "SELL";
       confidence := py_min (Fin 0.9) (fadd (Fin 0.5) (fabs total_score));
       reasons := reasons;
       traditional_score := traditional_score;
       turtle_score := turtle_score;
       total_score := total_score |}
  else
    {| action := "HOLD";
       confidence := Fin 0.5;
       reasons :=
         match reasons with
         | [] => ["信号不明确，建议观望"]
         | _ => reasons
         end;
       traditional_score := traditional_score;
       turtle_score := turtle_score;
       total_score := total_score |}.

(** *** [_analyze_traditional_signals] *)

(** The other keys of [self.params]. *)
Record SignalParams : Type := {
  stop_loss_ratio : pyfloat;
  take_profit_ratio : pyfloat;
  oversold_threshold : pyfloat;
  overbought_threshold : pyfloat;
  volume_spike_ratio : pyfloat
}.

Definition signal_params : SignalParams := {|
  stop_loss_ratio := Fin 0.08;
  take_profit_ratio := Fin 0.15;
  oversold_threshold := Fin 30;
  overbought_threshold := Fin 70;
  volume_spike_ratio := Fin 2.0
|}.

(** The volume signal, on a frame whose price columns hold floats. *)
Definition volume_signal (sp : SignalParams)
    (price_data : TurtleStrategy.DataFrame) (latest_price : TurtleStrategy.Bar)
  : pyfloat :=
  if (20 <=? TurtleStrategy.len price_data)%nat
     && TurtleStrategy.has_volume price_data
  then
    let avg_volume :=
      Pandas.series_mean
        (Pandas.tail 20 (TurtleStrategy.col TurtleStrategy.volume price_data)) in
    let current_volume := TurtleStrategy.volume latest_price in
    if fgt current_volume (fmul avg_volume (volume_spike_ratio sp)) then
      let price_change :=
        fsub (TurtleStrategy.close latest_price)
             (TurtleStrategy.close
                (List.nth (TurtleStrategy.len price_data - 2)
                          (TurtleStrategy.rows price_data) latest_price)) in
      if fgt price_change (Fin 0) then fadd (Fin 0) (Fin 0.2)
      else fsub (Fin 0) (Fin 0.1)
    else Fin 0
  else Fin 0.

Definition _analyze_traditional_signals (sp : SignalParams)
    (price_data : TurtleStrategy.DataFrame) (tech_data : list TechData.TechRow)
  : TechData.Outcome TraditionalSignals :=
  match List.last (List.map Some tech_data) None with
  | None =>
      TechData.Done {| trend := Fin 0; technical := Fin 0; volume := Fin 0 |}
  | Some latest_tech =>
      match List.last (List.map Some (TurtleStrategy.rows price_data)) None with
      | None => TechData.IndexErr
      | Some latest_price =>
          let ma5 := TechData.get (TechData.ma5 latest_tech) (Fin 0) in
          let ma20 := TechData.get (TechData.ma20 latest_tech) (Fin 0) in
          TechData.and_then (TechData.compare fgt ma5 ma20) (fun rising =>
          let trend :=
            if rising then fadd (Fin 0) (Fin 0.3)
            else fsub (Fin 0) (Fin 0.3) in
          let rsi := TechData.get (TechData.rsi latest_tech) (Fin 50) in
          TechData.and_then
            (TechData.compare flt rsi (Some (oversold_threshold sp)))
            (fun oversold =>
          TechData.and_then
            (if oversold then TechData.Done false
             else TechData.compare fgt rsi (Some (overbought_threshold sp)))
            (fun overbought =>
          let technical :=
            if oversold then fadd (Fin 0) (Fin 0.4)
            else if overbought then fsub (Fin 0) (Fin 0.4)
            else Fin 0 in
          let macd := TechData.get (TechData.macd latest_tech) (Fin 0) in
          let macd_signal :=
            TechData.get (TechData.macd_signal latest_tech) (Fin 0) in
          TechData.and_then (TechData.compare fgt macd macd_signal)
            (fun above =>
          let technical :=
            if above then fadd technical (Fin 0.2)
            else fsub technical (Fin 0.2) in
          TechData.Done
            {| trend := trend; technical := technical;
               volume := volume_signal sp price_data latest_price |}))))
      end
  end.

(** *** [_calculate_enhanced_risk_management] *)

(** The keys of the turtle recommendation that the function reads.
    [turtle_stop_loss] and [risk_atr_pct] (which is
    [risk_metrics['atr_pct']]) are read through [get] and tested for
    truth: they are [None] when the key is missing or holds [None].
    [turtle_position_size] is read through [get('position_size', 0.1)]
    and stored as it is: the outer [None] is a missing key, [Some None]
    a key that holds [None]. *)
Record TurtleRisk : Type := {
  turtle_stop_loss : option pyfloat;
  turtle_position_size : option (option pyfloat);
  risk_atr_pct : option pyfloat
}.

(** A field is [None] when the key of the result holds [None]. *)
Record RiskManagement : Type := {
  entry_price : pyfloat;
  stop_loss : option pyfloat;
  take_profit : option pyfloat;
  position_size : option pyfloat
}.

(** The truth value of a number or [None] in a condition: [None] and
    zero are false, NaN is true. *)
Definition truthy (x : option pyfloat) : bool :=
  match x with
  | Some v => negb (is_zero v)
  | None => false
  end.

(** [volatility] is [price_data['close'].pct_change().std()], a
    statistic that is not embedded; [None] for [turtle_signals] is
    Python's [None] or an empty dictionary.  The [IndexError] of an empty
    frame escapes to the caller. *)
Definition _calculate_enhanced_risk_management (sp : SignalParams)
    (price_data : TurtleStrategy.DataFrame) (volatility : pyfloat)
    (action : string) (turtle_signals : option TurtleRisk)
  : Py.result RiskManagement :=
  Py.bind (Pandas.iloc_last (TurtleStrategy.col TurtleStrategy.close price_data))
    (fun current_price =>
  let one := Fin 1 in
  if (action =? "BUY")%string || (action =? "SELL")%string then
    match turtle_signals with
    | Some ts =>
        if truthy (turtle_stop_loss ts) then
          let atr_pct :=
            match risk_atr_pct ts with
            | Some a => fdiv a (Fin 100)
            | None => NaN
            end in
          Py.Ok
            {| entry_price := current_price;
               stop_loss := turtle_stop_loss ts;
               take_profit :=
                 if (action =? "BUY")%string && truthy (risk_atr_pct ts) then
                   Some (fmul current_price
                           (fadd one (fmul atr_pct (Fin 2))))
                 else if (action =? "SELL")%string
                         && truthy (risk_atr_pct ts) then
                   Some (fmul current_price
                           (fsub one (fmul atr_pct (Fin 2))))
                 else None;
               position_size :=
                 match turtle_position_size ts with
                 | Some stored => stored
                 | None => Some (Fin 0.1)
                 end |}
        else
          Py.Ok
            {| entry_price := current_price;
               stop_loss :=
                 if (action =? "BUY")%string then
                   Some (fmul current_price (fsub one (stop_loss_ratio sp)))
                 else
                   Some (fmul current_price (fadd one (stop_loss_ratio sp)));
               take_profit :=
                 if (action =? "BUY")%string then
                   Some (fmul current_price (fadd one (take_profit_ratio sp)))
                 else
                   Some (fmul current_price (fsub one (take_profit_ratio sp)));
               position_size :=
                 if fgt volatility (Fin 0.05) then Some (Fin 0.05)
                 else if fgt volatility (Fin 0.03) then Some (Fin 0.1)
                 else Some (Fin 0.15) |}
    | None =>
        Py.Ok
          {| entry_price := current_price;
             stop_loss :=
               if (action =? "BUY")%string then
                 Some (fmul current_price (fsub one (stop_loss_ratio sp)))
               else
                 Some (fmul current_price (fadd one (stop_loss_ratio sp)));
             take_profit :=
               if (action =? "BUY")%string then
                 Some (fmul current_price (fadd one (take_profit_ratio sp)))
               else
                 Some (fmul current_price (fsub one (take_profit_ratio sp)));
             position_size :=
               if fgt volatility (Fin 0.05) then Some (Fin 0.05)
               else if fgt volatility (Fin 0.03) then Some (Fin 0.1)
               else Some (Fin 0.15) |}
    end
  else
    Py.Ok {| entry_price := current_price; stop_loss := None;
             take_profit := None; position_size := Some (Fin 0.1) |}).

(** *** Reference quantities for the properties *)

(** The turtle recommendation adds nothing to the score: there is none,
    or it is neither BUY, SELL nor EXIT. *)
Definition turtle_silent (turtle_signals : option TurtleSignals) : bool :=
  match turtle_signals with
  | None => true
  | Some ts =>
      negb ((recommendation ts =? "BUY")%string
            || (recommendation ts =? "SELL")%string
            || (recommendation ts =? "EXIT")%string)
  end.

(** The conditions that [_analyze_traditional_signals] tests on the last
    indicator row. *)
Definition ma_rising (row : TechData.TechRow) : bool :=
  fgt (TechData.cell_value (TechData.ma5 row) (Fin 0))
      (TechData.cell_value (TechData.ma20 row) (Fin 0)).

Definition rsi_oversold (sp : SignalParams) (row : TechData.TechRow) : bool :=
  flt (TechData.cell_value (TechData.rsi row) (Fin 50)) (oversold_threshold sp).

Definition rsi_overbought (sp : SignalParams) (row : TechData.TechRow) : bool :=
  negb (rsi_oversold sp row)
  && fgt (TechData.cell_value (TechData.rsi row) (Fin 50))
         (overbought_threshold sp).

Definition macd_above (row : TechData.TechRow) : bool :=
  fgt (TechData.cell_value (TechData.macd row) (Fin 0))
      (TechData.cell_value (TechData.macd_signal row) (Fin 0)).

(** The position size of a result, when the call returns. *)
Definition returned_position_size (r : Py.result RiskManagement)
  : option (option pyfloat) :=
  match r with
  | Py.Ok m => Some (position_size m)
  | Py.Raise _ => None
  end.

Definition has_none (row : TechData.TechRow) : bool :=
  TechData.is_none (TechData.ma5 row) || TechData.is_none (TechData.ma20 row)
  || TechData.is_none (TechData.rsi row) || TechData.is_none (TechData.macd row)
  || TechData.is_none (TechData.macd_signal row).

End RetailStrategy.

(* ===================================================================== *)
(** ** Risk assessment: [src/risk/assessment.py] *)
(* ===================================================================== *)

Module RiskAssessment.

Import PyFloat Pandas.
Local Open Scope string_scope.
Local Open Scope Q_scope.

(** One entry of [risk_factors]. *)
Record RiskFactor : Type := {
  factor : string;
  score : pyfloat;
  level : string
}.

(** The five factor scorers.  Each one catches its own exceptions and
    always returns an entry; the statistics they compute are not part of
    the embedding.  The two columns that the volume and the trend scorer
    add to the frame are read by no other scorer. *)
Record Scorers : Type := {
  _assess_volatility_risk : DataSource.Frame -> RiskFactor;
  _assess_volume_risk : DataSource.Frame -> RiskFactor;
  _assess_technical_risk : DataSource.Frame -> RiskFactor;
  _assess_trend_risk : DataSource.Frame -> RiskFactor;
  _assess_liquidity_risk : DataSource.Frame -> RiskFactor
}.

Record Assessment : Type := {
  risk_level : string;
  risk_score : pyfloat;
  risk_factors : list RiskFactor
}.

Definition _determine_risk_level (risk_score : pyfloat) : string :=
  if flt risk_score (Fin 30) then "低风险"
  else if flt risk_score (Fin 60) then "中风险"
  else "高风险".

(** [assess_stock_risk], on the frame [df] that [get_daily_prices]
    returned; the warnings and recommendations derived from the result
    are left out. *)
Definition assess_stock_risk (scorers : Scorers) (df : DataSource.Frame)
  : Assessment :=
  if (List.length df <? 10)%nat then
    {| risk_level := "data_insufficient"; risk_score := Fin 0;
       risk_factors := [] |}
  else
    let risk_factors :=
      [ _assess_volatility_risk scorers df;
        _assess_volume_risk scorers df;
        _assess_technical_risk scorers df;
        _assess_trend_risk scorers df;
        _assess_liquidity_risk scorers df ] in
    let risk_scores := List.map score risk_factors in
    let risk_score := np_mean risk_scores in
    {| risk_level := _determine_risk_level risk_score;
       risk_score := risk_score;
       risk_factors := risk_factors |}.

(** *** [_assess_technical_risk] *)

(** [c in latest and pd.notna(latest[c])]: the value of a cell that
    passes the guard. *)
Definition guarded (c : TechData.Cell) : option pyfloat :=
  match c with
  | TechData.Value v => if isna v then None else Some v
  | _ => None
  end.

(** [f'{latest.get("rsi", "N/A"):.1f}']: a float is formatted, the
    string of the default and [None] are not. *)
Definition format_rsi (c : TechData.Cell) : TechData.Outcome unit :=
  match c with
  | TechData.Absent => TechData.ValueErr
  | TechData.PyNone => TechData.TypeErr
  | TechData.Value _ => TechData.Done tt
  end.

(** The body of the [try]; [tech_df] is what [get_technical_indicators]
    returned.  The score is a Python integer.  Of the entry returned the
    keys ['details'] and ['description'] are left out, not the errors
    that building them raises. *)
Definition technical_risk_body (tech_df : list TechData.TechRow)
  : TechData.Outcome RiskFactor :=
  match List.last (List.map Some tech_df) None with
  | None =>
      TechData.Done
        {| factor := "技术指标"; score := Fin 40; level := "无数据" |}
  | Some latest =>
      let score := 20%Z in
      let score :=
        match guarded (TechData.rsi latest) with
        | Some rsi =>
            if fgt rsi (Fin 80) then (score + 25)%Z
            else if fgt rsi (Fin 70) then (score + 15)%Z
            else if flt rsi (Fin 20) then (score + 20)%Z
            else if flt rsi (Fin 30) then (score + 10)%Z
            else score
        | None => score
        end in
      let score :=
        match guarded (TechData.macd latest),
              guarded (TechData.macd_signal latest) with
        | Some macd, Some macd_signal =>
            let macd_diff := fsub macd macd_signal in
            if fgt (fabs macd_diff) (Fin 0.5) then (score + 15)%Z else score
        | _, _ => score
        end in
      let score :=
        match guarded (TechData.ma5 latest),
              guarded (TechData.ma20 latest) with
        | Some ma5, Some ma20 =>
            let ma_deviation := fdiv (fabs (fsub ma5 ma20)) ma20 in
            if fgt ma_deviation (Fin 0.1) then (score + 20)%Z
            else if fgt ma_deviation (Fin 0.05) then (score + 10)%Z
            else score
        | _, _ => score
        end in
      let level :=
        if (score <? 40)%Z then "低"
        else if (score <? 70)%Z then "中" else "高" in
      TechData.and_then
        (TechData.compare fgt
           (TechData.get (TechData.macd latest) (Fin 0))
           (TechData.get (TechData.macd_signal latest) (Fin 0)))
        (fun _macd_status =>
      TechData.and_then (format_rsi (TechData.rsi latest)) (fun _ =>
      TechData.Done
        {| factor := "技术指标";
           score := Fin (inject_Z (Z.min score 100));
           level := level |}))
  end.

(** [_assess_technical_risk]: the handler turns every exception into a
    fixed entry.  (The name with the leading underscore is the field of
    [Scorers].) *)
Definition assess_technical_risk (tech_df : list TechData.TechRow)
  : RiskFactor :=
  match technical_risk_body tech_df with
  | TechData.Done r => r
  | _ => {| factor := "技术指标"; score := Fin 50; level := "未知" |}
  end.

(** The rows on which building the entry raises: the RSI cell is not a
    float, or one of the two MACD cells is [None]. *)
Definition entry_raises (row : TechData.TechRow) : bool :=
  match TechData.rsi row with TechData.Value _ => false | _ => true end
  || TechData.is_none (TechData.macd row)
  || TechData.is_none (TechData.macd_signal row).

(** *** [_generate_warnings] *)

(** An entry of [risk_factors] with the key ['description']. *)
Record RiskEntry : Type := {
  entry : RiskFactor;
  description : string
}.

Fixpoint _generate_warnings (risk_factors : list RiskEntry) : list string :=
  match risk_factors with
  | [] => []
  | f :: rest =>
      if fgt (score (entry f)) (Fin 70) then
        ("⚠️ " ++ factor (entry f) ++ "风险较高: " ++ description f)
        :: _generate_warnings rest
      else if fgt (score (entry f)) (Fin 50) then
        ("⚡ " ++ factor (entry f) ++ "存在风险: " ++ description f)
        :: _generate_warnings rest
      else _generate_warnings rest
  end.

End RiskAssessment.

(* ===================================================================== *)
(** ** Market clock: [BaseDataSource] in [src/data_source/base.py] and
       the adapters' override *)
(* ===================================================================== *)

Module MarketClock.

Local Open Scope string_scope.

(** What the code reads of [datetime.now()]: [weekday()] (Monday is 0),
    [hour] and [minute]. *)
Record Now : Type := {
  weekday : nat;
  hour : nat;
  minute : nat
}.

(** A field of [strftime]: at least two decimal digits. *)
Definition two_digits (n : nat) : string :=
  (if (n <? 10)%nat then "0" else "")
  ++ NilEmpty.string_of_uint (Nat.to_uint n).

(** [now.strftime("%H:%M")] *)
Definition strftime_HM (now : Now) : string :=
  two_digits (hour now) ++ ":" ++ two_digits (minute now).

(** [_get_next_open_time]: the number of days from today to the day of
    the returned date, and the time of day that follows it in the
    returned string.  The date itself is not formatted. *)
Definition _get_next_open_time (now : Now) : nat * string :=
  if (weekday now <? 5)%nat && (hour now <? 9)%nat then (0%nat, "09:30")
  else if (weekday now <? 5)%nat
          && ((11 <=? hour now)%nat && (hour now <? 13)%nat)
  then (0%nat, "13:00")
  else
    let days_ahead :=
      if (4 <=? weekday now)%nat then (7 - weekday now)%nat else 1%nat in
    (days_ahead, "09:30").

Record MarketStatus : Type := {
  status : string;
  is_trading : bool;
  current_time : string;
  next_open : nat * string
}.

(** [BaseDataSource.get_market_status]; the comparisons are Python's
    comparisons of strings. *)
Definition get_market_status (now : Now) : MarketStatus :=
  let current_time := strftime_HM now in
  let morning_start := "09:30" in
  let morning_end := "11:30" in
  let afternoon_start := "13:00" in
  let afternoon_end := "15:00" in
  let is_trading_day := (weekday now <? 5)%nat in
  let status :=
    if negb is_trading_day then "休市"
    else if String.leb morning_start current_time
            && String.leb current_time morning_end then "开市"
    else if String.leb afternoon_start current_time
            && String.leb current_time afternoon_end then "开市"
    else if String.ltb current_time morning_start then "未开市"
    else if String.ltb morning_end current_time
            && String.ltb current_time afternoon_start then "午休"
    else "收市" in
  {| status := status;
     is_trading := (status =? "开市");
     current_time := current_time;
     next_open := _get_next_open_time now |}.

(** The override of the eastmoney, sina, qqstock and wangyi adapters
    ([src/data_source/eastmoney_source.py] and the three others, which
    carry the same text). *)
Record AdapterMarketStatus : Type := {
  adapter_is_trading : bool;
  market_time : string;
  adapter_status : string
}.

Definition adapter_get_market_status (now : Now) : AdapterMarketStatus :=
  let current_time := strftime_HM now in
  let is_trading :=
    (weekday now <? 5)%nat
    && ((String.leb "09:30" current_time && String.leb current_time "11:30")
        || (String.leb "13:00" current_time
            && String.leb current_time "15:00")) in
  {| adapter_is_trading := is_trading;
     market_time := current_time;
     adapter_status := if is_trading then "交易中" else "休市" |}.

(** *** Reference quantities for the properties *)

(** Minutes since midnight. *)
Definition minute_of_day (now : Now) : nat := (60 * hour now + minute now)%nat.

(** A reading of a clock. *)
Definition on_clock (now : Now) : Prop :=
  (weekday now < 7)%nat /\ (hour now < 24)%nat /\ (minute now < 60)%nat.

(** The two sessions, 09:30-11:30 and 13:00-15:00, ends included. *)
Definition in_session (t : nat) : bool :=
  ((570 <=? t)%nat && (t <=? 690)%nat) || ((780 <=? t)%nat && (t <=? 900)%nat).

(** The status of a trading day by the minute of the day. *)
Definition status_by_minute (t : nat) : string :=
  if in_session t then "开市"
  else if (t <? 570)%nat then "未开市"
  else if (690 <? t)%nat && (t <? 780)%nat then "午休"
  else "收市".

(** The status computed on every minute of a Monday agrees with
    [status_by_minute]. *)
Definition monday_table_agrees : bool :=
  List.forallb
    (fun h =>
       List.forallb
         (fun mi =>
            let now := {| weekday := 0; hour := h; minute := mi |} in
            (status (get_market_status now)
             =? status_by_minute (minute_of_day now)))
         (List.seq 0 60))
    (List.seq 0 24).

End MarketClock.

(* ===================================================================== *)
(** * Sample inputs *)
(* ===================================================================== *)

Module DataSourceSamples.

Import PyFloat DataSource.
Local Open Scope string_scope.
Local Open Scope Q_scope.

Definition one_bar : Frame :=
  [ {| date := "2024-01-02"; open := Fin 10; high := Fin 11; low := Fin 9;
       close := Fin 10.5; volume := Fin 1000 |} ].

(** Every provider is up and serves a frame. *)
Definition all_up : World :=
  fun _ =>
    {| constructs := true; provider_probe := ProbeOk;
       provider_history := fun _ => Returns one_bar |}.

(** The eastmoney probe fails; the others are up and serve a frame. *)
Definition eastmoney_down : World :=
  fun n =>
    {| constructs := true;
       provider_probe := if (n =? "eastmoney")%string then ProbeFailed else ProbeOk;
       provider_history := fun _ => Returns one_bar |}.

(** Every provider is up and has no history for any window. *)
Definition all_silent : World :=
  fun _ =>
    {| constructs := true; provider_probe := ProbeOk;
       provider_history := fun _ => Returns [] |}.

(** A configuration that moves sina ahead of every other adapter. *)
Definition sina_first : Config :=
  [ ("sina", {| enabled := Some true; priority := Some 0%Z |}) ].

(** A configuration that switches sina off and says nothing else. *)
Definition sina_off : Config :=
  [ ("sina", {| enabled := Some false; priority := None |}) ].

(** [date(2024, 1, 1).toordinal()] *)
Definition new_year_2024 : Z := 738886%Z.

Definition manager_of (w : World) (config : option Config)
  : DataSourceManager :=
  match get_data_source_manager w None config with
  | Some (m, _) => m
  | None => empty_manager
  end.

End DataSourceSamples.

Module TurtleSamples.

Import PyFloat Pandas TurtleStrategy.
Local Open Scope Q_scope.

Definition sample_bar : Bar :=
  {| high := Fin 11; low := Fin 9; close := Fin 10; volume := Fin 1000 |}.

Definition sample_frame : DataFrame :=
  {| has_volume := true; rows := [sample_bar] |}.

(** A quiet 20-bar base followed by a breakout bar whose volume is
    missing (the [volume] column of the price table is nullable). *)
Definition base_bar : Bar :=
  {| high := Fin 10; low := Fin 9; close := Fin 9.5; volume := Fin 1000 |}.

Definition breakout_bar_no_volume : Bar :=
  {| high := Fin 12; low := Fin 9.5; close := Fin 11; volume := NaN |}.

Definition breakout_frame_no_volume : DataFrame :=
  {| has_volume := true;
     rows := List.repeat base_bar 20 ++ [breakout_bar_no_volume] |}.

(** Fifty-five quiet bars followed by a bar that breaks above them. *)
Definition breakout_bar : Bar :=
  {| high := Fin 12; low := Fin 9.5; close := Fin 11; volume := Fin 1500 |}.

Definition breakout_frame_55 : DataFrame :=
  {| has_volume := true;
     rows := List.repeat base_bar 55 ++ [breakout_bar] |}.

(** Sixty quiet bars. *)
Definition quiet_frame_60 : DataFrame :=
  {| has_volume := true; rows := List.repeat base_bar 60 |}.

End TurtleSamples.

Module IndicatorSamples.

Import PyFloat Pandas TechnicalIndicators.
Local Open Scope Q_scope.

(** Three bars, window 2. *)
Definition highs3 : Series := [Fin 10; Fin 12; Fin 11].
Definition lows3 : Series := [Fin 8; Fin 9; Fin 10].
Definition closes3 : Series := [Fin 9; Fin 11; Fin 10.5].

(** Three rising closes, and the volumes of three bars. *)
Definition rising3 : Series := [Fin 1; Fin 2; Fin 3].
Definition volumes3 : Series := [Fin 500; Fin 700; Fin 300].

(** The fifteenth row of a frame is the first with an RSI(14): the row
    before it has none. *)
Definition row_without_indicators (c : Q) : Row :=
  {| close := Fin c; ma5 := NaN; ma20 := NaN; macd := NaN;
     macd_signal := NaN; rsi := NaN; kdj_k_val := NaN; kdj_d_val := NaN;
     boll_upper := NaN; boll_lower := NaN |}.

Definition row_first_rsi : Row :=
  {| close := Fin 10.5; ma5 := Fin 10.2; ma20 := NaN; macd := NaN;
     macd_signal := NaN; rsi := Fin 75; kdj_k_val := Fin 80;
     kdj_d_val := Fin 70; boll_upper := NaN; boll_lower := NaN |}.

(** Two rows with all four moving-average values, crossing upwards. *)
Definition row_below : Row :=
  {| close := Fin 10; ma5 := Fin 9.8; ma20 := Fin 10; macd := NaN;
     macd_signal := NaN; rsi := NaN; kdj_k_val := NaN; kdj_d_val := NaN;
     boll_upper := NaN; boll_lower := NaN |}.

Definition row_above : Row :=
  {| close := Fin 10.6; ma5 := Fin 10.1; ma20 := Fin 10; macd := NaN;
     macd_signal := NaN; rsi := NaN; kdj_k_val := NaN; kdj_d_val := NaN;
     boll_upper := NaN; boll_lower := NaN |}.

End IndicatorSamples.

Module RetailSamples.

Import PyFloat RetailStrategy.
Local Open Scope string_scope.
Local Open Scope Q_scope.

(** Traditional score 0.5, no turtle recommendation. *)
Definition traditional_half : TraditionalSignals :=
  {| trend := Fin 0.3; technical := Fin 0.2; volume := Fin 0 |}.

(** Traditional score 0, turtle BUY at confidence 0.6. *)
Definition traditional_flat : TraditionalSignals :=
  {| trend := Fin 0; technical := Fin 0; volume := Fin 0 |}.

Definition turtle_buy_06 : TurtleSignals :=
  {| recommendation := "BUY"; turtle_confidence := Some (Fin 0.6);
     reason := None |}.

(** The last indicator row of a stock whose averages rise, whose RSI is
    oversold and whose MACD is above its signal line. *)
Definition bullish_row : TechData.TechRow :=
  {| TechData.ma5 := TechData.Value (Fin 10.5);
     TechData.ma20 := TechData.Value (Fin 10);
     TechData.rsi := TechData.Value (Fin 25);
     TechData.macd := TechData.Value (Fin 0.2);
     TechData.macd_signal := TechData.Value (Fin 0.1) |}.

End RetailSamples.

Module RiskSamples.

Import PyFloat DataSource RiskAssessment.
Local Open Scope string_scope.
Local Open Scope Q_scope.

Definition flat_bar : PriceBar :=
  {| date := "2024-01-02"; open := Fin 10; high := Fin 10; low := Fin 10;
     close := Fin 10; volume := Fin 1000 |}.

Definition ten_bars : Frame := List.repeat flat_bar 10.

Definition entry (f : string) (s : Q) : RiskFactor :=
  {| factor := f; score := Fin s; level := "中" |}.

(** Scorers with fixed answers 20, 50, 40, 30 and 10. *)
Definition fixed_scorers : Scorers :=
  {| _assess_volatility_risk := fun _ => entry "价格波动性" 20;
     _assess_volume_risk := fun _ => entry "成交量" 50;
     _assess_technical_risk := fun _ => entry "技术指标" 40;
     _assess_trend_risk := fun _ => entry "趋势" 30;
     _assess_liquidity_risk := fun _ => entry "流动性" 10 |}.

(** Five entries of an assessment with a mean score of 64. *)
Definition risky_entries : list RiskAssessment.RiskEntry :=
  List.map
    (fun fs =>
       {| RiskAssessment.entry :=
            {| RiskAssessment.factor := fst fs;
               RiskAssessment.score := Fin (snd fs);
               RiskAssessment.level := "高" |};
          RiskAssessment.description := "" |})
    [("价格波动性", 95); ("成交量", 70); ("技术指标", 55); ("趋势", 60);
     ("流动性", 40)].

End RiskSamples.

(* ===================================================================== *)
(** * Properties *)
(* ===================================================================== *)

(** ** Facts about numbers and series *)

Module PyFloatFacts.

Import PyFloat.
Local Open Scope Q_scope.

Lemma Qltb_iff x y : Qltb x y = true <-> x < y.
Proof.
  unfold Qltb. rewrite negb_true_iff.
  split; intro H.
  - apply Qnot_le_lt. intro L. apply Qle_bool_iff in L. congruence.
  - destruct (Qle_bool y x) eqn:E; [|reflexivity].
    apply Qle_bool_iff in E. exfalso. apply (Qlt_not_le _ _ H E).
Qed.

Lemma Qltb_false_iff x y : Qltb x y = false <-> y <= x.
Proof.
  unfold Qltb. rewrite negb_false_iff. apply Qle_bool_iff.
Qed.

Lemma Qle_bool_false_iff x y : Qle_bool x y = false <-> y < x.
Proof.
  rewrite <- Qltb_iff. unfold Qltb.
  destruct (Qle_bool x y); simpl; split; congruence.
Qed.

Lemma feq_refl x : feq x x.
Proof. destruct x; simpl; auto. reflexivity. Qed.

Lemma feq_sym x y : feq x y -> feq y x.
Proof. destruct x, y; simpl; auto. intro H; symmetry; exact H. Qed.

Lemma feq_trans x y z : feq x y -> feq y z -> feq x z.
Proof.
  destruct x, y, z; simpl; auto; try contradiction.
  intros H1 H2. rewrite H1. exact H2.
Qed.

Lemma flt_nan_l y : flt NaN y = false.
Proof. reflexivity. Qed.

Lemma flt_nan_r x : flt x NaN = false.
Proof. destruct x; reflexivity. Qed.

Lemma fle_nan_r x : fle x NaN = false.
Proof. destruct x; reflexivity. Qed.

Lemma flt_notna x y : flt x y = true -> isna x = false /\ isna y = false.
Proof. destruct x, y; simpl; intros; split; congruence. Qed.

Lemma fle_notna x y : fle x y = true -> isna x = false /\ isna y = false.
Proof. destruct x, y; simpl; intros; split; congruence. Qed.

(** Clamping with [min] then [max], as the strategies do, lands in the
    interval for every value but NaN. *)
Lemma clamp_in_range (lo hi : Q) (x : pyfloat) :
  lo <= hi -> isna x = false ->
  in_range lo hi (py_max (py_min x (Fin hi)) (Fin lo)).
Proof.
  intros Hlh Hx. unfold py_max, py_min, fgt.
  destruct x as [| | |q]; simpl in *; try discriminate.
  - simpl. destruct (Qltb hi lo) eqn:E.
    + apply Qltb_iff in E. exfalso. apply (Qlt_not_le _ _ E Hlh).
    + simpl. split; [exact Hlh | apply Qle_refl].
  - simpl. split; [apply Qle_refl | exact Hlh].
  - destruct (Qltb hi q) eqn:E1; simpl.
    + destruct (Qltb hi lo) eqn:E2; simpl.
      * apply Qltb_iff in E2. exfalso. apply (Qlt_not_le _ _ E2 Hlh).
      * split; [exact Hlh | apply Qle_refl].
    + apply Qltb_false_iff in E1.
      destruct (Qltb q lo) eqn:E2; simpl.
      * split; [apply Qle_refl | exact Hlh].
      * apply Qltb_false_iff in E2. split; assumption.
Qed.

Lemma clamp_nan (lo hi : Q) :
  py_max (py_min NaN (Fin hi)) (Fin lo) = NaN.
Proof. reflexivity. Qed.

End PyFloatFacts.

Module PandasFacts.

Import PyFloat Pandas.

Lemma last_map_some (s : Series) :
  s <> [] -> List.last (List.map Some s) None = Some (List.last s NaN).
Proof.
  induction s as [|x s IH]; [congruence|].
  intros _. destruct s as [|y s]; [reflexivity|].
  change (List.last (List.map Some (y :: s)) None
          = Some (List.last (y :: s) NaN)).
  apply IH. discriminate.
Qed.

Lemma iloc_last_nonempty (s : Series) :
  s <> [] -> iloc_last s = Py.Ok (List.last s NaN).
Proof.
  intro H. unfold iloc_last. rewrite (last_map_some s H). reflexivity.
Qed.

Lemma iloc_last_empty : iloc_last [] = Py.Raise Py.IndexError.
Proof. reflexivity. Qed.

Lemma iloc_window_spec (n : nat) (s : Series) :
  (n + 1 <= List.length s)%nat ->
  iloc_window n s = List.firstn n (List.skipn (List.length s - (n + 1)) s)
  /\ List.length (iloc_window n s) = n.
Proof.
  intro H. unfold iloc_window.
  replace (List.length s - 1 - (List.length s - (n + 1)))%nat with n by lia.
  split; [reflexivity|].
  rewrite List.length_firstn, List.length_skipn. lia.
Qed.

End PandasFacts.

(* ===================================================================== *)
(** ** Data sources *)
(* ===================================================================== *)

Module DataSourceProofs.

Import PyFloat DataSource DataSourceSamples.
Local Open Scope string_scope.
Local Open Scope Z_scope.
Local Open Scope list_scope.

(** *** Dictionaries and the registry *)

Lemma dict_set_fresh (v : Source) (d : list Source) :
  ~ In (name v) (List.map name d) -> dict_set name v d = d ++ [v].
Proof.
  induction d as [|x d IH]; intro H; [reflexivity|].
  simpl in *. destruct (String.eqb_spec (name x) (name v)) as [E|E].
  - exfalso. apply H. left. exact E.
  - f_equal. apply IH. intro I. apply H. right. exact I.
Qed.

Lemma find_by_name (l : list Source) (s : Source) :
  NoDup (List.map name l) -> In s l ->
  List.find (fun x => (name x =? name s)%string) l = Some s.
Proof.
  induction l as [|x l IH]; intros Hnd Hin; [contradiction|].
  simpl in *. inversion Hnd as [|? ? Hx Hl]; subst.
  destruct Hin as [->|Hin].
  - rewrite String.eqb_refl. reflexivity.
  - destruct (String.eqb_spec (name x) (name s)) as [E|E].
    + exfalso. apply Hx. rewrite E. apply List.in_map. exact Hin.
    + apply IH; assumption.
Qed.

Lemma connect_name (s : Source) : name (fst (connect s)) = name s.
Proof. unfold connect. destruct (probe s); reflexivity. Qed.

Lemma connect_all_names (m : DataSourceManager) :
  List.map name (sources (fst (connect_all m))) = List.map name (sources m).
Proof.
  unfold connect_all. cbn [fst sources].
  rewrite !List.map_map. apply List.map_ext. intro s. apply connect_name.
Qed.

Lemma set_primary_source_sources (m m' : DataSourceManager) (n : string) :
  set_primary_source m n = Some m' ->
  sources m' = sources m /\ primary_source m' = Some n.
Proof.
  unfold set_primary_source.
  destruct (get_source_by_name m n); [|discriminate].
  intro H. injection H as <-. split; reflexivity.
Qed.

Lemma select_primary_sources (m m' : DataSourceManager)
    (r : list (string * bool)) :
  select_primary m r = Some m' -> sources m' = sources m.
Proof.
  unfold select_primary.
  destruct (get_available_sources m) as [|a l].
  - intro H. injection H as <-. reflexivity.
  - destruct (List.find _ priority_order);
      intro H; apply set_primary_source_sources in H; apply H.
Qed.

(** *** The factory keeps configured order *)

Lemma insert_by_key_perm (x : string * SourceConfig) (l : Config) :
  Permutation (insert_by_key x l) (x :: l).
Proof.
  induction l as [|y l IH]; [apply Permutation_refl|].
  simpl. destruct (sort_key x <=? sort_key y).
  - apply Permutation_refl.
  - apply Permutation_trans with (y :: x :: l).
    + apply perm_skip. exact IH.
    + apply perm_swap.
Qed.

Lemma sorted_by_key_perm (l : Config) : Permutation (sorted_by_key l) l.
Proof.
  induction l as [|x l IH]; [apply Permutation_refl|].
  simpl. apply Permutation_trans with (x :: sorted_by_key l).
  - apply insert_by_key_perm.
  - apply perm_skip. exact IH.
Qed.

Lemma insert_by_key_sorted (x : string * SourceConfig) (l : Config) :
  StronglySorted key_le l -> StronglySorted key_le (insert_by_key x l).
Proof.
  induction l as [|y l IH]; intro Hs.
  - simpl. constructor; constructor.
  - simpl. apply StronglySorted_inv in Hs. destruct Hs as [Hl Hy].
    destruct (Z.leb_spec (sort_key x) (sort_key y)) as [Hle|Hgt].
    + constructor.
      * constructor; assumption.
      * constructor; [exact Hle|].
        apply (List.Forall_impl (P := key_le y)); [|exact Hy].
        intros z Hz. unfold key_le in *. lia.
    + constructor; [apply IH; exact Hl|].
      apply (Permutation_Forall (Permutation_sym (insert_by_key_perm x l))).
      constructor; [unfold key_le; lia | exact Hy].
Qed.

Lemma sorted_by_key_sorted (l : Config) :
  StronglySorted key_le (sorted_by_key l).
Proof.
  induction l as [|x l IH]; [constructor|].
  simpl. apply insert_by_key_sorted. exact IH.
Qed.

Lemma filter_sorted (f : string * SourceConfig -> bool) (l : Config) :
  StronglySorted key_le l -> StronglySorted key_le (List.filter f l).
Proof.
  induction l as [|x l IH]; intro Hs; [constructor|].
  apply StronglySorted_inv in Hs. destruct Hs as [Hl Hx].
  simpl. destruct (f x); [|apply IH; exact Hl].
  constructor; [apply IH; exact Hl|].
  apply List.Forall_forall. intros z Hz.
  apply List.filter_In in Hz.
  apply (proj1 (List.Forall_forall _ _) Hx). apply Hz.
Qed.

Lemma merge_entry_names (e : string * SourceConfig) (d : Config) :
  List.map fst (merge_entry e d) = List.map fst d
  \/ (~ In (fst e) (List.map fst d)
      /\ List.map fst (merge_entry e d) = List.map fst d ++ [fst e]).
Proof.
  induction d as [|[n c] d IH]; simpl.
  - right. split; [intros [] | reflexivity].
  - destruct (String.eqb_spec n (fst e)) as [E|E]; simpl.
    + left. reflexivity.
    + destruct IH as [IH|[Hn IH]].
      * left. rewrite IH. reflexivity.
      * right. split; [|rewrite IH; reflexivity].
        intros [H|H]; [apply E; exact H | apply Hn; exact H].
Qed.

Lemma merge_entry_nodup (e : string * SourceConfig) (d : Config) :
  NoDup (List.map fst d) -> NoDup (List.map fst (merge_entry e d)).
Proof.
  intro H. destruct (merge_entry_names e d) as [E|[Hn E]]; rewrite E.
  - exact H.
  - apply NoDup_app; [exact H | constructor; [intros [] | constructor] |].
    intros a Ha [<-|[]]. exact (Hn Ha).
Qed.

Lemma merge_fold_nodup (config d : Config) :
  NoDup (List.map fst d) ->
  NoDup (List.map fst
           (List.fold_left (fun d entry => merge_entry entry d) config d)).
Proof.
  revert d. induction config as [|e config IH]; intros d H; [exact H|].
  simpl. apply IH. apply merge_entry_nodup. exact H.
Qed.

Lemma default_config_nodup : NoDup (List.map fst default_config).
Proof.
  simpl. repeat constructor; simpl; intuition discriminate.
Qed.

Lemma merged_nodup (config : option Config) :
  NoDup (List.map fst
           (match config with
            | Some c => merge_config c
            | None => default_config
            end)).
Proof.
  destruct config as [c|]; [|exact default_config_nodup].
  apply merge_fold_nodup. exact default_config_nodup.
Qed.

Lemma configured_nodup (w : World) (config : option Config) :
  NoDup (List.map fst (configured w config)).
Proof.
  unfold configured.
  set (merged := match config with
                 | Some c => merge_config c | None => default_config end).
  assert (Hs : NoDup (List.map fst (sorted_by_key merged))).
  { apply (Permutation_NoDup
             (Permutation_map fst (Permutation_sym (sorted_by_key_perm merged)))).
    apply merged_nodup. }
  revert Hs. generalize (sorted_by_key merged). intro l.
  induction l as [|x l IH]; intro H; [constructor|].
  simpl in *. inversion H as [|? ? Hx Hl]; subst.
  destruct (kept w x); [|apply IH; exact Hl].
  simpl. constructor; [|apply IH; exact Hl].
  intro I. apply Hx. apply List.in_map_iff in I.
  destruct I as (y & Ey & Iy). apply List.filter_In in Iy.
  apply List.in_map_iff. exists y. split; [exact Ey | apply Iy].
Qed.

Lemma add_sources_spec (w : World) (l : Config) :
  forall m0,
    NoDup (List.map name (sources m0) ++ List.map fst l) ->
    sources (add_sources w l m0)
    = sources m0
      ++ List.map (new_source w) (List.map fst (List.filter (kept w) l)).
Proof.
  induction l as [|[n c] l IH]; intros m0 Hnd.
  - simpl. rewrite List.app_nil_r. reflexivity.
  - assert (Hrest : NoDup (List.map name (sources m0) ++ List.map fst l)).
    { simpl in Hnd. apply NoDup_remove_1 in Hnd. exact Hnd. }
    assert (Hfresh : ~ In n (List.map name (sources m0))).
    { simpl in Hnd. apply NoDup_remove_2 in Hnd.
      intro I. apply Hnd. apply List.in_or_app. left. exact I. }
    simpl. unfold kept at 1. cbn [fst snd].
    destruct (match enabled c with Some b => b | None => true end);
      cbn [negb andb]; [|apply IH; exact Hrest].
    destruct (is_known n); cbn [negb andb]; [|apply IH; exact Hrest].
    destruct (constructs (w n)); [|apply IH; exact Hrest].
    rewrite IH.
    + cbn [add_source sources]. rewrite dict_set_fresh by exact Hfresh.
      rewrite <- List.app_assoc. reflexivity.
    + cbn [add_source sources]. rewrite dict_set_fresh by exact Hfresh.
      rewrite List.map_app. cbn [List.map new_source name].
      rewrite <- List.app_assoc. exact Hnd.
Qed.

Lemma create_sources (w : World) (config : option Config) :
  sources (create_data_source_manager w config)
  = List.map (new_source w) (List.map fst (configured w config)).
Proof.
  unfold create_data_source_manager, configured.
  rewrite add_sources_spec; [reflexivity|].
  cbn [empty_manager sources List.map List.app].
  apply (Permutation_NoDup
           (Permutation_map fst (Permutation_sym (sorted_by_key_perm _)))).
  apply merged_nodup.
Qed.

Lemma create_names (w : World) (config : option Config) :
  List.map name (sources (create_data_source_manager w config))
  = List.map fst (configured w config).
Proof.
  rewrite create_sources, List.map_map.
  rewrite <- (List.map_id (List.map fst (configured w config))) at 2.
  apply List.map_ext. reflexivity.
Qed.


(** *** The fetch loop *)

Section FetchLoop.

Variable m : DataSourceManager.
Hypothesis m_dict : NoDup (List.map name (sources m)).
Variable window : Window.

Lemma lookup_registered (s : Source) :
  In s (sources m) -> get_source_by_name m (name s) = Some s.
Proof. intro H. apply find_by_name; assumption. Qed.

(** Connected adapters that yield nothing are each called once, in
    order, and the loop goes on with what follows them. *)
Lemma fetch_loop_past_nothing (pre : list Source) (rest : list string) :
  (forall s, In s pre ->
     In s (sources m) /\ is_connected s = true /\ yields_nothing s window) ->
  fetch_loop m window (List.map name pre ++ rest) []
  = (fst (fetch_loop m window rest []),
     calls window (List.map name pre) ++ snd (fetch_loop m window rest [])).
Proof.
  induction pre as [|s pre IH]; intro H.
  - simpl. destruct (fetch_loop m window rest []); reflexivity.
  - destruct (H s (or_introl eq_refl)) as (Hin & Hc & Hn).
    cbn [List.map List.app fetch_loop].
    rewrite (lookup_registered s Hin), Hc.
    assert (IH' := IH (fun x Hx => H x (or_intror Hx))).
    destruct Hn as [-> | ->]; cbn [empty negb]; rewrite IH'; reflexivity.
Qed.

Lemma fetch_loop_all_nothing (ss : list Source) :
  (forall s, In s ss ->
     In s (sources m) /\ is_connected s = true /\ yields_nothing s window) ->
  fetch_loop m window (List.map name ss) []
  = ([], calls window (List.map name ss)).
Proof.
  intro H. rewrite <- (List.app_nil_r (List.map name ss)) at 1.
  rewrite (fetch_loop_past_nothing ss [] H). simpl.
  rewrite List.app_nil_r. reflexivity.
Qed.

(** The first adapter with a non-empty frame ends the loop: its frame
    is the loop's frame, and no adapter after it is called. *)
Lemma fetch_loop_first_nonempty (pre : list Source) (sk : Source)
    (post : list Source) (df : Frame) :
  (forall s, In s pre ->
     In s (sources m) /\ is_connected s = true /\ yields_nothing s window) ->
  In sk (sources m) -> is_connected sk = true ->
  get_price_data sk window = Returns df -> df <> [] ->
  fetch_loop m window (List.map name (pre ++ sk :: post)) []
  = (df, calls window (List.map name pre ++ [name sk])).
Proof.
  intros Hpre Hin Hc Hd Hne.
  rewrite List.map_app. cbn [List.map].
  rewrite (fetch_loop_past_nothing pre _ Hpre).
  cbn [fetch_loop]. rewrite (lookup_registered sk Hin), Hc, Hd.
  destruct df as [|b df]; [congruence|]. cbn [empty negb fst snd].
  unfold calls. rewrite List.map_app. reflexivity.
Qed.

(** Whatever the adapters answer, the calls of one loop are a prefix of
    the names it iterates over. *)
Lemma fetch_loop_prefix (ss : list Source) :
  (forall s, In s ss -> In s (sources m) /\ is_connected s = true) ->
  forall df0, exists k,
    snd (fetch_loop m window (List.map name ss) df0)
    = calls window (List.firstn k (List.map name ss)).
Proof.
  induction ss as [|s ss IH]; intros H df0.
  - exists 0%nat. reflexivity.
  - destruct (H s (or_introl eq_refl)) as (Hin & Hc).
    assert (IH' := IH (fun x Hx => H x (or_intror Hx))).
    cbn [List.map fetch_loop]. rewrite (lookup_registered s Hin), Hc.
    destruct (get_price_data s window) as [df'|].
    + destruct df' as [|b df']; cbn [empty negb].
      * destruct (IH' []) as [k Hk]. exists (S k).
        cbn [snd List.firstn calls List.map]. rewrite Hk. reflexivity.
      * exists 1%nat. reflexivity.
    + destruct (IH' df0) as [k Hk]. exists (S k).
      cbn [snd List.firstn calls List.map]. rewrite Hk. reflexivity.
Qed.

Lemma connected_registered (s : Source) :
  In s (List.filter is_connected (sources m)) ->
  In s (sources m) /\ is_connected s = true.
Proof. intro H. apply List.filter_In in H. exact H. Qed.

End FetchLoop.

Lemma filter_disconnected (pre : list Source) :
  (forall s, In s pre -> is_connected s = false) ->
  List.filter is_connected pre = [].
Proof.
  induction pre as [|s pre IH]; intro H; [reflexivity|].
  simpl. rewrite (H s (or_introl eq_refl)).
  apply IH. intros x Hx. apply H. right. exact Hx.
Qed.

(** *** The dates of a fetch *)

Lemma days_before_in_range (today n : Z) :
  1 <= today <= 3652059 -> 1 <= today - n <= 3652059 ->
  days_before today n = Some (today - n).
Proof.
  intros Ht Hd. unfold days_before, timedelta, datetime_sub.
  assert (E : (Z.abs n <=? 999999999) = true) by (apply Z.leb_le; lia).
  assert (E1 : (1 <=? today - n) = true) by (apply Z.leb_le; lia).
  assert (E2 : (today - n <=? 3652059) = true) by (apply Z.leb_le; lia).
  rewrite E. cbv zeta. rewrite E1, E2. reflexivity.
Qed.

Lemma days_before_out_of_range (today n : Z) :
  today - n < 1 \/ 3652059 < today - n -> days_before today n = None.
Proof.
  intro H. unfold days_before, timedelta, datetime_sub.
  destruct (Z.abs n <=? 999999999); [|reflexivity]. cbv zeta.
  destruct (Z.leb_spec 1 (today - n));
    destruct (Z.leb_spec (today - n) 3652059); try reflexivity.
  lia.
Qed.

(** Past its date arithmetic, a fetch leaves what [fetch_run] says. *)
Lemma get_stock_data_run (today : Z) (m : DataSourceManager)
    (db_frame : Frame) (days : Z) (force_update : bool) :
  days_before today days <> None ->
  (30 < days -> days_before today 30 <> None) ->
  _get_stock_data today m db_frame days force_update
  = Completed (fetch_run m db_frame days force_update).
Proof.
  intros Hs H30. unfold _get_stock_data, fetch_run.
  destruct (days_before today days); [|contradiction Hs; reflexivity].
  destruct (negb force_update && cache_covers db_frame days); [reflexivity|].
  cbv zeta.
  destruct (empty (fst (fetch_loop m (FullWindow days)
                          (get_available_sources m) []))
            && (30 <? days)) eqn:E.
  - apply andb_true_iff in E. destruct E as [_ E]. apply Z.ltb_lt in E.
    destruct (days_before today 30);
      [reflexivity | contradiction (H30 E); reflexivity].
  - cbn [fst snd]. rewrite List.app_nil_r. reflexivity.
Qed.

Lemma get_stock_data_in_range (today : Z) (m : DataSourceManager)
    (db_frame : Frame) (days : Z) (force_update : bool) :
  1 <= today <= 3652059 -> 1 <= today - days <= 3652059 ->
  _get_stock_data today m db_frame days force_update
  = Completed (fetch_run m db_frame days force_update).
Proof.
  intros Ht Hd. apply get_stock_data_run.
  - rewrite (days_before_in_range today days Ht Hd). discriminate.
  - intro H30. rewrite (days_before_in_range today 30 Ht); [discriminate|lia].
Qed.

Lemma get_stock_data_out_of_range (today : Z) (m : DataSourceManager)
    (db_frame : Frame) (days : Z) (force_update : bool) :
  today - days < 1 \/ 3652059 < today - days ->
  _get_stock_data today m db_frame days force_update = OverflowError [].
Proof.
  intro H. unfold _get_stock_data.
  rewrite (days_before_out_of_range today days H). reflexivity.
Qed.

(** The ways a fetch can end: the first subtraction raises; or the
    fetch returns; or the second subtraction raises, after the calls of
    the first loop. *)
Lemma get_stock_data_cases (today : Z) (m : DataSourceManager)
    (db_frame : Frame) (days : Z) (force_update : bool) :
  _get_stock_data today m db_frame days force_update = OverflowError []
  \/ _get_stock_data today m db_frame days force_update
     = Completed (fetch_run m db_frame days force_update)
  \/ exists made rest,
       _get_stock_data today m db_frame days force_update
       = OverflowError made
       /\ consulted (fetch_run m db_frame days force_update) = made ++ rest.
Proof.
  unfold _get_stock_data, fetch_run.
  destruct (days_before today days); [|left; reflexivity].
  right.
  destruct (negb force_update && cache_covers db_frame days);
    [left; reflexivity|].
  cbv zeta.
  destruct (empty (fst (fetch_loop m (FullWindow days)
                          (get_available_sources m) []))
            && (30 <? days)) eqn:E.
  - destruct (days_before today 30); [left; reflexivity|].
    right. eexists. eexists. split; reflexivity.
  - left. cbn [fst snd]. rewrite List.app_nil_r. reflexivity.
Qed.

(** *** The history fetch *)

Lemma manager_sources (w : World) (config : option Config)
    (m : DataSourceManager) (g : option DataSourceManager) :
  get_data_source_manager w None config = Some (m, g) ->
  List.map name (sources m)
  = List.map fst
      (configured w
         (Some (match config with Some c => c | None => DATA_SOURCES end))).
Proof.
  unfold get_data_source_manager.
  set (cfg := Some (match config with Some c => c | None => DATA_SOURCES end)).
  destruct (select_primary _ _) as [m'|] eqn:E; [|discriminate].
  intro H. injection H as <- _.
  rewrite (select_primary_sources _ _ _ E), connect_all_names.
  apply create_names.
Qed.

Lemma filter_perm {A : Type} (f : A -> bool) (l l' : list A) :
  Permutation l l' -> Permutation (List.filter f l) (List.filter f l').
Proof.
  induction 1 as [|x l l' _ IH|x y l|l l' l'' _ IH1 _ IH2]; cbn [List.filter].
  - constructor.
  - destruct (f x); [apply perm_skip|]; exact IH.
  - destruct (f x); destruct (f y);
      try apply perm_swap; apply Permutation_refl.
  - exact (Permutation_trans IH1 IH2).
Qed.

(** The run of a fetch that bypasses the cache, with a window of more
    than 30 days for which every connected adapter yields nothing. *)
Lemma short_window_retry_run (m : DataSourceManager) (db_frame : Frame)
    (days : Z) (force_update : bool) :
  NoDup (List.map name (sources m)) ->
  negb force_update && cache_covers db_frame days = false ->
  30 < days ->
  (forall s, In s (sources m) -> is_connected s = true ->
             yields_nothing s (FullWindow days)) ->
  let run := fetch_run m db_frame days force_update in
  let available := get_available_sources m in
  (exists j,
     consulted run
     = calls (FullWindow days) available
       ++ calls ShortWindow (List.firstn j available))
  /\ ((forall s, In s (sources m) -> is_connected s = true ->
                yields_nothing s ShortWindow) ->
      result run = []
      /\ consulted run
         = calls (FullWindow days) available ++ calls ShortWindow available
      /\ saved run = None)
  /\ (forall pre sk post df,
        List.filter is_connected (sources m) = pre ++ sk :: post ->
        (forall s, In s pre -> yields_nothing s ShortWindow) ->
        get_price_data sk ShortWindow = Returns df -> df <> [] ->
        result run = df
        /\ consulted run
           = calls (FullWindow days) available
             ++ calls ShortWindow (List.map name pre ++ [name sk])).
Proof.
  intros Hnd Hcache Hdays Hfull run available.
  subst run available. unfold fetch_run, get_available_sources.
  rewrite Hcache.
  assert (Hreg : forall window,
             (forall s, In s (sources m) -> is_connected s = true ->
                        yields_nothing s window) ->
             forall s, In s (List.filter is_connected (sources m)) ->
               In s (sources m) /\ is_connected s = true
               /\ yields_nothing s window).
  { intros window Hw s Hs.
    destruct (connected_registered m s Hs) as [Hin Hc]. auto. }
  rewrite (fetch_loop_all_nothing m Hnd (FullWindow days) _
             (Hreg _ Hfull)).
  cbn [fst snd empty andb].
  assert (Hd : (30 <? days) = true) by (apply Z.ltb_lt; exact Hdays).
  rewrite Hd. cbn [result consulted saved].
  split; [|split].
  - destruct (fetch_loop_prefix m Hnd ShortWindow
                (List.filter is_connected (sources m))
                (connected_registered m) []) as [j Hj].
    exists j. rewrite Hj. reflexivity.
  - intro Hshort.
    rewrite (fetch_loop_all_nothing m Hnd ShortWindow _ (Hreg _ Hshort)).
    repeat split.
  - intros pre sk post df Hsplit Hpre Hsk Hne.
    assert (Hk : In sk (sources m) /\ is_connected sk = true).
    { apply (connected_registered m sk). rewrite Hsplit.
      apply List.in_or_app. right. left. reflexivity. }
    pose proof (fetch_loop_first_nonempty m Hnd ShortWindow pre sk post df)
      as Hloop.
    rewrite <- Hsplit in Hloop.
    rewrite Hloop;
      try assumption; try apply Hk; [split; reflexivity|].
    intros s Hs.
    destruct (connected_registered m s) as [Hin Hc];
      [rewrite Hsplit; apply List.in_or_app; left; exact Hs | auto].
Qed.

(** C4, for a window whose first day exists.  [today] is a day of the
    calendar (ordinals 1 to 3652059, 0001-01-01 to 9999-12-31).  With
    the cache bypassed and a window of more than 30 days for which every
    connected adapter yields nothing:
    - when the window would start before 0001-01-01
      ([today - days < 1]), the fetch raises [OverflowError] and no
      adapter is called;
    - otherwise the fetch returns: each connected adapter was called
      once in registry order, and the fetch goes through them again in
      the same order with the 30-day window, up to the first non-empty
      frame, which it returns; when the 30-day window yields nothing
      either, every adapter was called for it and the fetch returns the
      empty frame and saves nothing. *)
Theorem short_window_retry (today : Z) (m : DataSourceManager)
    (db_frame : Frame) (days : Z) (force_update : bool) :
  NoDup (List.map name (sources m)) ->
  1 <= today <= 3652059 ->
  negb force_update && cache_covers db_frame days = false ->
  30 < days ->
  (forall s, In s (sources m) -> is_connected s = true ->
             yields_nothing s (FullWindow days)) ->
  let fetch := _get_stock_data today m db_frame days force_update in
  let available := List.map name (List.filter is_connected (sources m)) in
  (today - days < 1 -> fetch = OverflowError [])
  /\ (1 <= today - days ->
      exists run,
        fetch = Completed run
        /\ (exists j,
              consulted run
              = calls (FullWindow days) available
                ++ calls ShortWindow (List.firstn j available))
        /\ ((forall s, In s (sources m) -> is_connected s = true ->
                       yields_nothing s ShortWindow) ->
            result run = []
            /\ consulted run
               = calls (FullWindow days) available
                 ++ calls ShortWindow available
            /\ saved run = None)
        /\ (forall pre sk post df,
              List.filter is_connected (sources m) = pre ++ sk :: post ->
              (forall s, In s pre -> yields_nothing s ShortWindow) ->
              get_price_data sk ShortWindow = Returns df -> df <> [] ->
              result run = df
              /\ consulted run
                 = calls (FullWindow days) available
                   ++ calls ShortWindow (List.map name pre ++ [name sk]))).
Proof.
  intros Hnd Htoday Hcache Hdays Hfull fetch available. subst fetch.
  split.
  - intro Hlow. apply get_stock_data_out_of_range. left. exact Hlow.
  - intro Hstart.
    exists (fetch_run m db_frame days force_update).
    split; [apply get_stock_data_in_range; lia|].
    exact (short_window_retry_run m db_frame days force_update
             Hnd Hcache Hdays Hfull).
Qed.

(** C4 as stated fails: the window exceeds 30 days and every adapter
    has an empty answer for it, but the window starts before 0001-01-01
    and the fetch raises [OverflowError] where the claim has it return
    an empty series. *)
Lemma short_window_start_overflow :
  30 < 1000000
  /\ List.map (fun s => (name s, is_connected s,
                         get_price_data s (FullWindow 1000000)))
       (sources (manager_of all_silent None))
     = [("eastmoney", true, Returns []); ("sina", true, Returns []);
        ("qqstock", true, Returns [])]
  /\ _get_stock_data new_year_2024 (manager_of all_silent None) []
       1000000 true
     = OverflowError [].
Proof. split; [reflexivity | split; reflexivity]. Qed.

Lemma first_pass_success (m : DataSourceManager) (db_frame : Frame)
    (days : Z) (pre : list Source) (sk : Source) (post : list Source)
    (df : Frame) :
  NoDup (List.map name (sources m)) ->
  List.filter is_connected (sources m) = pre ++ sk :: post ->
  (forall s, In s pre -> yields_nothing s (FullWindow days)) ->
  get_price_data sk (FullWindow days) = Returns df -> df <> [] ->
  fetch_run m db_frame days true
  = {| result := df;
       consulted := calls (FullWindow days) (List.map name pre ++ [name sk]);
       saved := Some df |}.
Proof.
  intros Hnd Hsplit Hpre Hsk Hne.
  assert (Hk : In sk (sources m) /\ is_connected sk = true).
  { apply (connected_registered m sk). rewrite Hsplit.
    apply List.in_or_app. right. left. reflexivity. }
  pose proof (fetch_loop_first_nonempty m Hnd (FullWindow days)
                pre sk post df) as Hloop.
  rewrite <- Hsplit in Hloop.
  unfold fetch_run, get_available_sources. cbn [negb andb].
  rewrite Hloop; try assumption; try apply Hk.
  - destruct df as [|b df]; [congruence|]. cbn [fst snd empty negb andb].
    rewrite List.app_nil_r. reflexivity.
  - intros s Hs.
    destruct (connected_registered m s) as [Hin Hc];
      [rewrite Hsplit; apply List.in_or_app; left; exact Hs | auto].
Qed.

(** The calls of a fetch that bypasses the cache are, per window, a
    prefix of the connected adapters in registry order. *)
Lemma forced_run_prefixes (m : DataSourceManager) (db_frame : Frame)
    (days : Z) :
  NoDup (List.map name (sources m)) ->
  exists k j,
    consulted (fetch_run m db_frame days true)
    = calls (FullWindow days) (List.firstn k (get_available_sources m))
      ++ calls ShortWindow (List.firstn j (get_available_sources m)).
Proof.
  intro Hnd. unfold fetch_run, get_available_sources.
  cbn [negb andb consulted].
  destruct (fetch_loop_prefix m Hnd (FullWindow days)
              (List.filter is_connected (sources m))
              (connected_registered m) []) as [k Hk].
  exists k.
  destruct (empty (fst (fetch_loop m (FullWindow days)
                          (List.map name
                             (List.filter is_connected (sources m))) []))
            && (30 <? days)).
  - destruct (fetch_loop_prefix m Hnd ShortWindow
                (List.filter is_connected (sources m))
                (connected_registered m)
                (fst (fetch_loop m (FullWindow days)
                        (List.map name
                           (List.filter is_connected (sources m))) [])))
      as [j Hj].
    exists j. rewrite Hk, Hj. reflexivity.
  - exists 0%nat. rewrite Hk. reflexivity.
Qed.

(** C1, for a window whose first day exists.  [today] is a day of the
    calendar (ordinals 1 to 3652059).  For the registry that
    [get_data_source_manager] builds from a configuration:
    - its adapters are the entries of the merged configuration that are
      switched on, known and constructed, in ascending order of their
      configured priority (99 where none is given);
    - a fetch whose window starts outside the calendar raises
      [OverflowError] and calls no adapter;
    - otherwise a fetch that bypasses the cache returns, and its calls
      are, per window, a prefix of the connected adapters in registry
      order;
    - when the connected adapters before one yield nothing and that one
      returns a non-empty frame, the fetch returns this frame and has
      called no adapter after it;
    - in particular, when the adapters before adapter k are disconnected
      and adapter k is connected and returns a non-empty frame, the
      fetch returns adapter k's frame and adapter k is the only one
      called. *)
Theorem failover_order (w : World) (config : option Config)
    (m : DataSourceManager) (g : option DataSourceManager)
    (today : Z) (db_frame : Frame) (days : Z) :
  get_data_source_manager w None config = Some (m, g) ->
  1 <= today <= 3652059 ->
  let merged :=
    merge_config (match config with Some c => c | None => DATA_SOURCES end) in
  let registered := fun e : string * SourceConfig =>
    match enabled (snd e) with Some b => b | None => true end
    && is_known (fst e) && constructs (w (fst e)) in
  let rank := fun e : string * SourceConfig =>
    match priority (snd e) with Some p => p | None => 99 end in
  let fetch := _get_stock_data today m db_frame days true in
  let full := FullWindow days in
  let available := List.map name (List.filter is_connected (sources m)) in
  (exists cfg,
     List.map name (sources m) = List.map fst cfg
     /\ Permutation cfg (List.filter registered merged)
     /\ StronglySorted (fun a b => rank a <= rank b) cfg)
  /\ (today - days < 1 \/ 3652059 < today - days ->
      fetch = OverflowError [])
  /\ (1 <= today - days <= 3652059 ->
      exists run,
        fetch = Completed run
        /\ (exists k j,
              consulted run
              = calls full (List.firstn k available)
                ++ calls ShortWindow (List.firstn j available))
        /\ (forall pre sk post df,
              List.filter is_connected (sources m) = pre ++ sk :: post ->
              (forall s, In s pre -> yields_nothing s full) ->
              get_price_data sk full = Returns df -> df <> [] ->
              result run = df
              /\ consulted run = calls full (List.map name pre ++ [name sk]))
        /\ (forall pre sk post df,
              sources m = pre ++ sk :: post ->
              (forall s, In s pre -> is_connected s = false) ->
              is_connected sk = true ->
              get_price_data sk full = Returns df -> df <> [] ->
              result run = df /\ consulted run = [(name sk, full)])).
Proof.
  intros Hm Htoday merged registered rank fetch full available.
  pose proof (manager_sources w config m g Hm) as Hnames.
  assert (Hnd : NoDup (List.map name (sources m))).
  { rewrite Hnames. apply configured_nodup. }
  subst full fetch available.
  split; [|split].
  - exists (configured w
              (Some (match config with Some c => c | None => DATA_SOURCES end))).
    split; [exact Hnames|]. split.
    + unfold configured. apply (filter_perm (kept w)).
      apply sorted_by_key_perm.
    + unfold configured.
      apply (filter_sorted (kept w)). apply sorted_by_key_sorted.
  - apply get_stock_data_out_of_range.
  - intro Hstart. exists (fetch_run m db_frame days true).
    split; [apply get_stock_data_in_range; assumption|].
    split; [apply forced_run_prefixes; exact Hnd|].
    split.
    + intros pre sk post df Hsplit Hpre Hsk Hne.
      rewrite (first_pass_success m db_frame days pre sk post df);
        try assumption.
      split; reflexivity.
    + intros pre sk post df Hsplit Hpre Hc Hsk Hne.
      rewrite (first_pass_success m db_frame days [] sk
                 (List.filter is_connected post) df);
        try assumption.
      * split; reflexivity.
      * rewrite Hsplit, List.filter_app, (filter_disconnected pre Hpre).
        simpl. rewrite Hc. reflexivity.
      * intros s [].
Qed.

(** C1 as stated fails: eastmoney is disconnected, sina is connected and
    has a non-empty frame for the window, but the window starts on the
    day before 0001-01-01: the fetch raises [OverflowError] and consults
    no adapter, where the claim has it return sina's frame. *)
Lemma failover_start_date_overflow :
  List.map (fun s => (name s, is_connected s,
                      get_price_data s (FullWindow 738886)))
    (sources (manager_of eastmoney_down None))
  = [("eastmoney", false, Returns one_bar); ("sina", true, Returns one_bar);
     ("qqstock", true, Returns one_bar)]
  /\ new_year_2024 - 738886 = 0
  /\ _get_stock_data new_year_2024 (manager_of eastmoney_down None) []
       738886 true
     = OverflowError [].
Proof. split; [reflexivity | split; reflexivity]. Qed.

Lemma failover_order_witness :
  exists run,
    _get_stock_data new_year_2024 (manager_of eastmoney_down None) [] 250 true
    = Completed run
    /\ result run = one_bar
    /\ consulted run = [("sina", FullWindow 250)].
Proof.
  destruct (failover_order eastmoney_down None
              (manager_of eastmoney_down None)
              (Some (manager_of eastmoney_down None))
              new_year_2024 [] 250 eq_refl)
    as (_ & _ & Hin); [unfold new_year_2024; lia|].
  destruct Hin as (run & Hrun & _ & _ & Hk); [unfold new_year_2024; lia|].
  exists run. split; [exact Hrun|].
  apply (Hk [List.nth 0 (sources (manager_of eastmoney_down None))
               (new_source eastmoney_down "")]
            (List.nth 1 (sources (manager_of eastmoney_down None))
               (new_source eastmoney_down ""))
            [List.nth 2 (sources (manager_of eastmoney_down None))
               (new_source eastmoney_down "")]
            one_bar).
  - reflexivity.
  - intros s [<-|[]]. reflexivity.
  - reflexivity.
  - reflexivity.
  - discriminate.
Defined.

Lemma short_window_retry_witness :
  exists run,
    _get_stock_data new_year_2024 (manager_of all_silent None) [] 250 true
    = Completed run
    /\ result run = []
    /\ consulted run
       = [("eastmoney", FullWindow 250); ("sina", FullWindow 250);
          ("qqstock", FullWindow 250); ("eastmoney", ShortWindow);
          ("sina", ShortWindow); ("qqstock", ShortWindow)].
Proof.
  destruct (short_window_retry new_year_2024
              (manager_of all_silent None) [] 250 true)
    as (_ & Hret).
  - cbn. repeat constructor; simpl; intuition discriminate.
  - unfold new_year_2024. lia.
  - reflexivity.
  - reflexivity.
  - intros s Hs _. left.
    cbn in Hs. destruct Hs as [<-|[<-|[<-|[]]]]; reflexivity.
  - destruct Hret as (run & Hrun & _ & Hall & _);
      [unfold new_year_2024; lia|].
    exists run. split; [exact Hrun|].
    destruct Hall as (Hr & Hc & _).
    + intros s Hs _. left.
      cbn in Hs. destruct Hs as [<-|[<-|[<-|[]]]]; reflexivity.
    + split; [exact Hr | exact Hc].
Defined.


(** *** Selection of the primary source *)

Lemma mem_in (x : string) (l : list string) : mem x l = true <-> In x l.
Proof.
  unfold mem. rewrite List.existsb_exists. split.
  - intros (y & Hy & E). apply String.eqb_eq in E. subst. exact Hy.
  - intro H. exists x. split; [exact H | apply String.eqb_refl].
Qed.

Lemma lookup_some (m : DataSourceManager) (n : string) :
  In n (List.map name (sources m)) ->
  exists s, get_source_by_name m n = Some s.
Proof.
  unfold get_source_by_name. induction (sources m) as [|x l IH]; [intros []|].
  simpl. destruct (String.eqb_spec (name x) n) as [E|E].
  - intros _. exists x. reflexivity.
  - intros [H|H]; [contradiction | apply IH; exact H].
Qed.

Lemma connect_fresh (s : Source) :
  is_connected s = false ->
  match snd (connect s) with Some b => b | None => false end
  = is_connected (fst (connect s)).
Proof.
  intro H. unfold connect. destruct (probe s); simpl; congruence.
Qed.

(** After [connect_all] on sources whose flag was down, the names that
    [connect] returned [True] for are the names whose flag is up. *)
Lemma connect_all_fresh (m : DataSourceManager) :
  (forall s, In s (sources m) -> is_connected s = false) ->
  List.map fst (List.filter snd (snd (connect_all m)))
  = get_available_sources (fst (connect_all m)).
Proof.
  unfold connect_all, get_available_sources. cbn [fst snd sources].
  induction (sources m) as [|s l IH]; intro H; [reflexivity|].
  pose proof (connect_fresh s (H s (or_introl eq_refl))) as Hs.
  assert (IH' := IH (fun x Hx => H x (or_intror Hx))).
  cbn [List.map List.filter fst snd]. rewrite Hs.
  destruct (is_connected (fst (connect s))); cbn [List.map fst];
    rewrite IH'; reflexivity.
Qed.

Lemma create_fresh (w : World) (config : option Config) (s : Source) :
  In s (sources (create_data_source_manager w config)) ->
  is_connected s = false.
Proof.
  rewrite create_sources. intro H. apply List.in_map_iff in H.
  destruct H as (n & <- & _). reflexivity.
Qed.

Lemma add_sources_primary (w : World) (l : Config) :
  forall m0,
    primary_source (add_sources w l m0)
    = match primary_source m0 with
      | Some p => Some p
      | None => List.hd_error (List.map fst (List.filter (kept w) l))
      end.
Proof.
  induction l as [|[n c] l IH]; intro m0.
  - simpl. destruct (primary_source m0); reflexivity.
  - simpl. unfold kept at 1. cbn [fst snd].
    destruct (match enabled c with Some b => b | None => true end);
      cbn [negb andb]; [|apply IH].
    destruct (is_known n); cbn [negb andb]; [|apply IH].
    destruct (constructs (w n)); [|apply IH].
    rewrite IH. cbn [add_source primary_source List.map List.hd_error].
    destruct (primary_source m0); reflexivity.
Qed.

Lemma create_primary (w : World) (config : option Config) :
  primary_source (create_data_source_manager w config)
  = List.hd_error (List.map fst (configured w config)).
Proof.
  unfold create_data_source_manager. rewrite add_sources_primary.
  reflexivity.
Qed.

Lemma available_in_names (m : DataSourceManager) (n : string) :
  In n (get_available_sources m) -> In n (List.map name (sources m)).
Proof.
  unfold get_available_sources. intro H. apply List.in_map_iff in H.
  destruct H as (s & <- & Hs). apply List.filter_In in Hs.
  apply List.in_map. apply Hs.
Qed.

(** [get_data_source_manager] never raises the [ValueError] of
    [set_primary_source], and what it selects is the first name of the
    fixed list [priority_order] whose adapter connected; without any
    connected adapter the primary stays the first adapter added, the
    first of the configured order. *)
Lemma primary_selection (w : World) (config : option Config) :
  let cfg := Some (match config with Some c => c | None => DATA_SOURCES end) in
  exists m,
    get_data_source_manager w None config = Some (m, Some m)
    /\ primary_source m
       = match get_available_sources m with
         | [] => List.hd_error (List.map fst (configured w cfg))
         | first_available :: _ =>
             match List.find (fun n => mem n (get_available_sources m))
                     priority_order with
             | Some primary => Some primary
             | None => Some first_available
             end
         end.
Proof.
  intro cfg. unfold get_data_source_manager. fold cfg.
  set (created := create_data_source_manager w cfg).
  pose proof (connect_all_fresh created (create_fresh w cfg)) as Hconn.
  set (m1 := fst (connect_all created)) in *.
  assert (Hprim : primary_source m1
                  = List.hd_error (List.map fst (configured w cfg))).
  { unfold m1, connect_all. cbn [fst primary_source].
    apply create_primary. }
  unfold select_primary. rewrite Hconn.
  destruct (get_available_sources m1) as [|a l] eqn:Ha.
  - exists m1. rewrite Ha. split; [reflexivity | exact Hprim].
  - destruct (List.find (fun n => mem n (a :: l)) priority_order)
      as [p|] eqn:Hf.
    + assert (Hp : In p (List.map name (sources m1))).
      { apply available_in_names. rewrite Ha.
        apply List.find_some in Hf. apply mem_in. apply Hf. }
      destruct (lookup_some m1 p Hp) as [s Hs].
      unfold set_primary_source. rewrite Hs.
      eexists. split; [reflexivity|].
      unfold get_available_sources at 1 2. cbn [sources primary_source].
      fold (get_available_sources m1). rewrite Ha, Hf. reflexivity.
    + assert (Hp : In a (List.map name (sources m1))).
      { apply available_in_names. rewrite Ha. left. reflexivity. }
      destruct (lookup_some m1 a Hp) as [s Hs].
      unfold set_primary_source. rewrite Hs.
      eexists. split; [reflexivity|].
      unfold get_available_sources at 1 2. cbn [sources primary_source].
      fold (get_available_sources m1). rewrite Ha, Hf. reflexivity.
Qed.


Lemma subseq_in {A : Type} (l l' : list A) (a : A) :
  Subsequence l l' -> In a l -> In a l'.
Proof.
  induction 1 as [|x l l' _ IH|x l l' _ IH]; simpl; intuition.
Qed.

Lemma subseq_filter {A : Type} (f : A -> bool) (l : list A) :
  Subsequence (List.filter f l) l.
Proof.
  induction l as [|x l IH]; [constructor|].
  simpl. destruct (f x); constructor; exact IH.
Qed.

Lemma subseq_map {A B : Type} (g : A -> B) (l l' : list A) :
  Subsequence l l' -> Subsequence (List.map g l) (List.map g l').
Proof.
  induction 1; simpl; constructor; assumption.
Qed.

Lemma subseq_trans {A : Type} (l2 l3 : list A) :
  Subsequence l2 l3 -> forall l1, Subsequence l1 l2 -> Subsequence l1 l3.
Proof.
  induction 1 as [|x l2 l3 _ IH|x l2 l3 _ IH]; intros l1 H12.
  - exact H12.
  - inversion H12; subst; constructor; apply IH; assumption.
  - constructor. apply IH. exact H12.
Qed.

(** Searching a duplicate-free list for the first member of one of its
    subsequences finds the head of the subsequence. *)
Lemma find_first_of_subseq (c p : list string) :
  Subsequence c p -> NoDup p ->
  List.find (fun n => mem n c) p = List.hd_error c.
Proof.
  induction 1 as [|x c p _ IH|x c p Hsub IH]; intro Hnd.
  - reflexivity.
  - simpl. rewrite String.eqb_refl. reflexivity.
  - inversion Hnd as [|? ? Hx Hp]; subst.
    cbn [List.find].
    destruct (mem x c) eqn:E; [|apply IH; exact Hp].
    exfalso. apply Hx. apply (subseq_in c p x Hsub). apply mem_in. exact E.
Qed.

Lemma priority_order_nodup : NoDup priority_order.
Proof.
  unfold priority_order. repeat constructor; simpl; intuition discriminate.
Qed.

(** When the configured order of the adapters agrees with the fixed
    list, the primary is the first connected adapter in ascending
    configured priority, and the first configured adapter when none is
    connected. *)
Lemma primary_of_ordered_registry (w : World) (config : option Config) :
  Subsequence
    (List.map fst
       (configured w
          (Some (match config with Some c => c | None => DATA_SOURCES end))))
    priority_order ->
  exists m,
    get_data_source_manager w None config = Some (m, Some m)
    /\ primary_source m = first_connected_or_first m.
Proof.
  intro Hsub.
  destruct (primary_selection w config) as (m & Hm & Hp).
  exists m. split; [exact Hm|].
  pose proof (manager_sources w config m (Some m) Hm) as Hnames.
  unfold first_connected_or_first. rewrite Hp, Hnames.
  destruct (get_available_sources m) as [|a l] eqn:Ha; [reflexivity|].
  rewrite (find_first_of_subseq (a :: l) priority_order);
    [reflexivity | | exact priority_order_nodup].
  apply (subseq_trans _ _ Hsub). rewrite <- Hnames, <- Ha.
  unfold get_available_sources. apply subseq_map. apply subseq_filter.
Qed.

(** With the configuration of [config.py], whose priorities are the
    ones the fixed list was written from, and whatever the providers
    do: the primary is the first connected adapter in ascending
    configured priority, and the first configured adapter when none is
    connected. *)
Theorem primary_with_shipped_config (w : World) :
  exists m,
    get_data_source_manager w None None = Some (m, Some m)
    /\ primary_source m = first_connected_or_first m.
Proof.
  apply primary_of_ordered_registry.
  unfold configured.
  change priority_order
    with (List.map fst (sorted_by_key (merge_config DATA_SOURCES))).
  apply (subseq_map fst). apply subseq_filter.
Qed.

(** C3.  With sina configured at priority 0, ahead of eastmoney at its
    default 1, and every adapter connected: the registry lists sina
    first, the first connected adapter in ascending configured priority
    is sina, and the primary selected is eastmoney. *)
Theorem primary_ignores_configured_priority :
  List.map (fun e => (fst e, sort_key e))
    (configured all_up (Some sina_first))
  = [("sina", 0); ("eastmoney", 1); ("tushare", 2); ("akshare", 3);
     ("qqstock", 5); ("wangyi", 6)]
  /\ exists m,
       get_data_source_manager all_up None (Some sina_first) = Some (m, Some m)
       /\ get_available_sources m
          = ["sina"; "eastmoney"; "tushare"; "akshare"; "qqstock"; "wangyi"]
       /\ first_connected_or_first m = Some "sina"
       /\ primary_source m = Some "eastmoney".
Proof.
  split; [reflexivity|].
  eexists. split; [reflexivity|]. repeat split.
Qed.

(** No adapter connected: the primary is the first configured one. *)
Example primary_when_all_down :
  let down : World :=
    fun _ => {| constructs := true; provider_probe := ProbeFailed;
                provider_history := fun _ => FetchRaises |} in
  primary_source (manager_of down (Some sina_first)) = Some "sina"
  /\ get_available_sources (manager_of down (Some sina_first)) = [].
Proof. split; reflexivity. Qed.

End DataSourceProofs.

(* ===================================================================== *)
(** ** Turtle strategy *)
(* ===================================================================== *)

Module TurtleProofs.

Import PyFloat Pandas PyFloatFacts PandasFacts TurtleStrategy TurtleSamples.
Local Open Scope string_scope.
Local Open Scope Q_scope.

Ltac in_default :=
  repeat split; try reflexivity; try apply Qle_refl; try discriminate.

Lemma col_nonempty (f : Bar -> pyfloat) (df : DataFrame) :
  rows df <> [] -> col f df <> [].
Proof.
  unfold col. destruct (rows df); [congruence | discriminate].
Qed.

Lemma Qeq_bool_pos_false (a : Q) : 0 < a -> Qeq_bool a 0 = false.
Proof.
  intro H. destruct (Qeq_bool a 0) eqn:E; [|reflexivity].
  apply Qeq_bool_eq in E. rewrite E in H. exfalso. apply (Qlt_irrefl 0 H).
Qed.

Lemma Qdiv_pos (c a : Q) : 0 < c -> 0 < a -> 0 < c / a.
Proof.
  intros Hc Ha. apply Qlt_shift_div_l; [exact Ha|].
  rewrite Qmult_0_l. exact Hc.
Qed.

Lemma py_min_feq (x x' y : pyfloat) :
  feq x x' -> feq (py_min x y) (py_min x' y).
Proof.
  unfold py_min.
  destruct x as [| | |a], x' as [| | |a']; simpl; try contradiction;
    intro H; destruct y as [| | |b]; simpl; auto; try reflexivity.
  unfold Qltb. rewrite H.
  destruct (Qle_bool a' b); simpl; [exact H | reflexivity].
Qed.

(** C7.  [_combine_signals] gives System 2's entry signal whenever it
    has one; otherwise System 1's entry signal when System 1 has one and
    its confidence is above 0.6; otherwise EXIT when either system has an
    exit signal; otherwise HOLD. *)
Theorem combine_signals_precedence (system1 system2 : SystemResult) :
  let r := _combine_signals system1 system2 in
  let s1_enters :=
    entry_signal system1 <> "NONE"
    /\ fgt (confidence system1) (Fin 0.6) = true in
  (entry_signal system2 <> "NONE" -> r = entry_signal system2)
  /\ (entry_signal system2 = "NONE" -> s1_enters ->
      r = entry_signal system1)
  /\ (entry_signal system2 = "NONE" -> ~ s1_enters ->
      exit_signal system2 <> "NONE" \/ exit_signal system1 <> "NONE" ->
      r = "EXIT")
  /\ (entry_signal system2 = "NONE" -> ~ s1_enters ->
      exit_signal system2 = "NONE" -> exit_signal system1 = "NONE" ->
      r = "HOLD").
Proof.
  cbv zeta. unfold _combine_signals.
  destruct (String.eqb_spec (entry_signal system2) "NONE") as [E2|E2];
    cbn [negb andb].
  2:{ repeat split; intros; try reflexivity; congruence. }
  destruct (String.eqb_spec (entry_signal system1) "NONE") as [E1|E1];
    [ | destruct (fgt (confidence system1) (Fin 0.6)) eqn:C ];
    destruct (String.eqb_spec (exit_signal system2) "NONE") as [X2|X2];
    destruct (String.eqb_spec (exit_signal system1) "NONE") as [X1|X1];
    cbn [negb andb]; repeat split; intros; try reflexivity;
    try congruence; try tauto;
    try (match goal with H : _ /\ _ |- _ => destruct H; congruence end);
    match goal with
    | H : ~ (_ /\ _) |- _ =>
        exfalso; apply H; split; [assumption | reflexivity]
    end.
Qed.

(** C10, for an ATR that is a number.  For every price series with a
    last close and every such ATR, [_calculate_position_size] performs
    no division by zero and returns a value in (0, 0.05]: the default
    0.05 when [atr <= 0] or the last close is [<= 0], and
    [min(0.02 / atr, 0.05)] otherwise. *)
Theorem position_size_total (price_data : DataFrame) (atr : Q) :
  rows price_data <> [] ->
  let current_price := List.last (col close price_data) NaN in
  let r := _calculate_position_size params price_data (Fin atr) in
  position_size_body params price_data (Fin atr) = Py.Ok r
  /\ (atr <= 0 \/ fle current_price (Fin 0) = true -> r = Fin 0.05)
  /\ (0 < atr /\ fle current_price (Fin 0) = false ->
      feq r (py_min (Fin (0.02 / atr)) (Fin 0.05)))
  /\ exists q, r = Fin q /\ 0 < q /\ q <= 0.05.
Proof.
  intros Hne. cbv zeta.
  unfold _calculate_position_size, position_size_body.
  rewrite (iloc_last_nonempty _ (col_nonempty close price_data Hne)).
  set (cp := List.last (col close price_data) NaN).
  cbn [Py.bind].
  destruct (Qlt_le_dec 0 atr) as [Hpos|Hnonpos].
  - assert (Hg : fle (Fin atr) (Fin 0) = false).
    { simpl. apply Qle_bool_false_iff. exact Hpos. }
    rewrite Hg. cbn [orb].
    destruct (fle cp (Fin 0)) eqn:Hcp.
    + cbn [Py.try_except]. repeat split; auto.
      * intros [_ H]. discriminate.
      * exists 0.05. in_default.
    + unfold py_div. cbn [is_zero params total_capital position_risk_pct
                            unit_limit_single fmul fdiv].
      rewrite (Qeq_bool_pos_false atr Hpos). cbn [Py.bind is_zero fdiv].
      replace (Qeq_bool 100000 0) with false by reflexivity.
      cbn [Py.bind Py.try_except].
      assert (Hx : 100000 * 0.02 / atr / 100000 == 0.02 / atr).
      { field. intro Z. rewrite Z in Hpos. apply (Qlt_irrefl 0 Hpos). }
      assert (Hxpos : 0 < 100000 * 0.02 / atr / 100000).
      { rewrite Hx. apply Qdiv_pos; [reflexivity | exact Hpos]. }
      repeat split.
      * intros [H|H]; [|discriminate].
        exfalso. apply (Qlt_not_le _ _ Hpos H).
      * intros _. apply py_min_feq. simpl. exact Hx.
      * unfold py_min. simpl.
        destruct (Qltb 0.05 (100000 * 0.02 / atr / 100000)) eqn:E.
        -- exists 0.05. in_default.
        -- apply Qltb_false_iff in E.
           exists (100000 * 0.02 / atr / 100000). repeat split; assumption.
  - assert (Hg : fle (Fin atr) (Fin 0) = true).
    { simpl. apply Qle_bool_iff. exact Hnonpos. }
    rewrite Hg. cbn [orb Py.try_except]. repeat split; auto.
    + intros [H _]. exfalso. apply (Qlt_not_le _ _ H Hnonpos).
    + exists 0.05. in_default.
Qed.

(** Whatever the ATR, NaN and the infinities included, no division of
    [_calculate_position_size] has a zero divisor: a zero ATR is caught
    by the guard, and the capital is not zero. *)
Lemma position_size_no_zero_division (price_data : DataFrame) (atr : pyfloat) :
  position_size_body params price_data atr
  <> Py.Raise Py.ZeroDivisionError.
Proof.
  unfold position_size_body.
  destruct (iloc_last (col close price_data)) as [cp|e] eqn:Hcp;
    cbn [Py.bind].
  2:{ unfold iloc_last in Hcp.
      destruct (List.last (List.map Some (col close price_data)) None);
        simpl in Hcp; congruence. }
  destruct (fle atr (Fin 0) || fle cp (Fin 0)) eqn:Hg; [discriminate|].
  apply orb_false_iff in Hg. destruct Hg as [Ha _].
  unfold py_div.
  assert (Hz : is_zero atr = false).
  { destruct atr as [| | |a]; try reflexivity. simpl in *.
    destruct (Qeq_bool a 0) eqn:E; [|reflexivity].
    apply Qeq_bool_eq in E. apply Qle_bool_false_iff in Ha.
    rewrite E in Ha. exfalso. apply (Qlt_irrefl 0 Ha). }
  rewrite Hz. cbn [Py.bind params total_capital is_zero].
  replace (Qeq_bool 100000 0) with false by reflexivity.
  cbn [Py.bind]. discriminate.
Qed.

(** C10 as stated fails for an ATR that is not a number: NaN passes the
    guard [atr <= 0], since every comparison with NaN is false, and NaN
    comes back; an infinite ATR gives the size 0. *)
Lemma position_size_of_nan_atr :
  _calculate_position_size params sample_frame NaN = NaN
  /\ feq (_calculate_position_size params sample_frame PInf) (Fin 0).
Proof. split; reflexivity. Qed.

Lemma position_size_total_witness :
  position_size_body params sample_frame (Fin 0) = Py.Ok (Fin 0.05)
  /\ _calculate_position_size params sample_frame (Fin 0) = Fin 0.05.
Proof.
  assert (Hne : rows sample_frame <> []) by discriminate.
  destruct (position_size_total sample_frame 0 Hne) as (Hb & Hdef & _).
  assert (Hr : _calculate_position_size params sample_frame (Fin 0)
               = Fin 0.05).
  { apply Hdef. left. apply Qle_refl. }
  split; [|exact Hr]. rewrite <- Hr. exact Hb.
Defined.


(** *** Breakout trigger and breakout strength *)

Lemma col_length (f : Bar -> pyfloat) (df : DataFrame) :
  List.length (col f df) = len df.
Proof. unfold col, len. apply List.length_map. Qed.

Lemma frame_nonempty (n : nat) (df : DataFrame) :
  (n + 1 <= len df)%nat -> rows df <> [].
Proof.
  unfold len. destruct (rows df); simpl; [lia | discriminate].
Qed.

(** The breakout trigger of [_analyze_system]: on a frame of at least
    [entry_period + 1] bars whose last high is strictly above the highest
    high of the [entry_period] bars before it, the system reports BUY and
    that highest high as [breakout_high]. *)
Lemma analyze_system_breakout_buy
    (p : Params) (system_num : Z) (price_data : DataFrame) :
  let entry_period :=
    if (system_num =? 1)%Z then system1_entry_period p
    else system2_entry_period p in
  (entry_period + 1 <= len price_data)%nat ->
  fgt (List.last (col high price_data) NaN)
      (trailing_high entry_period price_data) = true ->
  exists r,
    _analyze_system p system_num price_data = Py.Ok r
    /\ entry_signal r = "BUY"
    /\ breakout_high r = Some (trailing_high entry_period price_data)
    /\ entry_price r = Some (trailing_high entry_period price_data)
    /\ confidence r =
        _calculate_breakout_strength price_data
          (trailing_high entry_period price_data) true.
Proof.
  intros entry_period Hlen Hgt.
  pose proof (frame_nonempty _ _ Hlen) as Hne.
  unfold _analyze_system. fold entry_period.
  assert (Hlt : (len price_data <? entry_period + 1)%nat = false)
    by (apply Nat.ltb_ge; exact Hlen).
  rewrite Hlt.
  rewrite !(iloc_last_nonempty _ (col_nonempty _ price_data Hne)).
  cbn [Py.bind].
  assert (Hw : iloc_window entry_period (col high price_data)
               = List.firstn entry_period
                   (List.skipn (len price_data - (entry_period + 1))
                      (col high price_data))).
  { rewrite <- (col_length high).
    apply iloc_window_spec. rewrite col_length. exact Hlen. }
  rewrite Hw. fold (trailing_high entry_period price_data).
  rewrite Hgt. eexists. split; [reflexivity|].
  cbn. repeat split.
Qed.

(** Whatever the input, the value of [_calculate_breakout_strength] is
    NaN or lies in [0.1, 0.9]. *)
Lemma breakout_strength_nan_or_clamped
    (price_data : DataFrame) (level : pyfloat) (is_upward : bool) :
  let c := _calculate_breakout_strength price_data level is_upward in
  c = NaN \/ in_range 0.1 0.9 c.
Proof.
  cbv zeta. unfold _calculate_breakout_strength, breakout_strength_body.
  destruct (iloc_last (col close price_data)) as [cp|e]; cbn [Py.bind].
  2:{ right. simpl. split; discriminate. }
  destruct (if has_volume price_data
            then iloc_last (col volume price_data)
            else Py.Ok (Fin 0)) as [cv|e]; cbn [Py.bind Py.try_except].
  2:{ right. simpl. split; discriminate. }
  match goal with
  | |- context [py_max (py_min ?x (Fin 0.9)) (Fin 0.1)] =>
      destruct (isna x) eqn:Hx;
      [ left; destruct x; try discriminate; reflexivity
      | right; apply clamp_in_range; [discriminate | exact Hx] ]
  end.
Qed.


Lemma fdiv_fin_nonzero (a b : Q) :
  ~ b == 0 -> fdiv (Fin a) (Fin b) = Fin (a / b).
Proof.
  intro H. simpl. destruct (Qeq_bool b 0) eqn:E; [|reflexivity].
  apply Qeq_bool_eq in E. contradiction.
Qed.

Lemma py_min_fin (a b : Q) : exists q, py_min (Fin a) (Fin b) = Fin q.
Proof.
  unfold py_min. destruct (flt (Fin b) (Fin a)); eexists; reflexivity.
Qed.

Lemma volume_ratio_fin (cv : Q) (avg : pyfloat) :
  exists q,
    (if fgt avg (Fin 0) then fdiv (Fin cv) avg else Fin 1) = Fin q.
Proof.
  destruct avg as [| | |b]; simpl; try (eexists; reflexivity).
  destruct (Qltb 0 b) eqn:E; [|eexists; reflexivity].
  apply Qltb_iff in E. rewrite (Qeq_bool_pos_false b E).
  eexists; reflexivity.
Qed.

(** On a frame whose last close and last volume are numbers, and for a
    breakout level that is a non-zero number, the confidence lies in
    [0.1, 0.9]. *)
Lemma breakout_strength_clamped
    (price_data : DataFrame) (level c v : Q) (is_upward : bool) :
  rows price_data <> [] ->
  List.last (col close price_data) NaN = Fin c ->
  List.last (col volume price_data) NaN = Fin v ->
  ~ level == 0 ->
  in_range 0.1 0.9
    (_calculate_breakout_strength price_data (Fin level) is_upward).
Proof.
  intros Hne Hc Hv Hl.
  unfold _calculate_breakout_strength, breakout_strength_body.
  rewrite (iloc_last_nonempty _ (col_nonempty close price_data Hne)), Hc.
  cbn [Py.bind].
  assert (Hcv : exists cv,
             (if has_volume price_data
              then iloc_last (col volume price_data)
              else Py.Ok (Fin 0)) = Py.Ok (Fin cv)).
  { destruct (has_volume price_data); [|eexists; reflexivity].
    rewrite (iloc_last_nonempty _ (col_nonempty volume price_data Hne)), Hv.
    eexists; reflexivity. }
  destruct Hcv as [cv ->]. cbn [Py.bind Py.try_except].
  apply clamp_in_range; [discriminate|].
  destruct (volume_ratio_fin cv
              (if has_volume price_data
               then series_mean (tail 20 (col volume price_data))
               else Fin 1)) as [r ->].
  assert (Hp : exists q,
             (if is_upward
              then fdiv (fsub (Fin c) (Fin level)) (Fin level)
              else fdiv (fsub (Fin level) (Fin c)) (Fin level)) = Fin q).
  { destruct is_upward; cbn [fsub fneg fadd];
      rewrite (fdiv_fin_nonzero _ _ Hl); eexists; reflexivity. }
  destruct Hp as [q ->]. cbn [fmul fsub fneg fadd].
  repeat match goal with
  | |- context [py_min (Fin ?a) (Fin ?b)] =>
      let w := fresh "w" in destruct (py_min_fin a b) as [w ->];
      cbn [fadd]
  end.
  reflexivity.
Qed.

Lemma breakout_strength_clamped_witness :
  in_range 0.1 0.9
    (_calculate_breakout_strength sample_frame (Fin 8) true).
Proof.
  apply (breakout_strength_clamped sample_frame 8 10 1000 true);
    [discriminate | reflexivity | reflexivity | discriminate].
Defined.

Lemma analyze_system_breakout_buy_witness :
  exists r,
    _analyze_system params 1 breakout_frame_no_volume = Py.Ok r
    /\ entry_signal r = "BUY"
    /\ breakout_high r = Some (trailing_high 20 breakout_frame_no_volume).
Proof.
  destruct (analyze_system_breakout_buy params 1 breakout_frame_no_volume)
    as (r & Hr & Hs & Hb & _);
    [cbn; lia | reflexivity |].
  exists r. repeat split; assumption.
Defined.

(** C6.  On a 21-bar frame whose last bar breaks above the 20-bar high
    and carries no volume, System 1 reports BUY with [breakout_high]
    equal to that 20-bar high, and the confidence it reports is NaN: it
    is not in [0.1, 0.9]. *)
Theorem breakout_confidence_missing_volume :
  trailing_high 20 breakout_frame_no_volume = Fin 10
  /\ fgt (List.last (col high breakout_frame_no_volume) NaN) (Fin 10) = true
  /\ exists r,
       _analyze_system params 1 breakout_frame_no_volume = Py.Ok r
       /\ entry_signal r = "BUY"
       /\ breakout_high r = Some (Fin 10)
       /\ confidence r = NaN
       /\ (in_range 0.1 0.9 (confidence r) -> False).
Proof.
  split; [reflexivity|]. split; [reflexivity|].
  eexists. split; [vm_compute; reflexivity|].
  cbn. repeat split. intros [].
Qed.

(** The same loss of the clamp on numbers only: a last close of zero
    against a breakout level of zero. *)
Lemma breakout_strength_zero_level :
  _calculate_breakout_strength
    {| has_volume := true;
       rows := [ {| high := Fin 1; low := Fin 0; close := Fin 0;
                    volume := Fin 1000 |} ] |}
    (Fin 0) true = NaN.
Proof. reflexivity. Qed.

End TurtleProofs.

(* ===================================================================== *)
(** ** Indicators *)
(* ===================================================================== *)

Module IndicatorProofs.

Import PyFloat Pandas PyFloatFacts TechnicalIndicators IndicatorSamples.
Local Open Scope Q_scope.

(** *** The smoothing loop *)

Lemma smooth_loop_length (vals : Series) :
  forall prev, List.length (smooth_loop prev vals) = List.length vals.
Proof.
  induction vals as [|v rest IH]; intro prev; [reflexivity|].
  simpl. destruct (isna v); simpl; rewrite IH; reflexivity.
Qed.

(** A NaN input row gives a NaN output row. *)
Lemma smooth_loop_nan (vals : Series) :
  forall prev t,
    isna (List.nth t vals NaN) = true ->
    List.nth t (smooth_loop prev vals) NaN = NaN.
Proof.
  induction vals as [|v rest IH]; intros prev t H.
  - destruct t; reflexivity.
  - simpl. destruct t as [|t]; simpl in H.
    + rewrite H. reflexivity.
    + destruct (isna v); simpl; apply IH; exact H.
Qed.

(** The first valid row is smoothed against the seed. *)
Lemma smooth_loop_seed (vals : Series) :
  forall prev t,
    (t < List.length vals)%nat ->
    (forall s, (s < t)%nat -> isna (List.nth s vals NaN) = true) ->
    isna (List.nth t vals NaN) = false ->
    List.nth t (smooth_loop prev vals) NaN
    = smooth_step prev (List.nth t vals NaN).
Proof.
  induction vals as [|v rest IH]; intros prev t Hlt Hbefore Hvalid.
  - simpl in Hlt. lia.
  - destruct t as [|t]; simpl in *.
    + rewrite Hvalid. reflexivity.
    + pose proof (Hbefore 0%nat ltac:(lia)) as H0. simpl in H0.
      rewrite H0. simpl. apply IH; [lia | | exact Hvalid].
      intros s Hs. apply (Hbefore (S s)). lia.
Qed.

(** A later valid row is smoothed against the output of the last valid
    row before it: the carried value crosses NaN rows unchanged. *)
Lemma smooth_loop_carry (vals : Series) :
  forall prev s t,
    (s < t)%nat -> (t < List.length vals)%nat ->
    isna (List.nth s vals NaN) = false ->
    isna (List.nth t vals NaN) = false ->
    (forall u, (s < u)%nat -> (u < t)%nat ->
               isna (List.nth u vals NaN) = true) ->
    List.nth t (smooth_loop prev vals) NaN
    = smooth_step (List.nth s (smooth_loop prev vals) NaN)
                  (List.nth t vals NaN).
Proof.
  induction vals as [|v rest IH]; intros prev s t Hst Hlt Hs Ht Hgap.
  - simpl in Hlt. lia.
  - destruct t as [|t]; [lia|]. destruct s as [|s].
    + simpl in Hs. simpl. rewrite Hs. simpl.
      apply smooth_loop_seed; [simpl in Hlt; lia | | exact Ht].
      intros u Hu. apply (Hgap (S u)); lia.
    + simpl in Hs, Ht, Hlt. simpl.
      destruct (isna v); simpl; apply IH; try assumption; try lia;
        intros u Hu1 Hu2; apply (Hgap (S u)); lia.
Qed.

(** Without infinities in the input, the output is NaN on exactly the
    NaN rows of the input. *)
Lemma smooth_loop_isna (vals : Series) :
  forall q t,
    List.Forall no_inf vals ->
    isna (List.nth t (smooth_loop (Fin q) vals) NaN)
    = isna (List.nth t vals NaN)
    /\ List.Forall no_inf (smooth_loop (Fin q) vals).
Proof.
  induction vals as [|v rest IH]; intros q t Hall.
  - destruct t; simpl; split; constructor.
  - inversion Hall as [|? ? Hv Hrest]; subst.
    destruct v as [| | |x]; simpl in Hv; try contradiction; simpl.
    + destruct t as [|t]; simpl.
      * split; [reflexivity|].
        constructor; [exact I | apply (IH q 0%nat Hrest)].
      * destruct (IH q t Hrest) as [E F].
        split; [exact E | constructor; [exact I | exact F]].
    + destruct t as [|t]; simpl.
      * split; [reflexivity|].
        constructor; [exact I | apply (IH _ 0%nat Hrest)].
      * destruct (IH (2 / 3 * q + 1 / 3 * x) t Hrest) as [E F].
        split; [exact E | constructor; [exact I | exact F]].
Qed.


(** *** Series arithmetic *)

Lemma rolling_length (agg : Series -> pyfloat) (w : nat) (s : Series) :
  List.length (rolling agg w s) = List.length s.
Proof.
  unfold rolling. rewrite List.length_map, List.length_seq. reflexivity.
Qed.

Lemma map2_length (f : pyfloat -> pyfloat -> pyfloat) (a b : Series) :
  List.length (map2 f a b) = Nat.min (List.length a) (List.length b).
Proof.
  unfold map2. rewrite List.length_map, List.length_combine. reflexivity.
Qed.

Lemma map2_nth (f : pyfloat -> pyfloat -> pyfloat) (a : Series) :
  forall (b : Series) (t : nat),
    (t < List.length a)%nat -> (t < List.length b)%nat ->
    List.nth t (map2 f a b) NaN = f (List.nth t a NaN) (List.nth t b NaN).
Proof.
  induction a as [|x a IH]; intros b t Ha Hb; [simpl in Ha; lia|].
  destruct b as [|y b]; [simpl in Hb; lia|].
  destruct t as [|t]; [reflexivity|].
  simpl in Ha, Hb. unfold map2 in *. simpl. apply IH; lia.
Qed.

Lemma rolling_nth_warmup (agg : Series -> pyfloat) (w : nat) (s : Series)
    (t : nat) :
  (t + 1 < w)%nat -> List.nth t (rolling agg w s) NaN = NaN.
Proof.
  intro Hw.
  destruct (Nat.lt_ge_cases t (List.length s)) as [Hlt|Hge].
  - unfold rolling.
    set (g := fun i : nat => _).
    rewrite (List.nth_indep _ NaN (g 0%nat))
      by (rewrite List.length_map, List.length_seq; exact Hlt).
    rewrite List.map_nth, List.seq_nth by exact Hlt.
    unfold g. simpl.
    assert (E : (t + 1 <? w)%nat = true) by (apply Nat.ltb_lt; exact Hw).
    rewrite E. reflexivity.
  - apply List.nth_overflow. rewrite rolling_length. exact Hge.
Qed.

Lemma fsub_nan_r (x : pyfloat) : fsub x NaN = NaN.
Proof. destruct x; reflexivity. Qed.

Lemma rsv_length (high low close : Series) (k_period : nat) :
  List.length high = List.length close ->
  List.length low = List.length close ->
  List.length (rsv_series high low close k_period) = List.length close.
Proof.
  intros Hh Hl. unfold rsv_series.
  rewrite List.length_map, !map2_length, !rolling_length, Hh, Hl.
  rewrite !Nat.min_id. reflexivity.
Qed.

(** Rows before the first full window have no rsv. *)
Lemma rsv_warmup (high low close : Series) (k_period t : nat) :
  List.length high = List.length close ->
  List.length low = List.length close ->
  (t + 1 < k_period)%nat ->
  List.nth t (rsv_series high low close k_period) NaN = NaN.
Proof.
  intros Hh Hl Hw.
  destruct (Nat.lt_ge_cases t (List.length close)) as [Hlt|Hge].
  - unfold rsv_series.
    change NaN with (fmul NaN (Fin 100)) at 1.
    rewrite (List.map_nth (fun x => fmul x (Fin 100))).
    rewrite map2_nth
      by (rewrite map2_length, !rolling_length, ?Hh, ?Hl, ?Nat.min_id;
          exact Hlt).
    rewrite (map2_nth fsub close)
      by (rewrite ?rolling_length, ?Hl; exact Hlt).
    rewrite (rolling_nth_warmup series_min k_period low t Hw).
    rewrite fsub_nan_r. reflexivity.
  - apply List.nth_overflow. rewrite rsv_length; assumption.
Qed.


Lemma map_nth_nan (g : pyfloat -> pyfloat) (l : Series) (t : nat) :
  g NaN = NaN -> List.nth t (List.map g l) NaN = g (List.nth t l NaN).
Proof.
  intro H. rewrite <- H at 1. apply List.map_nth.
Qed.

Lemma j_row (k d : Series) (t : nat) :
  List.length k = List.length d ->
  List.nth t (map2 fsub (List.map (fmul (Fin 3)) k)
                        (List.map (fmul (Fin 2)) d)) NaN
  = fsub (fmul (Fin 3) (List.nth t k NaN)) (fmul (Fin 2) (List.nth t d NaN)).
Proof.
  intro Hkd.
  destruct (Nat.lt_ge_cases t (List.length k)) as [Hlt|Hge].
  - rewrite map2_nth by (rewrite List.length_map; lia).
    rewrite !map_nth_nan by reflexivity. reflexivity.
  - rewrite !List.nth_overflow; try reflexivity; try lia.
    rewrite map2_length, !List.length_map. lia.
Qed.

(** C5.  On series of at least [k_period] rows, with [R], [K], [D], [J]
    the rsv, K, D and J values by row and [smooth prev x] standing for
    [(2/3) * prev + (1/3) * x]:
    - the three outputs have one value per input row;
    - a row without rsv (NaN), so every row before the first full
      window, has K = D = NaN;
    - K at the first row with an rsv is [smooth 50 rsv];
      K at a later row with an rsv is [smooth K_s rsv], [s] the last
      row before it with an rsv: NaN rows in between leave the carried
      value unchanged;
    - D follows from K by the same recursion and the same seed 50, and
      when the rsv holds no infinity, D and K are NaN on exactly the
      rows where the rsv is;
    - [J = 3 * K - 2 * D] at every row;
    - the result is a function of the input series alone. *)
Theorem kdj_recursion (high low close : Series) (k_period : nat) :
  (k_period <= List.length close)%nat ->
  List.length high = List.length close ->
  List.length low = List.length close ->
  let n := List.length close in
  let r := calculate_kdj high low close k_period in
  let smooth prev x :=
    fadd (fmul (Fin (2 / 3)) prev) (fmul (Fin (1 / 3)) x) in
  let R t := List.nth t (rsv_series high low close k_period) NaN in
  let K t := List.nth t (kdj_k r) NaN in
  let D t := List.nth t (kdj_d r) NaN in
  let J t := List.nth t (kdj_j r) NaN in
  (List.length (kdj_k r) = n /\ List.length (kdj_d r) = n
   /\ List.length (kdj_j r) = n)
  /\ (forall t, (t + 1 < k_period)%nat -> R t = NaN)
  /\ (forall t, isna (R t) = true -> K t = NaN /\ D t = NaN)
  /\ (forall t, (t < n)%nat ->
        (forall s, (s < t)%nat -> isna (R s) = true) ->
        isna (R t) = false ->
        K t = smooth (Fin 50) (R t))
  /\ (forall s t, (s < t)%nat -> (t < n)%nat ->
        isna (R s) = false -> isna (R t) = false ->
        (forall u, (s < u)%nat -> (u < t)%nat -> isna (R u) = true) ->
        K t = smooth (K s) (R t))
  /\ (forall t, (t < n)%nat ->
        (forall s, (s < t)%nat -> isna (K s) = true) ->
        isna (K t) = false ->
        D t = smooth (Fin 50) (K t))
  /\ (forall s t, (s < t)%nat -> (t < n)%nat ->
        isna (K s) = false -> isna (K t) = false ->
        (forall u, (s < u)%nat -> (u < t)%nat -> isna (K u) = true) ->
        D t = smooth (D s) (K t))
  /\ (List.Forall no_inf (rsv_series high low close k_period) ->
      forall t, isna (K t) = isna (R t) /\ isna (D t) = isna (R t))
  /\ (forall t, J t = fsub (fmul (Fin 3) (K t)) (fmul (Fin 2) (D t)))
  /\ (forall high' low' close',
        high' = high -> low' = low -> close' = close ->
        calculate_kdj high' low' close' k_period = r).
Proof.
  intros Hk Hh Hl n r smooth R K D J.
  change smooth with smooth_step. clear smooth.
  assert (Hr : r = {| kdj_k := smooth_loop (Fin 50)
                                 (rsv_series high low close k_period);
                      kdj_d := smooth_loop (Fin 50)
                                 (smooth_loop (Fin 50)
                                    (rsv_series high low close k_period));
                      kdj_j :=
                        map2 fsub
                          (List.map (fmul (Fin 3))
                             (smooth_loop (Fin 50)
                                (rsv_series high low close k_period)))
                          (List.map (fmul (Fin 2))
                             (smooth_loop (Fin 50)
                                (smooth_loop (Fin 50)
                                   (rsv_series high low close k_period))))
                   |}).
  { subst r. unfold calculate_kdj.
    assert (E : (List.length close <? k_period)%nat = false)
      by (apply Nat.ltb_ge; exact Hk).
    rewrite E. reflexivity. }
  pose proof (rsv_length high low close k_period Hh Hl) as Hlen.
  subst K D J. rewrite Hr. cbn [kdj_k kdj_d kdj_j].
  set (rsv := rsv_series high low close k_period) in *.
  set (ks := smooth_loop (Fin 50) rsv).
  assert (Hks : List.length ks = n)
    by (unfold ks; rewrite smooth_loop_length; exact Hlen).
  assert (Hds : List.length (smooth_loop (Fin 50) ks) = n)
    by (rewrite smooth_loop_length; exact Hks).
  repeat split.
  - exact Hks.
  - exact Hds.
  - rewrite map2_length, !List.length_map, Hks, Hds. apply Nat.min_id.
  - intros t Ht. apply rsv_warmup; assumption.
  - apply smooth_loop_nan; assumption.
  - apply smooth_loop_nan. unfold ks.
    rewrite smooth_loop_nan; [reflexivity | assumption].
  - intros t Ht Hbefore Hvalid.
    apply smooth_loop_seed; [rewrite Hlen; exact Ht | exact Hbefore
                            | exact Hvalid].
  - intros s t Hst Ht Hs Hv Hgap.
    apply smooth_loop_carry; try assumption. rewrite Hlen; exact Ht.
  - intros t Ht Hbefore Hvalid.
    apply smooth_loop_seed; [rewrite Hks; exact Ht | exact Hbefore
                            | exact Hvalid].
  - intros s t Hst Ht Hs Hv Hgap.
    apply smooth_loop_carry; try assumption. rewrite Hks; exact Ht.
  - apply (smooth_loop_isna rsv 50 t). assumption.
  - destruct (smooth_loop_isna rsv 50 t) as [E F]; [assumption|].
    destruct (smooth_loop_isna ks 50 t) as [E' _].
    { apply (smooth_loop_isna rsv 50 0%nat). assumption. }
    rewrite E'. exact E.
  - intro t. apply j_row. rewrite Hks, Hds. reflexivity.
  - intros high' low' close' -> -> ->. exact Hr.
Qed.


Lemma kdj_recursion_witness :
  List.nth 1 (kdj_k (calculate_kdj highs3 lows3 closes3 2)) NaN
  = fadd (fmul (Fin (2 / 3)) (Fin 50))
         (fmul (Fin (1 / 3))
               (List.nth 1 (rsv_series highs3 lows3 closes3 2) NaN)).
Proof.
  destruct (kdj_recursion highs3 lows3 closes3 2)
    as (_ & _ & _ & Hseed & _);
    [cbn; lia | reflexivity | reflexivity |].
  apply Hseed; [cbn; lia | | reflexivity].
  intros s Hs. assert (s = 0)%nat as -> by lia. reflexivity.
Defined.

(** The three sample bars: no rsv on the first row, rsv 75 on the
    second, K = (2/3) * 50 + (1/3) * 75 there. *)
Example kdj_sample_rows :
  List.nth 0 (kdj_k (calculate_kdj highs3 lows3 closes3 2)) NaN = NaN
  /\ feq (List.nth 1 (rsv_series highs3 lows3 closes3 2) NaN) (Fin 75)
  /\ feq (List.nth 1 (kdj_k (calculate_kdj highs3 lows3 closes3 2)) NaN)
         (Fin (175 / 3)).
Proof. repeat split. Qed.

(** *** The signal detector *)

Lemma get_latest_signals_two (rest : list Row) (prev latest : Row) :
  get_latest_signals (rest ++ [prev; latest]) = signals_of_rows prev latest.
Proof.
  unfold get_latest_signals. rewrite List.rev_app_distr. reflexivity.
Qed.

Lemma get_latest_signals_short (df : list Row) :
  (List.length df < 2)%nat -> get_latest_signals df = no_signals.
Proof.
  intro H. destruct df as [|a [|b df]]; try reflexivity.
  simpl in H. lia.
Qed.

Lemma golden_present (a b : Row -> pyfloat) (prev latest : Row) :
  golden a b prev latest = true -> present_on_both a b prev latest.
Proof.
  unfold golden, present_on_both, present, fgt.
  rewrite !andb_true_iff, !negb_true_iff.
  intros [[La Lb] [_ Hp]]. apply fle_notna in Hp. tauto.
Qed.

Lemma death_present (a b : Row -> pyfloat) (prev latest : Row) :
  death a b prev latest = true -> present_on_both a b prev latest.
Proof.
  unfold death, present_on_both, present, fge.
  rewrite !andb_true_iff, !negb_true_iff.
  intros [[[La Lb] _] [_ Hp]]. apply fle_notna in Hp. tauto.
Qed.

Lemma above_70_not_below_30 (x : pyfloat) :
  negb (fgt x (Fin 70)) && flt x (Fin 30) = flt x (Fin 30).
Proof.
  destruct x as [| | |q]; try reflexivity.
  cbn [fgt flt]. destruct (Qltb q 30) eqn:E.
  - apply Qltb_iff in E.
    assert (F : Qltb 70 q = false).
    { destruct (Qltb 70 q) eqn:F; [|reflexivity].
      apply Qltb_iff in F. lra. }
    rewrite F. reflexivity.
  - apply andb_false_r.
Qed.

Ltac present_from_guard :=
  unfold present;
  repeat match goal with
  | H : _ \/ _ |- _ => destruct H
  | H : _ && _ = true |- _ => apply andb_true_iff in H; destruct H
  | H : negb _ = true |- _ => apply negb_true_iff in H
  end; repeat split; assumption.

(** C2, as the detector has it.  A crossover signal (MA, MACD, KDJ;
    golden or death) is active only when both of its lines are present
    on both rows.  An RSI signal is active only when the latest row's
    RSI is present, a Bollinger signal only when the latest row's close
    and both bands are present; the previous row is not read for them:
    the four level signals are the same whatever rows come before the
    latest one, and they are the comparisons of the latest row alone
    (RSI above 70, RSI below 30, close above the upper band, close below
    the lower band).  A frame of fewer than two rows has no active
    signal. *)
Theorem signals_require_inputs (rest : list Row) (prev latest : Row) :
  let s := get_latest_signals (rest ++ [prev; latest]) in
  (ma_golden_cross s = true \/ ma_death_cross s = true ->
     present_on_both ma5 ma20 prev latest)
  /\ (macd_golden_cross s = true \/ macd_death_cross s = true ->
     present_on_both macd macd_signal prev latest)
  /\ (kdj_golden_cross s = true \/ kdj_death_cross s = true ->
     present_on_both kdj_k_val kdj_d_val prev latest)
  /\ (rsi_overbought s = true \/ rsi_oversold s = true ->
     present (rsi latest))
  /\ (boll_breakthrough_upper s = true \/ boll_breakthrough_lower s = true ->
     present (close latest) /\ present (boll_upper latest)
     /\ present (boll_lower latest))
  /\ (forall rest' prev',
       let s' := get_latest_signals (rest' ++ [prev'; latest]) in
       rsi_overbought s' = rsi_overbought s
       /\ rsi_oversold s' = rsi_oversold s
       /\ boll_breakthrough_upper s' = boll_breakthrough_upper s
       /\ boll_breakthrough_lower s' = boll_breakthrough_lower s)
  /\ (present (rsi latest) ->
      rsi_overbought s = fgt (rsi latest) (Fin 70)
      /\ rsi_oversold s = flt (rsi latest) (Fin 30))
  /\ (present (close latest) -> present (boll_upper latest) ->
      present (boll_lower latest) ->
      boll_breakthrough_upper s = fgt (close latest) (boll_upper latest)
      /\ boll_breakthrough_lower s
         = (negb (fgt (close latest) (boll_upper latest))
            && flt (close latest) (boll_lower latest)))
  /\ (forall df, (List.length df < 2)%nat ->
       get_latest_signals df = no_signals).
Proof.
  cbv zeta. rewrite get_latest_signals_two.
  unfold signals_of_rows;
    cbn [ma_golden_cross ma_death_cross macd_golden_cross macd_death_cross
         rsi_overbought rsi_oversold kdj_golden_cross kdj_death_cross
         boll_breakthrough_upper boll_breakthrough_lower].
  repeat apply conj;
    try (intros [H|H];
         [apply golden_present | apply death_present]; exact H).
  - intro H. present_from_guard.
  - intro H. present_from_guard.
  - intros rest' prev'. cbv zeta. rewrite get_latest_signals_two.
    repeat split.
  - intro H. unfold present in H. rewrite H. cbn [negb andb].
    split; [reflexivity | apply above_70_not_below_30].
  - intros Hc Hu Hl. unfold present in *. rewrite Hc, Hu, Hl.
    split; reflexivity.
  - exact get_latest_signals_short.
Qed.

(** C2 as stated fails: the RSI signal is active on a latest row with
    RSI 75 although the previous row has no RSI. *)
Lemma rsi_signal_ignores_prev_row :
  rsi_overbought
    (get_latest_signals [row_without_indicators 10; row_first_rsi]) = true
  /\ isna (rsi (row_without_indicators 10)) = true.
Proof. split; reflexivity. Qed.

(** A crossover on rows that carry all four values. *)
Example ma_golden_cross_sample :
  ma_golden_cross (get_latest_signals [row_below; row_above]) = true.
Proof. reflexivity. Qed.

(** The KDJ lines of [row_first_rsi] sit above each other, but the
    previous row has none: no crossover is declared. *)
Example kdj_cross_needs_prev_row :
  kdj_golden_cross
    (get_latest_signals [row_without_indicators 10; row_first_rsi]) = false.
Proof. reflexivity. Qed.

End IndicatorProofs.

(* ===================================================================== *)
(** ** Retail strategy *)
(* ===================================================================== *)

Module RetailProofs.

Import PyFloat PyFloatFacts RetailStrategy RetailSamples.
Local Open Scope string_scope.
Local Open Scope Q_scope.

Lemma above_and_below (x : pyfloat) :
  fgt x (Fin 0.3) = true -> flt x (Fin (-0.3)) = true -> False.
Proof.
  destruct x as [| | |q]; simpl; try discriminate.
  intros E H. apply Qltb_iff in E. apply Qltb_iff in H.
  apply (Qlt_irrefl q). apply Qlt_trans with (-0.3); [exact H|].
  apply Qlt_trans with 0.3; [reflexivity | exact E].
Qed.

Ltac decision_branches :=
  unfold _make_combined_decision;
  match goal with
  | |- context [if fgt ?t (Fin 0.3) then _ else _] =>
      let total := fresh "total" in
      let E := fresh "E" in
      let F := fresh "F" in
      set (total := t);
      (destruct (fgt total (Fin 0.3)) eqn:E;
       [ | destruct (flt total (Fin (-0.3))) eqn:F ])
  end;
  cbn [total_score action confidence traditional_score turtle_score].

Lemma decision_traditional_score
    (p : Params) (traditional_signals : option TraditionalSignals)
    (turtle_signals : option TurtleSignals) :
  traditional_score
    (_make_combined_decision p traditional_signals turtle_signals)
  = match traditional_signals with
    | Some s => fadd (fadd (fadd (Fin 0) (trend s)) (technical s)) (volume s)
    | None => Fin 0
    end.
Proof. decision_branches; reflexivity. Qed.

Lemma decision_turtle_score
    (p : Params) (traditional_signals : option TraditionalSignals)
    (turtle_signals : option TurtleSignals) :
  turtle_score
    (_make_combined_decision p traditional_signals turtle_signals)
  = match turtle_signals with
    | Some ts =>
        let c := match turtle_confidence ts with
                 | Some c => c | None => Fin 0 end in
        if (recommendation ts =? "BUY")%string then c
        else if (recommendation ts =? "SELL")%string then fneg c
        else if (recommendation ts =? "EXIT")%string then Fin (-0.8)
        else Fin 0
    | None => Fin 0
    end.
Proof.
  decision_branches; clear;
    (destruct turtle_signals as [ts|]; [|reflexivity]);
    (destruct (String.eqb_spec (recommendation ts) "NO_ACTION") as [e|e];
     [rewrite e; reflexivity|]);
    cbn [negb]; cbv zeta;
    (destruct (recommendation ts =? "BUY")%string; [reflexivity|]);
    (destruct (recommendation ts =? "SELL")%string; [reflexivity|]);
    destruct (recommendation ts =? "EXIT")%string; reflexivity.
Qed.

Lemma decision_total_score
    (p : Params) (traditional_signals : option TraditionalSignals)
    (turtle_signals : option TurtleSignals) :
  let r := _make_combined_decision p traditional_signals turtle_signals in
  total_score r
  = fadd (fmul (traditional_score r)
               (fsub (Fin 1)
                     (match turtle_weight p with
                      | Some w => w | None => Fin 0.6 end)))
         (fmul (turtle_score r)
               (match turtle_weight p with
                | Some w => w | None => Fin 0.6 end)).
Proof. cbv zeta. decision_branches; reflexivity. Qed.

(** C8.  With [w] the turtle weight, which is the value that the
    parameters hold under ['turtle_weight'] and 0.6 when they hold none,
    with [t] the sum of the three traditional signals (0 without them)
    and [u] the turtle score (the turtle confidence for BUY, its
    negative for SELL, -0.8 for EXIT, 0 otherwise), the decision returns
    [t] and [u] as its scores and its total score is
    [t * (1 - w) + u * w]; the action is BUY
    when the total is above 0.3, SELL when it is below -0.3, HOLD
    otherwise; the confidence is [min(0.9, 0.5 + |total|)] for BUY and
    SELL and 0.5 for HOLD.  A traditional score of 0.5 with no turtle
    score gives 0.2 and HOLD at weight 0.6; a turtle score of 0.6 alone
    gives 0.36 and BUY. *)
Theorem combined_decision_thresholds
    (p : Params) (traditional_signals : option TraditionalSignals)
    (turtle_signals : option TurtleSignals) :
  let w := match turtle_weight p with Some w => w | None => Fin 0.6 end in
  let t :=
    match traditional_signals with
    | Some s => fadd (fadd (fadd (Fin 0) (trend s)) (technical s)) (volume s)
    | None => Fin 0
    end in
  let u :=
    match turtle_signals with
    | Some ts =>
        let c := match turtle_confidence ts with
                 | Some c => c | None => Fin 0 end in
        if (recommendation ts =? "BUY")%string then c
        else if (recommendation ts =? "SELL")%string then fneg c
        else if (recommendation ts =? "EXIT")%string then Fin (-0.8)
        else Fin 0
    | None => Fin 0
    end in
  let r := _make_combined_decision p traditional_signals turtle_signals in
  let pressed := py_min (Fin 0.9) (fadd (Fin 0.5) (fabs (total_score r))) in
  traditional_score r = t
  /\ turtle_score r = u
  /\ total_score r = fadd (fmul t (fsub (Fin 1) w)) (fmul u w)
  /\ (fgt (total_score r) (Fin 0.3) = true ->
      action r = "BUY" /\ confidence r = pressed)
  /\ (flt (total_score r) (Fin (-0.3)) = true ->
      action r = "SELL" /\ confidence r = pressed)
  /\ (fgt (total_score r) (Fin 0.3) = false ->
      flt (total_score r) (Fin (-0.3)) = false ->
      action r = "HOLD" /\ confidence r = Fin 0.5)
  /\ (let r1 := _make_combined_decision params (Some traditional_half) None in
      feq (traditional_score r1) (Fin 0.5) /\ turtle_score r1 = Fin 0
      /\ feq (total_score r1) (Fin 0.2) /\ action r1 = "HOLD")
  /\ (let r2 :=
        _make_combined_decision params (Some traditional_flat)
          (Some turtle_buy_06) in
      feq (traditional_score r2) (Fin 0) /\ turtle_score r2 = Fin 0.6
      /\ feq (total_score r2) (Fin 0.36) /\ action r2 = "BUY").
Proof.
  cbv zeta.
  split; [apply decision_traditional_score|].
  split; [apply decision_turtle_score|].
  split.
  { pose proof (decision_total_score p traditional_signals turtle_signals)
      as H.
    cbv zeta in H.
    rewrite decision_traditional_score, decision_turtle_score in H.
    exact H. }
  repeat apply conj; try (repeat split; fail);
    decision_branches;
    intros; try reflexivity; try congruence; try (split; reflexivity);
    exfalso; eapply above_and_below; eassumption.
Qed.

End RetailProofs.

(* ===================================================================== *)
(** ** Risk assessment *)
(* ===================================================================== *)

Module RiskProofs.

Import PyFloat Pandas PyFloatFacts DataSource RiskAssessment RiskSamples.
Local Open Scope string_scope.
Local Open Scope Q_scope.

Lemma risk_level_low (s : pyfloat) :
  _determine_risk_level s = "低风险" <-> flt s (Fin 30) = true.
Proof.
  unfold _determine_risk_level.
  destruct (flt s (Fin 30)); [|destruct (flt s (Fin 60))];
    split; intro H; try reflexivity; discriminate.
Qed.

Lemma fge_30_iff (s : pyfloat) :
  flt s (Fin 30) = false /\ flt s (Fin 60) = true
  <-> fge s (Fin 30) = true /\ flt s (Fin 60) = true.
Proof.
  unfold fge. destruct s as [| | |q]; simpl;
    try (split; intros [? ?]; split; congruence).
  unfold Qltb. destruct (Qle_bool 30 q); simpl; intuition congruence.
Qed.

Lemma risk_level_medium (s : pyfloat) :
  _determine_risk_level s = "中风险"
  <-> fge s (Fin 30) = true /\ flt s (Fin 60) = true.
Proof.
  rewrite <- fge_30_iff. unfold _determine_risk_level.
  destruct (flt s (Fin 30)); [|destruct (flt s (Fin 60))];
    split; intro H; try reflexivity; try discriminate;
    try (split; reflexivity); destruct H; discriminate.
Qed.

Lemma risk_level_high (s : pyfloat) :
  _determine_risk_level s = "高风险"
  <-> flt s (Fin 30) = false /\ flt s (Fin 60) = false.
Proof.
  unfold _determine_risk_level.
  destruct (flt s (Fin 30)); [|destruct (flt s (Fin 60))];
    split; intro H; try reflexivity; try discriminate;
    try (split; reflexivity); destruct H; discriminate.
Qed.

Lemma mean_of_five (q1 q2 q3 q4 q5 : Q) :
  feq (np_mean [Fin q1; Fin q2; Fin q3; Fin q4; Fin q5])
      (Fin ((q1 + q2 + q3 + q4 + q5) / 5)).
Proof.
  unfold np_mean, series_sum. simpl. field.
Qed.

(** C9.  On a frame of at least ten bars the overall score is the mean
    of the five factor scores in the order volatility, volume,
    technical, trend, liquidity: their sum divided by 5.  The level is
    the bucket of that score: 低风险 exactly for a score below 30, 中风险
    exactly for a score of at least 30 and below 60, 高风险 exactly for
    the rest; so 29.9 is 低风险, 30.0 and 59.9 are 中风险 and 60.0 is
    高风险. *)
Theorem risk_score_and_level (scorers : Scorers) (df : Frame) :
  (10 <= List.length df)%nat ->
  let r := assess_stock_risk scorers df in
  let s1 := score (_assess_volatility_risk scorers df) in
  let s2 := score (_assess_volume_risk scorers df) in
  let s3 := score (_assess_technical_risk scorers df) in
  let s4 := score (_assess_trend_risk scorers df) in
  let s5 := score (_assess_liquidity_risk scorers df) in
  risk_score r
  = fdiv (fadd (fadd (fadd (fadd (fadd (Fin 0) s1) s2) s3) s4) s5) (Fin 5)
  /\ (forall q1 q2 q3 q4 q5,
        s1 = Fin q1 -> s2 = Fin q2 -> s3 = Fin q3 -> s4 = Fin q4 ->
        s5 = Fin q5 ->
        feq (risk_score r) (Fin ((q1 + q2 + q3 + q4 + q5) / 5)))
  /\ risk_level r = _determine_risk_level (risk_score r)
  /\ (risk_level r = "低风险" <-> flt (risk_score r) (Fin 30) = true)
  /\ (risk_level r = "中风险" <->
      fge (risk_score r) (Fin 30) = true /\ flt (risk_score r) (Fin 60) = true)
  /\ (risk_level r = "高风险" <->
      flt (risk_score r) (Fin 30) = false
      /\ flt (risk_score r) (Fin 60) = false)
  /\ (_determine_risk_level (Fin 29.9) = "低风险"
      /\ _determine_risk_level (Fin 30.0) = "中风险"
      /\ _determine_risk_level (Fin 59.9) = "中风险"
      /\ _determine_risk_level (Fin 60.0) = "高风险").
Proof.
  intros Hlen r s1 s2 s3 s4 s5.
  assert (Hr : r = {| risk_level :=
                        _determine_risk_level (np_mean [s1; s2; s3; s4; s5]);
                      risk_score := np_mean [s1; s2; s3; s4; s5];
                      risk_factors :=
                        [ _assess_volatility_risk scorers df;
                          _assess_volume_risk scorers df;
                          _assess_technical_risk scorers df;
                          _assess_trend_risk scorers df;
                          _assess_liquidity_risk scorers df ] |}).
  { subst r. unfold assess_stock_risk.
    assert (E : (List.length df <? 10)%nat = false)
      by (apply Nat.ltb_ge; exact Hlen).
    rewrite E. reflexivity. }
  rewrite Hr. cbn [risk_score risk_level].
  split; [reflexivity|]. split.
  { intros q1 q2 q3 q4 q5 -> -> -> -> ->. apply mean_of_five. }
  split; [reflexivity|].
  split; [apply risk_level_low|].
  split; [apply risk_level_medium|].
  split; [apply risk_level_high|].
  repeat split.
Qed.

Lemma risk_score_and_level_witness :
  feq (risk_score (assess_stock_risk fixed_scorers ten_bars)) (Fin 30)
  /\ risk_level (assess_stock_risk fixed_scorers ten_bars) = "中风险".
Proof.
  destruct (risk_score_and_level fixed_scorers ten_bars)
    as (_ & Hmean & Hlevel & _); [cbn; lia|].
  split.
  - apply (feq_trans _ _ _ (Hmean 20 50 40 30 10 eq_refl eq_refl eq_refl
                              eq_refl eq_refl)).
    reflexivity.
  - rewrite Hlevel. reflexivity.
Defined.

(** Fewer than ten bars: no score, and a level of its own. *)
Example risk_insufficient_data :
  risk_level (assess_stock_risk fixed_scorers [flat_bar])
  = "data_insufficient".
Proof. reflexivity. Qed.

End RiskProofs.

(* ===================================================================== *)
(** ** Market clock *)
(* ===================================================================== *)

Module MarketClockProofs.

Import MarketClock.
Local Open Scope string_scope.

Lemma monday_table : monday_table_agrees = true.
Proof. vm_compute. reflexivity. Qed.

Lemma status_on_monday (h mi : nat) :
  (h < 24)%nat -> (mi < 60)%nat ->
  status (get_market_status {| weekday := 0; hour := h; minute := mi |})
  = status_by_minute (60 * h + mi).
Proof.
  intros Hh Hm. pose proof monday_table as T. unfold monday_table_agrees in T.
  rewrite List.forallb_forall in T.
  specialize (T h). rewrite List.in_seq in T.
  specialize (T ltac:(lia)). rewrite List.forallb_forall in T.
  specialize (T mi). rewrite List.in_seq in T.
  specialize (T ltac:(lia)). apply String.eqb_eq in T. exact T.
Qed.

(** The status reads the weekday only through the test for a trading
    day. *)
Lemma status_trading_day (now : Now) :
  (weekday now < 5)%nat ->
  status (get_market_status now)
  = status (get_market_status
              {| weekday := 0; hour := hour now; minute := minute now |}).
Proof.
  intro H. unfold get_market_status, strftime_HM. cbn [status weekday hour minute].
  assert (E : (weekday now <? 5)%nat = true) by (apply Nat.ltb_lt; exact H).
  rewrite E. reflexivity.
Qed.

(** On Monday to Friday the status is 开市 in the two sessions
    09:30-11:30 and 13:00-15:00, ends included, 未开市 before 09:30, 午休
    strictly between 11:30 and 13:00 and 收市 after 15:00; on Saturday and
    Sunday it is 休市; [is_trading] holds exactly in the two sessions of
    a trading day.  The comparisons of the formatted time agree with the
    order of the minutes. *)
Theorem market_status_by_minute (now : Now) :
  on_clock now ->
  let t := minute_of_day now in
  let s := get_market_status now in
  status s = (if (weekday now <? 5)%nat then status_by_minute t else "休市")
  /\ is_trading s = ((weekday now <? 5)%nat && in_session t)
  /\ ((weekday now < 5)%nat -> (570 <= t <= 690)%nat \/ (780 <= t <= 900)%nat ->
      status s = "开市")
  /\ ((weekday now < 5)%nat -> (t < 570)%nat -> status s = "未开市")
  /\ ((weekday now < 5)%nat -> (690 < t < 780)%nat -> status s = "午休")
  /\ ((weekday now < 5)%nat -> (900 < t)%nat -> status s = "收市").
Proof.
  intros (Hw & Hh & Hm) t s.
  assert (Hs : status s
               = if (weekday now <? 5)%nat then status_by_minute t else "休市").
  { destruct (Nat.ltb_spec (weekday now) 5) as [L|G].
    - subst s. rewrite (status_trading_day now L).
      apply status_on_monday; assumption.
    - subst s. unfold get_market_status. cbn [status].
      assert (E : (weekday now <? 5)%nat = false) by (apply Nat.ltb_ge; exact G).
      rewrite E. reflexivity. }
  assert (Hlt : forall a b, (a < b)%nat -> (a <? b)%nat = true)
    by (intros; apply Nat.ltb_lt; assumption).
  assert (Hle : forall a b, (a <= b)%nat -> (a <=? b)%nat = true)
    by (intros; apply Nat.leb_le; assumption).
  assert (Hnlt : forall a b, (b <= a)%nat -> (a <? b)%nat = false)
    by (intros; apply Nat.ltb_ge; assumption).
  assert (Hnle : forall a b, (b < a)%nat -> (a <=? b)%nat = false)
    by (intros; apply Nat.leb_gt; assumption).
  split; [exact Hs|]. split.
  { change (is_trading s) with (status s =? "开市"). rewrite Hs.
    destruct (weekday now <? 5)%nat; [|reflexivity].
    unfold status_by_minute. cbn [andb].
    destruct (in_session t); [reflexivity|].
    destruct (t <? 570)%nat; [reflexivity|].
    destruct ((690 <? t)%nat && (t <? 780)%nat); reflexivity. }
  repeat split; intros L Ht; rewrite Hs, (Hlt _ _ L);
    unfold status_by_minute, in_session.
  - destruct Ht as [[A B]|[A B]].
    + rewrite (Hle _ _ A), (Hle _ _ B). reflexivity.
    + rewrite (Hle _ _ A), (Hle _ _ B), orb_true_r. reflexivity.
  - rewrite (Hnle 570%nat t) by lia. rewrite (Hnle 780%nat t) by lia.
    rewrite (Hlt _ _ Ht). reflexivity.
  - destruct Ht as [A B].
    rewrite (Hnle t 690%nat) by lia. rewrite (Hnle 780%nat t) by lia.
    rewrite andb_false_r. cbn [orb andb].
    rewrite (Hnlt t 570%nat) by lia. rewrite (Hlt _ _ A), (Hlt _ _ B).
    reflexivity.
  - rewrite (Hnle t 690%nat) by lia. rewrite (Hnle t 900%nat) by lia.
    rewrite !andb_false_r. cbn [orb].
    rewrite (Hnlt t 570%nat) by lia. rewrite (Hnlt t 780%nat) by lia.
    rewrite andb_false_r. reflexivity.
Qed.

Lemma market_status_by_minute_witness :
  status (get_market_status {| weekday := 2; hour := 11; minute := 30 |})
  = "开市"
  /\ status (get_market_status {| weekday := 2; hour := 11; minute := 31 |})
     = "午休".
Proof.
  split.
  - apply (market_status_by_minute {| weekday := 2; hour := 11; minute := 30 |}).
    + unfold on_clock. cbn. lia.
    + cbn. lia.
    + left. cbn. lia.
  - apply (market_status_by_minute {| weekday := 2; hour := 11; minute := 31 |}).
    + unfold on_clock. cbn. lia.
    + cbn. lia.
    + cbn. lia.
Defined.

(** The override of the four adapters reports [is_trading] exactly when
    the base class does, for the same formatted time, under the status
    交易中 where the base class says 开市. *)
Theorem adapter_status_agrees (now : Now) :
  let a := adapter_get_market_status now in
  let b := get_market_status now in
  adapter_is_trading a = is_trading b
  /\ market_time a = current_time b
  /\ (adapter_status a = "交易中" <-> status b = "开市")
  /\ (adapter_status a = "休市" <-> status b <> "开市").
Proof.
  unfold adapter_get_market_status, get_market_status.
  cbn [adapter_is_trading is_trading market_time current_time adapter_status
       status].
  destruct (weekday now <? 5)%nat;
    destruct (String.leb "09:30" (strftime_HM now));
    destruct (String.leb (strftime_HM now) "11:30");
    destruct (String.leb "13:00" (strftime_HM now));
    destruct (String.leb (strftime_HM now) "15:00");
    destruct (String.ltb (strftime_HM now) "09:30");
    destruct (String.ltb "11:30" (strftime_HM now));
    destruct (String.ltb (strftime_HM now) "13:00");
    cbn; repeat split; intros; try reflexivity; try discriminate;
    try congruence.
Qed.

(** The day of the next opening is a trading day at most three days
    ahead.  It is today exactly on a trading day before 09:00 or from
    11:00 to 12:59; the time is 13:00 exactly in the second case and
    09:30 otherwise.  So from 09:00 to 09:29 of a trading day, before the
    opening, the next opening named is the one of a later day. *)
Theorem next_open_is_trading_day (now : Now) :
  on_clock now ->
  let days_ahead := fst (_get_next_open_time now) in
  let time := snd (_get_next_open_time now) in
  ((weekday now + days_ahead) mod 7 < 5)%nat
  /\ (days_ahead <= 3)%nat
  /\ (days_ahead = 0%nat <->
      (weekday now < 5)%nat /\ ((hour now < 9)%nat \/ (11 <= hour now < 13)%nat))
  /\ (time = "13:00" <-> (weekday now < 5)%nat /\ (11 <= hour now < 13)%nat)
  /\ (time <> "13:00" -> time = "09:30").
Proof.
  intros (Hw & Hh & Hm). unfold _get_next_open_time.
  destruct (Nat.ltb_spec (weekday now) 5) as [W|W];
    destruct (Nat.ltb_spec (hour now) 9) as [H9|H9];
    destruct (Nat.leb_spec 11 (hour now)) as [H11|H11];
    destruct (Nat.ltb_spec (hour now) 13) as [H13|H13];
    destruct (Nat.leb_spec 4 (weekday now)) as [W4|W4];
    cbn [andb fst snd]; try lia;
    repeat split; intros;
    try reflexivity; try discriminate; try lia; try congruence;
    try (right; lia);
    try (destruct (weekday now) as [|[|[|[|[|[|[|w]]]]]]]; cbn; lia).
Qed.

Lemma next_open_is_trading_day_witness :
  ((4 + fst (_get_next_open_time {| weekday := 4; hour := 9; minute := 15 |}))
     mod 7 < 5)%nat.
Proof.
  apply (next_open_is_trading_day {| weekday := 4; hour := 9; minute := 15 |}).
  unfold on_clock. cbn. lia.
Defined.

End MarketClockProofs.

(* ===================================================================== *)
(** ** The registry, the factory and the fetch: further properties *)
(* ===================================================================== *)

Module RegistryProofs.

Import PyFloat DataSource DataSourceSamples DataSourceProofs.
Local Open Scope string_scope.
Local Open Scope Z_scope.
Local Open Scope list_scope.

Lemma find_dict_set_same (v : Source) (d : list Source) :
  List.find (fun s => (name s =? name v)%string) (dict_set name v d) = Some v.
Proof.
  induction d as [|x d IH]; simpl.
  - rewrite String.eqb_refl. reflexivity.
  - destruct (name x =? name v)%string eqn:E; simpl.
    + rewrite String.eqb_refl. reflexivity.
    + rewrite E. exact IH.
Qed.

Lemma find_dict_set_other (v : Source) (d : list Source) (n : string) :
  n <> name v ->
  List.find (fun s => (name s =? n)%string) (dict_set name v d)
  = List.find (fun s => (name s =? n)%string) d.
Proof.
  intros Hn. induction d as [|x d IH]; simpl.
  - destruct (name v =? n)%string eqn:E; [|reflexivity].
    apply String.eqb_eq in E. congruence.
  - destruct (name x =? name v)%string eqn:E; simpl.
    + apply String.eqb_eq in E.
      destruct (name v =? n)%string eqn:E1;
        [apply String.eqb_eq in E1; congruence|].
      destruct (name x =? n)%string eqn:E2;
        [apply String.eqb_eq in E2; congruence|].
      reflexivity.
    + destruct (name x =? n)%string; [reflexivity | exact IH].
Qed.

Lemma dict_set_replace (v : Source) (d : list Source) :
  In (name v) (List.map name d) ->
  List.map name (dict_set name v d) = List.map name d.
Proof.
  induction d as [|x d IH]; simpl; intro H; [contradiction|].
  destruct (name x =? name v)%string eqn:E; simpl.
  - apply String.eqb_eq in E. rewrite E. reflexivity.
  - f_equal. apply IH. destruct H as [H|H]; [|exact H].
    apply String.eqb_neq in E. congruence.
Qed.

(** [add_source] then lookup: the name of the added source now leads to
    it, every other name leads where it did; a name that was registered
    keeps its place in the registry and a new one goes to the end; the
    primary already chosen is kept, and the first source added to a
    registry without a primary becomes the one [get_source()] returns. *)
Theorem add_source_then_lookup (m : DataSourceManager) (s : Source) :
  let m' := add_source m s in
  get_source_by_name m' (name s) = Some s
  /\ (forall n, n <> name s ->
                get_source_by_name m' n = get_source_by_name m n)
  /\ (In (name s) (List.map name (sources m)) ->
      List.map name (sources m') = List.map name (sources m))
  /\ (~ In (name s) (List.map name (sources m)) ->
      sources m' = sources m ++ [s])
  /\ (forall p, primary_source m = Some p -> primary_source m' = Some p)
  /\ (primary_source m = None ->
      primary_source m' = Some (name s) /\ get_source m' None = Some s).
Proof.
  cbn zeta. unfold get_source, get_source_by_name, add_source.
  cbn [sources primary_source].
  split; [apply find_dict_set_same|].
  split; [intros n Hn; apply find_dict_set_other; exact Hn|].
  split; [apply dict_set_replace|].
  split; [apply dict_set_fresh|].
  split.
  - intros p Hp. rewrite Hp. reflexivity.
  - intros Hp. rewrite Hp. split; [reflexivity|]. apply find_dict_set_same.
Qed.

(** [set_primary_source] raises exactly on a name that is not
    registered, and [get_source(name)] raises on it as well; otherwise
    the registry is unchanged and [get_source()] without a name returns
    a registered source of that name. *)
Theorem set_primary_then_get (m : DataSourceManager) (n : string) :
  match set_primary_source m n with
  | Some m' =>
      In n (List.map name (sources m))
      /\ sources m' = sources m
      /\ exists s, get_source m' None = Some s
                   /\ get_source m (Some n) = Some s
                   /\ name s = n /\ In s (sources m)
  | None =>
      ~ In n (List.map name (sources m)) /\ get_source m (Some n) = None
  end.
Proof.
  unfold set_primary_source, get_source.
  destruct (get_source_by_name m n) as [s|] eqn:E; cbn [primary_source].
  - unfold get_source_by_name in *. cbn [sources]. rewrite E.
    apply List.find_some in E. destruct E as [Hin Hn].
    apply String.eqb_eq in Hn.
    split; [rewrite <- Hn; apply List.in_map; exact Hin|].
    split; [reflexivity|]. exists s. auto.
  - split; [|reflexivity]. intro Hin.
    destruct (lookup_some m n Hin) as [s Hs]. congruence.
Qed.

Lemma connect_true (s : Source) :
  snd (connect s) = Some true -> is_connected (fst (connect s)) = true.
Proof. unfold connect. destruct (probe s); cbn; congruence. Qed.

(** [connect_all] reports on every registered source, in registry
    order, and changes neither the names nor the primary; a source it
    reports [True] for is available afterwards, and when no source was
    connected before, the available sources are exactly the ones
    reported [True]. *)
Theorem connect_all_report (m : DataSourceManager) :
  let m' := fst (connect_all m) in
  let results := snd (connect_all m) in
  List.map fst results = List.map name (sources m)
  /\ List.map name (sources m') = List.map name (sources m)
  /\ primary_source m' = primary_source m
  /\ (forall n, In (n, true) results -> In n (get_available_sources m'))
  /\ ((forall s, In s (sources m) -> is_connected s = false) ->
      forall n, In n (get_available_sources m') -> In (n, true) results).
Proof.
  cbn zeta. split; [|split; [|split; [|split]]].
  - unfold connect_all. cbn [snd]. rewrite !List.map_map. cbn [fst].
    apply List.map_ext. intro s. apply connect_name.
  - apply connect_all_names.
  - reflexivity.
  - intros n H. unfold connect_all in *. cbn [fst snd] in *.
    unfold get_available_sources. cbn [sources].
    apply List.in_map_iff in H. destruct H as (sr & Hsr & Hin).
    apply List.in_map_iff in Hin. destruct Hin as (s & Hs & Hin).
    subst sr. injection Hsr as Hn Hb.
    apply List.in_map_iff. exists (fst (connect s)). split; [exact Hn|].
    apply List.filter_In. split.
    + apply List.in_map. apply List.in_map. exact Hin.
    + apply connect_true. destruct (snd (connect s)) as [b|]; congruence.
  - intros Hfresh n H. rewrite <- (connect_all_fresh m Hfresh) in H.
    apply List.in_map_iff in H. destruct H as ([n' b] & Hn & Hin).
    apply List.filter_In in Hin. destruct Hin as [Hin Hb].
    cbn in Hn, Hb. subst n' b. exact Hin.
Qed.

(** For every configuration of the type [Config] (entries that are
    dictionaries, with a bool under ['enabled'] and an int under
    ['priority'] where the keys are there) and whatever the providers
    do, [get_data_source_manager] does not raise; when some adapter is
    connected, [get_source()] returns a connected adapter; when none is,
    it returns the first registered adapter; it raises only on an empty
    registry. *)
Theorem default_source_connected (w : World) (config : option Config) :
  exists m,
    get_data_source_manager w None config = Some (m, Some m)
    /\ match get_available_sources m with
       | _ :: _ =>
           exists s, get_source m None = Some s
                     /\ In s (sources m) /\ is_connected s = true
       | [] =>
           match sources m with
           | first :: _ => get_source m None = Some first
           | [] => get_source m None = None
           end
       end.
Proof.
  destruct (primary_selection w config) as (m & Hm & Hp). cbn zeta in Hp.
  exists m. split; [exact Hm|].
  pose proof (manager_sources w config m (Some m) Hm) as Hnames.
  assert (Hnd : NoDup (List.map name (sources m))).
  { rewrite Hnames. apply configured_nodup. }
  rewrite <- Hnames in Hp. unfold get_source.
  destruct (get_available_sources m) as [|a l] eqn:Ha.
  - rewrite Hp.
    pose proof (lookup_registered m Hnd) as Hlook.
    destruct (sources m) as [|first rest]; [reflexivity|].
    cbn [List.map List.hd_error].
    apply Hlook. left. reflexivity.
  - assert (Hin : exists p, primary_source m = Some p /\ In p (a :: l)).
    { destruct (List.find (fun n => mem n (a :: l)) priority_order)
        as [p|] eqn:Hf.
      - exists p. split; [exact Hp|]. apply List.find_some in Hf.
        apply mem_in. apply Hf.
      - exists a. split; [exact Hp | left; reflexivity]. }
    destruct Hin as (p & Hpp & Hin). rewrite Hpp. rewrite <- Ha in Hin.
    unfold get_available_sources in Hin. apply List.in_map_iff in Hin.
    destruct Hin as (s & Hn & Hin). subst p.
    destruct (connected_registered m s Hin) as [Hreg Hc].
    exists s. split; [|split; assumption].
    apply (lookup_registered m Hnd s Hreg).
Qed.

(** *** The factory *)

Lemma merge_entry_get (e : string * SourceConfig) (d : Config) (n : string) :
  config_get (merge_entry e d) n
  = if (fst e =? n)%string
    then Some (match config_get d n with
               | Some c => update_config c (snd e)
               | None => snd e
               end)
    else config_get d n.
Proof.
  unfold config_get. induction d as [|[k c] d IH]; cbn [merge_entry List.find].
  - destruct (fst e =? n)%string; reflexivity.
  - destruct (k =? fst e)%string eqn:E; cbn [List.find fst].
    + apply String.eqb_eq in E. subst k.
      destruct (fst e =? n)%string; reflexivity.
    + destruct (k =? n)%string eqn:E1.
      * apply String.eqb_eq in E1. subst k.
        rewrite String.eqb_sym, E. reflexivity.
      * exact IH.
Qed.

Lemma config_get_none (d : Config) (n : string) :
  ~ In n (List.map fst d) -> config_get d n = None.
Proof.
  unfold config_get. intro H.
  destruct (List.find (fun e => (fst e =? n)%string) d) as [e|] eqn:E;
    [|reflexivity].
  apply List.find_some in E. destruct E as [Hin He].
  apply String.eqb_eq in He. exfalso. apply H. rewrite <- He.
  apply List.in_map. exact Hin.
Qed.

Lemma config_get_cons (e : string * SourceConfig) (d : Config) (n : string) :
  config_get (e :: d) n
  = if (fst e =? n)%string then Some (snd e) else config_get d n.
Proof.
  unfold config_get. cbn [List.find].
  destruct (fst e =? n)%string; reflexivity.
Qed.

Lemma merge_fold_get (config : Config) (n : string) :
  NoDup (List.map fst config) ->
  forall d,
    config_get (List.fold_left (fun d entry => merge_entry entry d) config d) n
    = match config_get config n with
      | Some c => Some (match config_get d n with
                        | Some b => update_config b c
                        | None => c
                        end)
      | None => config_get d n
      end.
Proof.
  induction config as [|e rest IH]; intros Hnd d; [reflexivity|].
  cbn [List.map] in Hnd. inversion Hnd as [|? ? Hnot Hnd']; subst.
  cbn [List.fold_left]. rewrite (IH Hnd'). rewrite merge_entry_get.
  rewrite config_get_cons.
  destruct (fst e =? n)%string eqn:E.
  - apply String.eqb_eq in E. subst n.
    rewrite (config_get_none rest (fst e) Hnot). reflexivity.
  - reflexivity.
Qed.

(** The merge of a caller's configuration into the defaults, key by
    key: an adapter the defaults know takes the [enabled] and [priority]
    the caller gives and keeps the default for a key the caller leaves
    out; an adapter the caller does not mention keeps its defaults; any
    other name is taken as given. *)
Theorem merge_config_get (config : Config) (n : string) :
  NoDup (List.map fst config) ->
  config_get (merge_config config) n
  = match config_get config n, config_get default_config n with
    | Some c, Some d =>
        Some {| enabled := or_else (enabled c) (enabled d);
                priority := or_else (priority c) (priority d) |}
    | Some c, None => Some c
    | None, d => d
    end.
Proof.
  intro Hnd. unfold merge_config. rewrite (merge_fold_get config n Hnd).
  destruct (config_get config n); [|reflexivity].
  destruct (config_get default_config n); reflexivity.
Qed.

Lemma merge_config_get_witness :
  config_get (merge_config sina_off) "sina"
  = Some {| enabled := Some false; priority := Some 4 |}.
Proof.
  rewrite (merge_config_get sina_off "sina").
  - reflexivity.
  - cbn. constructor; [intros [] | constructor].
Defined.

(** The registry the factory builds holds, once each, exactly the
    adapters of the merged configuration that are not switched off
    (a missing [enabled] counts as on), belong to the six known classes
    and whose constructor does not raise; every one of them starts
    disconnected and the first one is the primary. *)
Theorem factory_registry (w : World) (config : option Config) :
  let m := create_data_source_manager w config in
  let merged :=
    match config with
    | Some c => merge_config c
    | None => default_config
    end in
  NoDup (List.map name (sources m))
  /\ (forall n,
        In n (List.map name (sources m)) <->
        exists c, In (n, c) merged
                  /\ enabled c <> Some false
                  /\ In n known_sources
                  /\ constructs (w n) = true)
  /\ (forall s, In s (sources m) -> is_connected s = false)
  /\ primary_source m = List.hd_error (List.map name (sources m)).
Proof.
  cbn zeta. rewrite (create_names w config), (create_primary w config).
  split; [apply configured_nodup|].
  split; [|split; [apply create_fresh | reflexivity]].
  intro n. unfold configured. split.
  - intro H. apply List.in_map_iff in H. destruct H as ([k c] & Hk & Hin).
    cbn in Hk. subst k. apply List.filter_In in Hin. destruct Hin as [Hin Hk].
    exists c. split.
    + apply (Permutation_in _ (sorted_by_key_perm _) Hin).
    + unfold kept in Hk. cbn [fst snd] in Hk.
      apply andb_true_iff in Hk. destruct Hk as [Hk Hc].
      apply andb_true_iff in Hk. destruct Hk as [He Hk].
      split; [destruct (enabled c) as [[|]|]; congruence|].
      split; [|exact Hc].
      unfold is_known in Hk. apply List.existsb_exists in Hk.
      destruct Hk as (x & Hx & Hxn). apply String.eqb_eq in Hxn.
      subst x. exact Hx.
  - intros (c & Hin & He & Hk & Hc).
    apply List.in_map_iff. exists (n, c). split; [reflexivity|].
    apply List.filter_In. split.
    + apply (Permutation_in _ (Permutation_sym (sorted_by_key_perm _)) Hin).
    + unfold kept. cbn [fst snd]. rewrite Hc.
      assert (Hkn : is_known n = true).
      { unfold is_known. apply List.existsb_exists. exists n.
        split; [exact Hk | apply String.eqb_refl]. }
      rewrite Hkn. destruct (enabled c) as [[|]|]; try reflexivity.
      exfalso. apply He. reflexivity.
Qed.

(** *** The fetch *)

Lemma fetch_loop_calls (m : DataSourceManager) (window : Window)
    (names : list string) :
  forall df,
    Forall
      (fun c =>
         snd c = window /\ In (fst c) names
         /\ exists s, get_source_by_name m (fst c) = Some s
                      /\ is_connected s = true)
      (snd (fetch_loop m window names df)).
Proof.
  induction names as [|n rest IH]; intro df; cbn [fetch_loop snd].
  - constructor.
  - assert (Hrest : forall df',
               Forall
                 (fun c =>
                    snd c = window /\ In (fst c) (n :: rest)
                    /\ exists s, get_source_by_name m (fst c) = Some s
                                 /\ is_connected s = true)
                 (snd (fetch_loop m window rest df'))).
    { intro df'. eapply List.Forall_impl; [|exact (IH df')].
      intros c (Hw & Hin & Hs). split; [exact Hw|].
      split; [right; exact Hin | exact Hs]. }
    destruct (get_source_by_name m n) as [s|] eqn:Hs; [|apply Hrest].
    destruct (is_connected s) eqn:Hc; [|apply Hrest].
    assert (Hhead : snd (n, window) = window /\ In (fst (n, window)) (n :: rest)
                    /\ exists s, get_source_by_name m (fst (n, window)) = Some s
                                 /\ is_connected s = true).
    { split; [reflexivity|]. split; [left; reflexivity|].
      exists s. split; assumption. }
    destruct (get_price_data s window) as [df'|].
    + destruct (negb (empty df')); cbn [snd].
      * constructor; [exact Hhead | constructor].
      * constructor; [exact Hhead | apply Hrest].
    + cbn [snd]. constructor; [exact Hhead | apply Hrest].
Qed.

(** Where the frame a loop ends with comes from: it is the frame the
    loop started with, or empty, or the non-empty frame the last call
    returned. *)
Lemma fetch_loop_origin (m : DataSourceManager) (window : Window)
    (names : list string) :
  forall df,
    (fst (fetch_loop m window names df) = df
     \/ fst (fetch_loop m window names df) = [])
    \/ exists pre n s,
         snd (fetch_loop m window names df) = pre ++ [(n, window)]
         /\ get_source_by_name m n = Some s
         /\ is_connected s = true
         /\ get_price_data s window = Returns (fst (fetch_loop m window names df))
         /\ fst (fetch_loop m window names df) <> [].
Proof.
  induction names as [|n rest IH]; intro df; cbn [fetch_loop].
  - left. left. reflexivity.
  - destruct (get_source_by_name m n) as [s|] eqn:Hs; [|apply IH].
    destruct (is_connected s) eqn:Hc; [|apply IH].
    destruct (get_price_data s window) as [df'|] eqn:Hg.
    + destruct df' as [|b df']; cbn [empty negb fst snd].
      * destruct (IH []) as [[H|H]|(pre & n' & s' & Hsnd & H)].
        -- left. right. exact H.
        -- left. right. exact H.
        -- right. exists ((n, window) :: pre), n', s'.
           rewrite Hsnd. split; [reflexivity | exact H].
      * right. exists [], n, s. repeat split; try assumption. discriminate.
    + cbn [fst snd].
      destruct (IH df) as [[H|H]|(pre & n' & s' & Hsnd & H)].
      * left. left. exact H.
      * left. right. exact H.
      * right. exists ((n, window) :: pre), n', s'.
        rewrite Hsnd. split; [reflexivity | exact H].
Qed.

Lemma fetch_run_provenance (m : DataSourceManager) (db_frame : Frame)
    (days : Z) (force_update : bool) :
  let run := fetch_run m db_frame days force_update in
  (force_update = false /\ cache_covers db_frame days = true
   /\ result run = db_frame /\ db_frame <> []
   /\ consulted run = [] /\ saved run = None)
  \/ (result run = [] /\ saved run = None)
  \/ (exists pre n window s,
        consulted run = pre ++ [(n, window)]
        /\ get_source_by_name m n = Some s
        /\ is_connected s = true
        /\ get_price_data s window = Returns (result run)
        /\ result run <> []
        /\ saved run = Some (result run)).
Proof.
  cbn zeta. unfold fetch_run.
  destruct (negb force_update && cache_covers db_frame days) eqn:Hcache.
  - left. apply andb_true_iff in Hcache. destruct Hcache as [Hf Hc].
    cbn [result consulted saved].
    split; [destruct force_update; [discriminate | reflexivity]|].
    split; [exact Hc|]. split; [reflexivity|].
    split; [|split; reflexivity].
    unfold cache_covers in Hc. apply andb_true_iff in Hc.
    destruct Hc as [Hc _]. destruct db_frame; [discriminate | discriminate].
  - right. cbn [result consulted saved].
    set (avail := get_available_sources m).
    destruct (fetch_loop_origin m (FullWindow days) avail [])
      as [H1|(pre & n & s & Hsnd & Hs & Hc & Hg & Hne)].
    + assert (E1 : fst (fetch_loop m (FullWindow days) avail []) = [])
        by (destruct H1; assumption).
      rewrite E1. cbn [empty andb].
      destruct (30 <? days).
      * destruct (fetch_loop_origin m ShortWindow avail [])
          as [H2|(pre & n & s & Hsnd & Hs & Hc & Hg & Hne)].
        -- assert (E2 : fst (fetch_loop m ShortWindow avail []) = [])
             by (destruct H2; assumption).
           left. rewrite E2. split; reflexivity.
        -- right.
           exists (snd (fetch_loop m (FullWindow days) avail []) ++ pre),
             n, ShortWindow, s.
           rewrite Hsnd, List.app_assoc.
           split; [reflexivity|]. split; [exact Hs|]. split; [exact Hc|].
           split; [exact Hg|]. split; [exact Hne|].
           destruct (fst (fetch_loop m ShortWindow avail [])) as [|b l];
             [contradiction | reflexivity].
      * left. split; reflexivity.
    + right. exists pre, n, (FullWindow days), s.
      destruct (fst (fetch_loop m (FullWindow days) avail [])) as [|b l] eqn:E;
        [contradiction|].
      cbn [empty andb fst snd negb]. rewrite Hsnd, List.app_nil_r.
      split; [reflexivity|]. split; [exact Hs|]. split; [exact Hc|].
      split; [exact Hg|]. split; [exact Hne | reflexivity].
Qed.

(** The frame a fetch returns is never put together from several
    answers: it is the cached frame (then no adapter is called and
    nothing is saved), or the empty frame (nothing is saved), or the
    non-empty frame that the last adapter called, a connected one,
    returned for the last window asked, and this is the frame saved. *)
Theorem fetch_provenance (today : Z) (m : DataSourceManager)
    (db_frame : Frame) (days : Z) (force_update : bool) (run : FetchRun) :
  _get_stock_data today m db_frame days force_update = Completed run ->
  (force_update = false /\ cache_covers db_frame days = true
   /\ result run = db_frame /\ db_frame <> []
   /\ consulted run = [] /\ saved run = None)
  \/ (result run = [] /\ saved run = None)
  \/ (exists pre n window s,
        consulted run = pre ++ [(n, window)]
        /\ get_source_by_name m n = Some s
        /\ is_connected s = true
        /\ get_price_data s window = Returns (result run)
        /\ result run <> []
        /\ saved run = Some (result run)).
Proof.
  intro Hrun.
  destruct (get_stock_data_cases today m db_frame days force_update)
    as [E|[E|(made & rest & E & _)]];
    rewrite E in Hrun; try discriminate Hrun.
  injection Hrun as <-.
  exact (fetch_run_provenance m db_frame days force_update).
Qed.

Lemma fetch_provenance_witness :
  exists pre n window s,
    [("sina", FullWindow 250)] = pre ++ [(n, window)]
    /\ get_source_by_name (manager_of eastmoney_down None) n = Some s
    /\ is_connected s = true
    /\ get_price_data s window = Returns one_bar.
Proof.
  destruct (fetch_provenance new_year_2024 (manager_of eastmoney_down None)
              [] 250 true
              {| result := one_bar; consulted := [("sina", FullWindow 250)];
                 saved := Some one_bar |} eq_refl)
    as [(_ & _ & _ & H & _)|[(H & _)|(pre & n & window & s & H)]].
  - contradiction H. reflexivity.
  - discriminate H.
  - exists pre, n, window, s. cbn [consulted result] in H.
    destruct H as (H1 & H2 & H3 & H4 & _). repeat split; assumption.
Defined.

Lemma nodup_filter_names (l : list Source) :
  NoDup (List.map name l) ->
  NoDup (List.map name (List.filter is_connected l)).
Proof.
  induction l as [|x l IH]; cbn [List.map List.filter]; intro H; [constructor|].
  inversion H as [|? ? Hnot Hnd]; subst.
  destruct (is_connected x); cbn [List.map]; [|apply IH; exact Hnd].
  constructor; [|apply IH; exact Hnd].
  intro Hin. apply Hnot. apply List.in_map_iff in Hin.
  destruct Hin as (s & Hn & Hin). apply List.filter_In in Hin.
  rewrite <- Hn. apply List.in_map. apply Hin.
Qed.

Lemma in_firstn {A : Type} (k : nat) (l : list A) (a : A) :
  In a (List.firstn k l) -> In a l.
Proof.
  revert l. induction k as [|k IH]; intros [|x l]; cbn; try contradiction.
  intros [H|H]; [left; exact H | right; apply IH; exact H].
Qed.

Lemma nodup_firstn {A : Type} (k : nat) (l : list A) :
  NoDup l -> NoDup (List.firstn k l).
Proof.
  revert l. induction k as [|k IH]; intros [|x l] H; cbn; try constructor.
  - inversion H as [|? ? Hnot Hnd]; subst.
    intro Hin. apply Hnot. apply (in_firstn k l x Hin).
  - inversion H; subst. apply IH. assumption.
Qed.

Lemma nodup_calls (window : Window) (names : list string) :
  NoDup names -> NoDup (calls window names).
Proof.
  unfold calls. induction names as [|n l IH]; cbn; intro H; [constructor|].
  inversion H as [|? ? Hnot Hnd]; subst. constructor; [|apply IH; exact Hnd].
  intro Hin. apply Hnot. apply List.in_map_iff in Hin.
  destruct Hin as (x & Hx & Hin). injection Hx as ->. exact Hin.
Qed.

Lemma fetch_run_calls (m : DataSourceManager) (db_frame : Frame)
    (days : Z) (force_update : bool) :
  NoDup (List.map name (sources m)) ->
  let run := fetch_run m db_frame days force_update in
  NoDup (consulted run)
  /\ Forall
       (fun c =>
          In (fst c) (get_available_sources m)
          /\ (snd c = FullWindow days \/ (snd c = ShortWindow /\ 30 < days))
          /\ exists s, In s (sources m) /\ name s = fst c
                       /\ is_connected s = true)
       (consulted run).
Proof.
  intros Hnd. cbn zeta. unfold fetch_run.
  destruct (negb force_update && cache_covers db_frame days);
    cbn [consulted]; [split; constructor|].
  set (avail := get_available_sources m).
  assert (Hreg : forall n s, get_source_by_name m n = Some s ->
                             In s (sources m) /\ name s = n).
  { intros n s H. unfold get_source_by_name in H.
    apply List.find_some in H. destruct H as [Hin Hn].
    apply String.eqb_eq in Hn. split; assumption. }
  assert (Hav : NoDup avail) by (apply nodup_filter_names; exact Hnd).
  split.
  - destruct (fetch_loop_prefix m Hnd (FullWindow days)
                (List.filter is_connected (sources m))
                (connected_registered m) []) as [k Hk].
    fold (get_available_sources m) in Hk. fold avail in Hk. rewrite Hk.
    assert (H2 : exists j,
               snd (if empty (fst (fetch_loop m (FullWindow days) avail []))
                       && (30 <? days)
                    then fetch_loop m ShortWindow avail
                           (fst (fetch_loop m (FullWindow days) avail []))
                    else (fst (fetch_loop m (FullWindow days) avail []), []))
               = calls ShortWindow (List.firstn j avail)).
    { destruct (empty (fst (fetch_loop m (FullWindow days) avail []))
                && (30 <? days)).
      - apply (fetch_loop_prefix m Hnd ShortWindow
                 (List.filter is_connected (sources m))
                 (connected_registered m)).
      - exists 0%nat. reflexivity. }
    destruct H2 as [j Hj]. rewrite Hj.
    apply List.NoDup_app.
    + apply nodup_calls. apply nodup_firstn. exact Hav.
    + apply nodup_calls. apply nodup_firstn. exact Hav.
    + intros [n w] H1 H2. unfold calls in H1, H2.
      apply List.in_map_iff in H1. destruct H1 as (x & Hx & _).
      apply List.in_map_iff in H2. destruct H2 as (y & Hy & _).
      congruence.
  - apply List.Forall_app. split.
    + eapply List.Forall_impl;
        [|exact (fetch_loop_calls m (FullWindow days) avail [])].
      intros c (Hw & Hin & s & Hs & Hc). split; [exact Hin|].
      split; [left; exact Hw|]. exists s.
      destruct (Hreg _ _ Hs). repeat split; assumption.
    + destruct (empty (fst (fetch_loop m (FullWindow days) avail [])))
        ; cbn [andb snd]; [|constructor].
      destruct (Z.ltb_spec 30 days) as [Hd|Hd]; cbn [snd]; [|constructor].
      eapply List.Forall_impl;
        [|exact (fetch_loop_calls m ShortWindow avail
                   (fst (fetch_loop m (FullWindow days) avail [])))].
      intros c (Hw & Hin & s & Hs & Hc). split; [exact Hin|].
      split; [right; split; assumption|]. exists s.
      destruct (Hreg _ _ Hs). repeat split; assumption.
Qed.

(** A fetch calls only adapters of the registry that are connected,
    each at most once for the window of [days] days and at most once for
    the 30-day window, and the 30-day window only when [days] is above
    30; this holds of the calls of a fetch that returns and of the calls
    made before a fetch raises. *)
Theorem fetch_calls_connected_once (today : Z) (m : DataSourceManager)
    (db_frame : Frame) (days : Z) (force_update : bool) :
  NoDup (List.map name (sources m)) ->
  let once_and_connected := fun made : list (string * Window) =>
    NoDup made
    /\ Forall
         (fun c =>
            In (fst c) (get_available_sources m)
            /\ (snd c = FullWindow days \/ (snd c = ShortWindow /\ 30 < days))
            /\ exists s, In s (sources m) /\ name s = fst c
                         /\ is_connected s = true)
         made in
  match _get_stock_data today m db_frame days force_update with
  | Completed run => once_and_connected (consulted run)
  | OverflowError made => once_and_connected made
  end.
Proof.
  intros Hnd. cbv zeta.
  pose proof (fetch_run_calls m db_frame days force_update Hnd) as Hrun.
  cbv zeta in Hrun.
  destruct (get_stock_data_cases today m db_frame days force_update)
    as [E|[E|(made & rest & E & Hmade)]]; rewrite E.
  - split; constructor.
  - exact Hrun.
  - rewrite Hmade in Hrun. destruct Hrun as [H1 H2]. split.
    + exact (NoDup_app_remove_r _ _ H1).
    + apply List.Forall_app in H2. apply H2.
Qed.

Lemma fetch_calls_connected_once_witness :
  match _get_stock_data new_year_2024 (manager_of eastmoney_down None) []
          250 true with
  | Completed run => NoDup (consulted run)
  | OverflowError made => NoDup made
  end.
Proof.
  pose proof (fetch_calls_connected_once new_year_2024
                (manager_of eastmoney_down None) [] 250 true) as H.
  cbv zeta in H.
  destruct (_get_stock_data new_year_2024 (manager_of eastmoney_down None)
              [] 250 true);
    apply H; cbn; repeat constructor; simpl; intuition discriminate.
Defined.

Lemma fetch_loop_empty_all (m : DataSourceManager) (window : Window)
    (ss : list Source) :
  NoDup (List.map name (sources m)) ->
  (forall s, In s ss -> In s (sources m) /\ is_connected s = true) ->
  forall df0,
    fst (fetch_loop m window (List.map name ss) df0) = [] ->
    snd (fetch_loop m window (List.map name ss) df0)
    = calls window (List.map name ss).
Proof.
  intros Hnd. induction ss as [|s ss IH]; intros H df0; [reflexivity|].
  destruct (H s (or_introl eq_refl)) as (Hin & Hc).
  assert (IH' := IH (fun x Hx => H x (or_intror Hx))).
  cbn [List.map fetch_loop]. rewrite (lookup_registered m Hnd s Hin), Hc.
  destruct (get_price_data s window) as [df'|].
  - destruct df' as [|b df']; cbn [empty negb fst snd].
    + intro E. rewrite (IH' [] E). reflexivity.
    + discriminate.
  - cbn [fst snd]. intro E. rewrite (IH' df0 E). reflexivity.
Qed.

Lemma fetch_run_empty (m : DataSourceManager) (db_frame : Frame)
    (days : Z) (force_update : bool) :
  NoDup (List.map name (sources m)) ->
  result (fetch_run m db_frame days force_update) = [] ->
  let run := fetch_run m db_frame days force_update in
  consulted run
  = calls (FullWindow days) (get_available_sources m)
    ++ (if 30 <? days then calls ShortWindow (get_available_sources m)
        else [])
  /\ saved run = None.
Proof.
  intros Hnd. cbn zeta. unfold fetch_run.
  destruct (negb force_update && cache_covers db_frame days) eqn:Hcache.
  - cbn [result]. intro E. subst db_frame.
    rewrite andb_true_iff in Hcache. destruct Hcache as [_ Hc].
    unfold cache_covers in Hc. cbn in Hc. discriminate.
  - cbn [result consulted saved]. unfold get_available_sources.
    set (ss := List.filter is_connected (sources m)).
    pose proof (fetch_loop_empty_all m (FullWindow days) ss Hnd
                  (connected_registered m) []) as H1.
    destruct (fst (fetch_loop m (FullWindow days) (List.map name ss) []))
      as [|b l] eqn:E1; cbn [empty andb].
    + rewrite (H1 eq_refl). destruct (30 <? days).
      * intro E2. rewrite E2.
        rewrite (fetch_loop_empty_all m ShortWindow ss Hnd
                   (connected_registered m) [] E2).
        split; reflexivity.
      * cbn [fst snd]. intros _. split; reflexivity.
    + cbn [fst]. discriminate.
Qed.

(** A fetch that returns the empty frame has asked every connected
    adapter, in registry order, for the window of [days] days and, when
    [days] is above 30, every one of them again for the 30-day window;
    it has saved nothing. *)
Theorem fetch_empty_is_exhaustive (today : Z) (m : DataSourceManager)
    (db_frame : Frame) (days : Z) (force_update : bool) (run : FetchRun) :
  NoDup (List.map name (sources m)) ->
  _get_stock_data today m db_frame days force_update = Completed run ->
  result run = [] ->
  consulted run
  = calls (FullWindow days) (get_available_sources m)
    ++ (if 30 <? days then calls ShortWindow (get_available_sources m)
        else [])
  /\ saved run = None.
Proof.
  intros Hnd Hrun.
  destruct (get_stock_data_cases today m db_frame days force_update)
    as [E|[E|(made & rest & E & _)]];
    rewrite E in Hrun; try discriminate Hrun.
  injection Hrun as <-.
  exact (fetch_run_empty m db_frame days force_update Hnd).
Qed.

Lemma fetch_empty_is_exhaustive_witness :
  exists run,
    _get_stock_data new_year_2024 (manager_of all_silent None) [] 20 true
    = Completed run
    /\ consulted run
       = [("eastmoney", FullWindow 20); ("sina", FullWindow 20);
          ("qqstock", FullWindow 20)].
Proof.
  exists (fetch_run (manager_of all_silent None) [] 20 true).
  split; [reflexivity|].
  apply (fetch_empty_is_exhaustive new_year_2024
           (manager_of all_silent None) [] 20 true
           (fetch_run (manager_of all_silent None) [] 20 true)).
  - cbn. repeat constructor; simpl; intuition discriminate.
  - reflexivity.
  - reflexivity.
Defined.

End RegistryProofs.

(* ===================================================================== *)
(** ** RSI and OBV *)
(* ===================================================================== *)

Module OscillatorProofs.

Import PyFloat Pandas PyFloatFacts TechnicalIndicators IndicatorProofs.
Local Open Scope Q_scope.

Lemma diff_length (s : Series) : List.length (diff s) = List.length s.
Proof.
  destruct s as [|x rest]; [reflexivity|].
  cbn [diff List.length]. rewrite map2_length. cbn [List.length]. lia.
Qed.

Lemma Forall_map2 (P Q R : pyfloat -> Prop)
    (f : pyfloat -> pyfloat -> pyfloat) :
  (forall x y, P x -> Q y -> R (f x y)) ->
  forall a b, Forall P a -> Forall Q b -> Forall R (map2 f a b).
Proof.
  intros Hf a. induction a as [|x a IH]; intros b Ha Hb; [constructor|].
  destruct b as [|y b]; [constructor|].
  inversion Ha; subst. inversion Hb; subst.
  unfold map2 in *. cbn. constructor; [apply Hf; assumption|].
  apply IH; assumption.
Qed.

(** The price changes of a series of numbers are numbers, but for the
    first row, which is NaN. *)
Lemma diff_numbers (s : Series) :
  Forall is_number s -> Forall (fun d => d = NaN \/ is_number d) (diff s).
Proof.
  intro H. destruct s as [|x rest]; [constructor|].
  cbn [diff]. constructor; [left; reflexivity|].
  inversion H as [|? ? Hx Hrest]; subst.
  apply (Forall_map2 is_number is_number); [|exact Hrest | exact H].
  intros [| | |a] [| | |b] Ha Hb; try contradiction. right. exact I.
Qed.

Lemma gain_nonneg (delta : Series) :
  Forall (fun d => d = NaN \/ is_number d) delta ->
  Forall nonneg (where_ (fun d => fgt d (Fin 0)) (Fin 0) delta).
Proof.
  intro H. unfold where_. apply List.Forall_map.
  eapply List.Forall_impl; [|exact H].
  intros d [->|Hd]; [cbn; apply Qle_refl|].
  destruct d as [| | |q]; try contradiction.
  unfold fgt, flt. destruct (Qltb 0 q) eqn:E; cbn.
  - apply Qltb_iff in E. apply Qlt_le_weak. exact E.
  - apply Qle_refl.
Qed.

Lemma loss_nonneg (delta : Series) :
  Forall (fun d => d = NaN \/ is_number d) delta ->
  Forall nonneg
    (List.map fneg (where_ (fun d => flt d (Fin 0)) (Fin 0) delta)).
Proof.
  intro H. unfold where_. rewrite List.map_map. apply List.Forall_map.
  eapply List.Forall_impl; [|exact H].
  intros d [->|Hd]; [cbn; discriminate|].
  destruct d as [| | |q]; try contradiction.
  unfold flt. destruct (Qltb q 0) eqn:E; cbn.
  - apply Qltb_iff in E. apply (Qopp_le_compat q 0). apply Qlt_le_weak. exact E.
  - discriminate.
Qed.

Lemma sum_nonneg (xs : list pyfloat) :
  Forall nonneg xs ->
  forall a, 0 <= a ->
    exists q, List.fold_left fadd xs (Fin a) = Fin q /\ a <= q.
Proof.
  induction xs as [|x xs IH]; intros H a Ha.
  - exists a. split; [reflexivity | apply Qle_refl].
  - inversion H as [|? ? Hx Hxs]; subst.
    destruct x as [| | |b]; try contradiction. cbn in Hx.
    cbn [List.fold_left fadd].
    destruct (IH Hxs (a + b)) as (q & Hq & Hle).
    + apply (Qle_trans _ (0 + 0)); [discriminate|].
      apply Qplus_le_compat; assumption.
    + exists q. split; [exact Hq|].
      apply (Qle_trans _ (a + b)); [|exact Hle].
      apply (Qle_trans _ (a + 0)); [rewrite Qplus_0_r; apply Qle_refl|].
      apply Qplus_le_compat; [apply Qle_refl | exact Hx].
Qed.

Lemma dropna_numbers (xs : list pyfloat) :
  Forall nonneg xs -> dropna xs = xs.
Proof.
  induction xs as [|x xs IH]; intro H; [reflexivity|].
  inversion H as [|? ? Hx Hxs]; subst.
  destruct x; try contradiction. cbn. unfold dropna in IH.
  rewrite (IH Hxs). reflexivity.
Qed.

Lemma mean_nonneg (xs : list pyfloat) :
  Forall nonneg xs -> series_mean xs = NaN \/ nonneg (series_mean xs).
Proof.
  intro H. unfold series_mean. rewrite (dropna_numbers xs H).
  destruct xs as [|x xs]; [left; reflexivity|]. right.
  unfold series_sum.
  destruct (sum_nonneg (x :: xs) H 0 (Qle_refl 0)) as (q & Hq & Hle).
  rewrite Hq. cbn [fdiv].
  set (n := inject_Z (Z.of_nat (List.length (x :: xs)))).
  assert (Hn : 0 < n).
  { unfold n. cbn [List.length]. unfold Qlt. cbn. lia. }
  destruct (Qeq_bool n 0) eqn:E.
  - apply Qeq_bool_iff in E. rewrite E in Hn. discriminate.
  - cbn. apply Qle_shift_div_l; [exact Hn|]. rewrite Qmult_0_l. exact Hle.
Qed.

Lemma Forall_firstn {A : Type} (P : A -> Prop) (n : nat) (l : list A) :
  Forall P l -> Forall P (List.firstn n l).
Proof.
  revert l. induction n as [|n IH]; intros [|x l] H; cbn; try constructor.
  - inversion H; assumption.
  - apply IH. inversion H; assumption.
Qed.

Lemma Forall_skipn {A : Type} (P : A -> Prop) (n : nat) (l : list A) :
  Forall P l -> Forall P (List.skipn n l).
Proof.
  revert l. induction n as [|n IH]; intros [|x l] H; cbn; try assumption.
  apply IH. inversion H; assumption.
Qed.

Lemma rolling_mean_nonneg (w : nat) (s : Series) :
  Forall nonneg s ->
  Forall (fun x => x = NaN \/ nonneg x) (rolling series_mean w s).
Proof.
  intro H. unfold rolling. apply List.Forall_map. apply List.Forall_forall.
  intros i _. destruct (i + 1 <? w)%nat; [left; reflexivity|].
  destruct (List.existsb isna _); [left; reflexivity|].
  apply mean_nonneg. apply Forall_firstn. apply Forall_skipn. exact H.
Qed.

(** The last step of the RSI on two averages that are not negative. *)
Lemma rsi_step_range (g l : pyfloat) :
  g = NaN \/ nonneg g -> l = NaN \/ nonneg l ->
  let r := fsub (Fin 100) (fdiv (Fin 100) (fadd (Fin 1) (fdiv g l))) in
  r = NaN \/ in_range 0 100 r.
Proof.
  intros Hg Hl. cbn zeta.
  destruct g as [| | |a];
    try (destruct Hg as [Hg|Hg]; [discriminate | contradiction]);
    [left; destruct l; reflexivity|].
  destruct l as [| | |b];
    try (destruct Hl as [Hl|Hl]; [discriminate | contradiction]);
    [left; reflexivity|].
  destruct Hg as [Hg|Hg]; [discriminate|].
  destruct Hl as [Hl|Hl]; [discriminate|].
  - cbn in Hg, Hl. cbn [fdiv].
    destruct (Qeq_bool b 0) eqn:Eb.
    + unfold signed_inf. destruct (Qltb 0 a) eqn:Ea.
      * right. cbn. split; discriminate.
      * destruct (Qltb a 0) eqn:Ea'.
        -- apply Qltb_iff in Ea'. exfalso.
           apply (Qlt_irrefl a). apply (Qlt_le_trans _ 0); assumption.
        -- left. reflexivity.
    + assert (Hb : 0 < b).
      { apply Qle_lteq in Hl. destruct Hl as [Hl|Hl]; [exact Hl|].
        exfalso. symmetry in Hl. apply Qeq_bool_iff in Hl. congruence. }
      assert (Hx : 0 <= a / b).
      { apply Qle_shift_div_l; [exact Hb|]. rewrite Qmult_0_l. exact Hg. }
      assert (Hy : 0 < 1 + a / b).
      { apply (Qlt_le_trans _ (1 + 0)); [reflexivity|].
        apply Qplus_le_compat; [apply Qle_refl | exact Hx]. }
      cbn [fadd fdiv].
      destruct (Qeq_bool (1 + a / b) 0) eqn:Ey.
      { apply Qeq_bool_iff in Ey. rewrite Ey in Hy. discriminate. }
      right. cbn [fsub fneg fadd in_range].
      assert (Hq1 : 0 <= 100 / (1 + a / b)).
      { apply Qle_shift_div_l; [exact Hy|]. rewrite Qmult_0_l. discriminate. }
      assert (Hq2 : 100 / (1 + a / b) <= 100).
      { apply Qle_shift_div_r; [exact Hy|].
        apply (Qle_trans _ (100 * (1 + 0))); [discriminate|].
        apply Qmult_le_l; [reflexivity|].
        apply Qplus_le_compat; [apply Qle_refl | exact Hx]. }
      split; lra.
Qed.

(** On prices that are numbers, every value of the RSI series is NaN or
    lies between 0 and 100, ends included; the series is as long as the
    prices, and its first [period - 1] rows are NaN. *)
Theorem rsi_in_range (prices : Series) (period : nat) :
  Forall is_number prices ->
  List.length (calculate_rsi prices period) = List.length prices
  /\ Forall (fun r => r = NaN \/ in_range 0 100 r) (calculate_rsi prices period)
  /\ (forall t, (t + 1 < period)%nat ->
                List.nth t (calculate_rsi prices period) NaN = NaN).
Proof.
  intro H. unfold calculate_rsi.
  destruct (List.length prices <? period + 1)%nat eqn:E.
  - unfold nan_series. split; [apply List.repeat_length|]. split.
    + apply List.Forall_forall. intros r Hr.
      apply List.repeat_spec in Hr. left. exact Hr.
    + intros t _. apply List.nth_repeat.
  - pose proof (diff_numbers prices H) as Hd.
    pose proof (gain_nonneg _ Hd) as Hg. pose proof (loss_nonneg _ Hd) as Hl.
    set (gain := where_ (fun d => fgt d (Fin 0)) (Fin 0) (diff prices)) in *.
    set (loss := List.map fneg
                   (where_ (fun d => flt d (Fin 0)) (Fin 0) (diff prices))) in *.
    assert (Lg : List.length gain = List.length prices).
    { unfold gain, where_. rewrite List.length_map. apply diff_length. }
    assert (Ll : List.length loss = List.length prices).
    { unfold loss, where_. rewrite !List.length_map. apply diff_length. }
    split; [|split].
    + rewrite List.length_map, map2_length, !rolling_length. lia.
    + apply List.Forall_map.
      apply (Forall_map2 (fun x => x = NaN \/ nonneg x)
                         (fun x => x = NaN \/ nonneg x)).
      * intros g l Hg' Hl'. apply (rsi_step_range g l Hg' Hl').
      * apply rolling_mean_nonneg. exact Hg.
      * apply rolling_mean_nonneg. exact Hl.
    + intros t Ht. rewrite map_nth_nan by reflexivity.
      destruct (Nat.lt_ge_cases t (List.length prices)) as [Hlt|Hge].
      * rewrite map2_nth by (rewrite rolling_length; lia).
        rewrite (rolling_nth_warmup series_mean period gain t Ht).
        reflexivity.
      * rewrite List.nth_overflow; [reflexivity|].
        rewrite map2_length, !rolling_length. lia.
Qed.

Lemma rsi_in_range_witness :
  List.length (calculate_rsi IndicatorSamples.closes3 2) = 3%nat.
Proof.
  apply (rsi_in_range IndicatorSamples.closes3 2).
  repeat constructor.
Defined.

(** *** The RSI of a window that only rises, only falls, or is flat *)

Lemma nth_map_lt (g : pyfloat -> pyfloat) (s : Series) (i : nat) :
  (i < List.length s)%nat ->
  List.nth i (List.map g s) NaN = g (List.nth i s NaN).
Proof.
  intro H. rewrite (List.nth_indep _ NaN (g NaN))
    by (rewrite List.length_map; exact H).
  apply List.map_nth.
Qed.

Lemma rolling_nth_full (agg : Series -> pyfloat) (w : nat) (s : Series)
    (t : nat) :
  (w <= t + 1)%nat -> (t < List.length s)%nat ->
  List.nth t (rolling agg w s) NaN
  = if List.existsb isna (List.firstn w (List.skipn (t + 1 - w) s))
    then NaN
    else agg (List.firstn w (List.skipn (t + 1 - w) s)).
Proof.
  intros Hw Hlt. unfold rolling.
  set (g := fun i : nat => _).
  rewrite (List.nth_indep _ NaN (g 0%nat))
    by (rewrite List.length_map, List.length_seq; exact Hlt).
  rewrite List.map_nth, List.seq_nth by exact Hlt.
  unfold g. cbn [Nat.add].
  assert (E : (t + 1 <? w)%nat = false) by (apply Nat.ltb_ge; exact Hw).
  rewrite E. reflexivity.
Qed.

Lemma window_forall (P : pyfloat -> Prop) (s : Series) (k w : nat) :
  (forall i, (k <= i < k + w)%nat -> (i < List.length s)%nat ->
             P (List.nth i s NaN)) ->
  Forall P (List.firstn w (List.skipn k s)).
Proof.
  intro H. apply List.Forall_forall. intros x Hx.
  destruct (List.In_nth _ x NaN Hx) as (j & Hj & Hn).
  rewrite List.length_firstn, List.length_skipn in Hj.
  rewrite List.nth_firstn, List.nth_skipn in Hn.
  assert (E : (j <? w)%nat = true) by (apply Nat.ltb_lt; lia).
  rewrite E in Hn. rewrite <- Hn. apply H; lia.
Qed.

Lemma window_nonempty (s : Series) (w t : nat) :
  (1 <= w)%nat -> (w <= t + 1)%nat -> (t < List.length s)%nat ->
  List.firstn w (List.skipn (t + 1 - w) s) <> [].
Proof.
  intros H1 H2 H3 E.
  assert (L : List.length (List.firstn w (List.skipn (t + 1 - w) s)) = 0%nat)
    by (rewrite E; reflexivity).
  rewrite List.length_firstn, List.length_skipn in L. lia.
Qed.

Lemma diff_nth (s : Series) (i : nat) :
  (1 <= i)%nat -> (i < List.length s)%nat ->
  List.nth i (diff s) NaN
  = fsub (List.nth i s NaN) (List.nth (i - 1) s NaN).
Proof.
  intros H1 H2. destruct s as [|x rest]; [cbn in H2; lia|].
  destruct i as [|i]; [lia|]. cbn [diff List.nth].
  cbn [List.length] in H2.
  rewrite map2_nth by (cbn [List.length]; lia).
  replace (S i - 1)%nat with i by lia. reflexivity.
Qed.

Lemma sum_positive (xs : list pyfloat) :
  Forall (fun x => exists q, x = Fin q /\ 0 < q) xs ->
  forall a,
    exists q, List.fold_left fadd xs (Fin a) = Fin q
              /\ a <= q /\ (xs <> [] -> a < q).
Proof.
  induction xs as [|x xs IH]; intros H a.
  - exists a. split; [reflexivity|]. split; [apply Qle_refl|].
    intro E. contradiction E. reflexivity.
  - inversion H as [|? ? (b & -> & Hb) Hxs]; subst.
    cbn [List.fold_left fadd].
    destruct (IH Hxs (a + b)) as (q & Hq & Hle & _).
    assert (Hab : a < a + b).
    { apply (Qle_lt_trans _ (a + 0)); [rewrite Qplus_0_r; apply Qle_refl|].
      apply Qplus_lt_r. exact Hb. }
    exists q. split; [exact Hq|]. split.
    + apply Qlt_le_weak. apply (Qlt_le_trans _ (a + b)); assumption.
    + intros _. apply (Qlt_le_trans _ (a + b)); assumption.
Qed.

Lemma sum_zero (xs : list pyfloat) :
  Forall (fun x => exists q, x = Fin q /\ q == 0) xs ->
  forall a, exists q, List.fold_left fadd xs (Fin a) = Fin q /\ q == a.
Proof.
  induction xs as [|x xs IH]; intros H a.
  - exists a. split; reflexivity.
  - inversion H as [|? ? (b & -> & Hb) Hxs]; subst.
    cbn [List.fold_left fadd].
    destruct (IH Hxs (a + b)) as (q & Hq & He).
    exists q. split; [exact Hq|]. rewrite He, Hb. apply Qplus_0_r.
Qed.

Lemma dropna_fin (P : Q -> Prop) (xs : list pyfloat) :
  Forall (fun x => exists q, x = Fin q /\ P q) xs ->
  dropna xs = xs /\ List.existsb isna xs = false.
Proof.
  induction xs as [|x xs IH]; intro H; [split; reflexivity|].
  inversion H as [|? ? (b & -> & Hb) Hxs]; subst.
  destruct (IH Hxs) as [E1 E2]. unfold dropna in *. cbn.
  rewrite E1, E2. split; reflexivity.
Qed.

Lemma length_positive {A : Type} (xs : list A) :
  xs <> [] -> 0 < inject_Z (Z.of_nat (List.length xs)).
Proof.
  intro H. destruct xs as [|x xs]; [contradiction H; reflexivity|].
  cbn [List.length]. unfold Qlt. cbn. lia.
Qed.

Lemma series_mean_nonempty (xs : list pyfloat) :
  dropna xs = xs -> xs <> [] ->
  series_mean xs
  = fdiv (series_sum xs) (Fin (inject_Z (Z.of_nat (List.length xs)))).
Proof.
  intros E Hne. unfold series_mean. rewrite E.
  destruct xs; [contradiction Hne; reflexivity | reflexivity].
Qed.

Lemma mean_positive (xs : list pyfloat) :
  Forall (fun x => exists q, x = Fin q /\ 0 < q) xs -> xs <> [] ->
  exists q, series_mean xs = Fin q /\ 0 < q.
Proof.
  intros H Hne.
  destruct (dropna_fin _ xs H) as [Ed _].
  pose proof (length_positive xs Hne) as Hn.
  destruct (sum_positive xs H 0) as (q & Hq & _ & Hlt).
  rewrite (series_mean_nonempty xs Ed Hne). unfold series_sum.
  rewrite Hq. cbn [fdiv].
  destruct (Qeq_bool _ 0) eqn:E.
  - apply Qeq_bool_iff in E. rewrite E in Hn. discriminate.
  - eexists. split; [reflexivity|].
    apply Qlt_shift_div_l; [exact Hn|]. rewrite Qmult_0_l. apply Hlt. exact Hne.
Qed.

Lemma mean_zero (xs : list pyfloat) :
  Forall (fun x => exists q, x = Fin q /\ q == 0) xs -> xs <> [] ->
  exists q, series_mean xs = Fin q /\ q == 0.
Proof.
  intros H Hne.
  destruct (dropna_fin _ xs H) as [Ed _].
  pose proof (length_positive xs Hne) as Hn.
  destruct (sum_zero xs H 0) as (q & Hq & He).
  rewrite (series_mean_nonempty xs Ed Hne). unfold series_sum.
  rewrite Hq. cbn [fdiv].
  destruct (Qeq_bool _ 0) eqn:E.
  - apply Qeq_bool_iff in E. rewrite E in Hn. discriminate.
  - eexists. split; [reflexivity|]. rewrite He. apply Qmult_0_l.
Qed.

Lemma rsi_step_gain_only (a b : Q) :
  0 < a -> b == 0 ->
  feq (fsub (Fin 100) (fdiv (Fin 100) (fadd (Fin 1) (fdiv (Fin a) (Fin b)))))
      (Fin 100).
Proof.
  intros Ha Hb. cbn [fdiv].
  assert (E : Qeq_bool b 0 = true) by (apply Qeq_bool_iff; exact Hb).
  rewrite E. unfold signed_inf.
  assert (E' : Qltb 0 a = true) by (apply Qltb_iff; exact Ha).
  rewrite E'. cbn. reflexivity.
Qed.

Lemma rsi_step_loss_only (a b : Q) :
  a == 0 -> 0 < b ->
  feq (fsub (Fin 100) (fdiv (Fin 100) (fadd (Fin 1) (fdiv (Fin a) (Fin b)))))
      (Fin 0).
Proof.
  intros Ha Hb. cbn [fdiv].
  destruct (Qeq_bool b 0) eqn:E.
  { apply Qeq_bool_iff in E. rewrite E in Hb. discriminate. }
  assert (Hx : a / b == 0).
  { unfold Qdiv. rewrite Ha. apply Qmult_0_l. }
  cbn [fadd fdiv].
  destruct (Qeq_bool (1 + a / b) 0) eqn:E1.
  { apply Qeq_bool_iff in E1. rewrite Hx in E1. discriminate. }
  cbn [fsub fneg fadd feq]. rewrite Hx. reflexivity.
Qed.

Lemma rsi_step_flat (a b : Q) :
  a == 0 -> b == 0 ->
  fsub (Fin 100) (fdiv (Fin 100) (fadd (Fin 1) (fdiv (Fin a) (Fin b)))) = NaN.
Proof.
  intros Ha Hb. cbn [fdiv].
  assert (E : Qeq_bool b 0 = true) by (apply Qeq_bool_iff; exact Hb).
  rewrite E. unfold signed_inf.
  assert (E1 : Qltb 0 a = false).
  { apply Qltb_false_iff. rewrite Ha. apply Qle_refl. }
  assert (E2 : Qltb a 0 = false).
  { apply Qltb_false_iff. rewrite Ha. apply Qle_refl. }
  rewrite E1, E2. reflexivity.
Qed.

(** The RSI at a row whose window lies within the price changes (row
    [period] or later): when every price of the window is above the one
    before it the RSI is 100, when every one is below it is 0, and when
    the prices do not move there is no RSI (NaN). *)
Theorem rsi_extremes (prices : Series) (period t : nat) :
  Forall is_number prices ->
  (1 <= period)%nat -> (period <= t)%nat -> (t < List.length prices)%nat ->
  let r := List.nth t (calculate_rsi prices period) NaN in
  ((forall i, (t - period < i <= t)%nat ->
      flt (List.nth (i - 1) prices NaN) (List.nth i prices NaN) = true) ->
   feq r (Fin 100))
  /\ ((forall i, (t - period < i <= t)%nat ->
         fgt (List.nth (i - 1) prices NaN) (List.nth i prices NaN) = true) ->
      feq r (Fin 0))
  /\ ((forall i, (t - period < i <= t)%nat ->
         feq (List.nth (i - 1) prices NaN) (List.nth i prices NaN)) ->
      r = NaN).
Proof.
  intros Hnum Hp Hpt Ht. cbn zeta. unfold calculate_rsi.
  assert (E : (List.length prices <? period + 1)%nat = false)
    by (apply Nat.ltb_ge; lia).
  rewrite E. rewrite map_nth_nan by reflexivity.
  set (gain := where_ (fun d => fgt d (Fin 0)) (Fin 0) (diff prices)).
  set (loss := List.map fneg
                 (where_ (fun d => flt d (Fin 0)) (Fin 0) (diff prices))).
  assert (Lg : List.length gain = List.length prices).
  { unfold gain, where_. rewrite List.length_map. apply diff_length. }
  assert (Ll : List.length loss = List.length prices).
  { unfold loss, where_. rewrite !List.length_map. apply diff_length. }
  rewrite map2_nth by (rewrite rolling_length; lia).
  rewrite !rolling_nth_full by lia.
  pose proof (window_nonempty gain period t Hp ltac:(lia) ltac:(lia)) as Ng.
  pose proof (window_nonempty loss period t Hp ltac:(lia) ltac:(lia)) as Nl.
  assert (Hrow : forall i, (t + 1 - period <= i < t + 1 - period + period)%nat ->
            exists a b,
              List.nth (i - 1) prices NaN = Fin a
              /\ List.nth i prices NaN = Fin b
              /\ List.nth i gain NaN
                 = (if Qltb 0 (b + - a) then Fin (b + - a) else Fin 0)
              /\ List.nth i loss NaN
                 = fneg (if Qltb (b + - a) 0 then Fin (b + - a) else Fin 0)).
  { intros i Hi.
    assert (Ha : is_number (List.nth (i - 1) prices NaN)).
    { apply (proj1 (List.Forall_forall _ _) Hnum). apply List.nth_In. lia. }
    assert (Hb : is_number (List.nth i prices NaN)).
    { apply (proj1 (List.Forall_forall _ _) Hnum). apply List.nth_In. lia. }
    destruct (List.nth (i - 1) prices NaN) as [| | |a] eqn:Ea; try contradiction.
    destruct (List.nth i prices NaN) as [| | |b] eqn:Eb; try contradiction.
    exists a, b. split; [reflexivity|]. split; [reflexivity|].
    unfold gain, loss, where_.
    rewrite (nth_map_lt fneg) by (rewrite List.length_map, diff_length; lia).
    rewrite !nth_map_lt by (rewrite diff_length; lia).
    rewrite diff_nth by lia. rewrite Ea, Eb. split; reflexivity. }
  split; [|split]; intro Hmove.
  - assert (Hg : Forall (fun x => exists q, x = Fin q /\ 0 < q)
                   (List.firstn period (List.skipn (t + 1 - period) gain))).
    { apply window_forall. intros i Hi _.
      destruct (Hrow i Hi) as (a & b & Ea & Eb & Eg & _).
      specialize (Hmove i ltac:(lia)). rewrite Ea, Eb in Hmove.
      cbn in Hmove. apply Qltb_iff in Hmove.
      assert (Hd : 0 < b + - a) by (apply (Qlt_minus_iff a b); exact Hmove).
      rewrite Eg. apply Qltb_iff in Hd as Hd'. rewrite Hd'.
      eexists. split; [reflexivity | exact Hd]. }
    assert (Hl : Forall (fun x => exists q, x = Fin q /\ q == 0)
                   (List.firstn period (List.skipn (t + 1 - period) loss))).
    { apply window_forall. intros i Hi _.
      destruct (Hrow i Hi) as (a & b & Ea & Eb & _ & El).
      specialize (Hmove i ltac:(lia)). rewrite Ea, Eb in Hmove.
      cbn in Hmove. apply Qltb_iff in Hmove.
      assert (Hd : Qltb (b + - a) 0 = false).
      { apply Qltb_false_iff. apply Qlt_le_weak.
        apply (Qlt_minus_iff a b). exact Hmove. }
      rewrite El, Hd. cbn. eexists. split; reflexivity. }
    destruct (dropna_fin _ _ Hg) as [_ ->]. destruct (dropna_fin _ _ Hl) as [_ ->].
    destruct (mean_positive _ Hg Ng) as (qa & -> & Hqa).
    destruct (mean_zero _ Hl Nl) as (qb & -> & Hqb).
    apply rsi_step_gain_only; assumption.
  - assert (Hg : Forall (fun x => exists q, x = Fin q /\ q == 0)
                   (List.firstn period (List.skipn (t + 1 - period) gain))).
    { apply window_forall. intros i Hi _.
      destruct (Hrow i Hi) as (a & b & Ea & Eb & Eg & _).
      specialize (Hmove i ltac:(lia)). rewrite Ea, Eb in Hmove.
      cbn in Hmove. apply Qltb_iff in Hmove.
      assert (Hd : Qltb 0 (b + - a) = false).
      { apply Qltb_false_iff. apply Qlt_le_weak.
        apply (Qlt_minus_iff (b + - a) 0). lra. }
      rewrite Eg, Hd. eexists. split; reflexivity. }
    assert (Hl : Forall (fun x => exists q, x = Fin q /\ 0 < q)
                   (List.firstn period (List.skipn (t + 1 - period) loss))).
    { apply window_forall. intros i Hi _.
      destruct (Hrow i Hi) as (a & b & Ea & Eb & _ & El).
      specialize (Hmove i ltac:(lia)). rewrite Ea, Eb in Hmove.
      cbn in Hmove. apply Qltb_iff in Hmove.
      assert (Hd : b + - a < 0) by lra.
      rewrite El. apply Qltb_iff in Hd as Hd'. rewrite Hd'. cbn [fneg].
      eexists. split; [reflexivity | lra]. }
    destruct (dropna_fin _ _ Hg) as [_ ->]. destruct (dropna_fin _ _ Hl) as [_ ->].
    destruct (mean_zero _ Hg Ng) as (qa & -> & Hqa).
    destruct (mean_positive _ Hl Nl) as (qb & -> & Hqb).
    apply rsi_step_loss_only; assumption.
  - assert (Hg : Forall (fun x => exists q, x = Fin q /\ q == 0)
                   (List.firstn period (List.skipn (t + 1 - period) gain))).
    { apply window_forall. intros i Hi _.
      destruct (Hrow i Hi) as (a & b & Ea & Eb & Eg & _).
      specialize (Hmove i ltac:(lia)). rewrite Ea, Eb in Hmove.
      cbn in Hmove.
      assert (Hd : Qltb 0 (b + - a) = false).
      { apply Qltb_false_iff. lra. }
      rewrite Eg, Hd. eexists. split; reflexivity. }
    assert (Hl : Forall (fun x => exists q, x = Fin q /\ q == 0)
                   (List.firstn period (List.skipn (t + 1 - period) loss))).
    { apply window_forall. intros i Hi _.
      destruct (Hrow i Hi) as (a & b & Ea & Eb & _ & El).
      specialize (Hmove i ltac:(lia)). rewrite Ea, Eb in Hmove.
      cbn in Hmove.
      assert (Hd : Qltb (b + - a) 0 = false).
      { apply Qltb_false_iff. lra. }
      rewrite El, Hd. cbn. eexists. split; reflexivity. }
    destruct (dropna_fin _ _ Hg) as [_ ->]. destruct (dropna_fin _ _ Hl) as [_ ->].
    destruct (mean_zero _ Hg Ng) as (qa & -> & Hqa).
    destruct (mean_zero _ Hl Nl) as (qb & -> & Hqb).
    apply rsi_step_flat; assumption.
Qed.

Lemma rsi_extremes_witness :
  feq (List.nth 2 (calculate_rsi IndicatorSamples.rising3 2) NaN) (Fin 100).
Proof.
  apply (proj1 (rsi_extremes IndicatorSamples.rising3 2 2
                  ltac:(repeat constructor) ltac:(lia) ltac:(lia)
                  ltac:(cbn; lia))).
  intros i Hi. destruct i as [|[|[|i]]]; try lia; reflexivity.
Defined.

(** *** OBV *)

Lemma obv_loop_length (rows : list (pyfloat * pyfloat)) :
  forall i acc, List.length (obv_loop i acc rows) = List.length rows.
Proof.
  induction rows as [|[d v] rest IH]; intros i acc; [reflexivity|].
  cbn [obv_loop]. destruct ((i =? 0)%nat || isna d || isna v);
    cbn [List.length]; rewrite IH; reflexivity.
Qed.

Lemma add_volume_number (acc v : pyfloat) :
  is_number acc -> no_inf v -> isna v = false ->
  is_number (fadd acc v) /\ is_number (fsub acc v).
Proof.
  destruct acc; try contradiction. destruct v; try contradiction;
    try discriminate. intros _ _ _. split; exact I.
Qed.

Lemma is_number_notna (x : pyfloat) : is_number x -> isna x = false.
Proof. destruct x; try contradiction; reflexivity. Qed.

(** The invariant of the loop: at every row that is not skipped, the
    running total is the last value the loop wrote, or the start value
    when it wrote none. *)
Lemma obv_loop_nth (rows : list (pyfloat * pyfloat)) :
  Forall (fun r => no_inf (snd r)) rows ->
  forall i acc j,
    is_number acc -> (j < List.length rows)%nat ->
    List.nth j (obv_loop i acc rows) NaN
    = let d := fst (List.nth j rows (NaN, NaN)) in
      let v := snd (List.nth j rows (NaN, NaN)) in
      let before := last_value acc (List.firstn j (obv_loop i acc rows)) in
      if (i + j =? 0)%nat || isna d || isna v then NaN
      else if fgt d (Fin 0) then fadd before v
      else if flt d (Fin 0) then fsub before v
      else before.
Proof.
  induction rows as [|[d v] rest IH]; intros Hv i acc j Hacc Hj;
    [cbn in Hj; lia|].
  inversion Hv as [|? ? Hv0 Hrest]; subst. cbn [snd] in Hv0.
  cbn [obv_loop].
  destruct j as [|j].
  - rewrite Nat.add_0_r. cbn [List.nth fst snd List.firstn].
    unfold last_value. cbn [List.fold_left].
    destruct ((i =? 0)%nat || isna d || isna v); reflexivity.
  - replace (i + S j =? 0)%nat with (S i + j =? 0)%nat
      by (f_equal; lia).
    cbn [List.length] in Hj.
    destruct ((i =? 0)%nat || isna d || isna v) eqn:Hskip.
    + cbn [List.nth List.firstn]. unfold last_value. cbn [List.fold_left isna].
      apply (IH Hrest (S i) acc j Hacc). lia.
    + apply orb_false_iff in Hskip. destruct Hskip as [Hskip Hnv].
      destruct (add_volume_number acc v Hacc Hv0 Hnv) as [Ha Hs].
      set (acc' := if fgt d (Fin 0) then fadd acc v
                   else if flt d (Fin 0) then fsub acc v else acc).
      assert (Hacc' : is_number acc').
      { unfold acc'. destruct (fgt d (Fin 0)); [exact Ha|].
        destruct (flt d (Fin 0)); [exact Hs | exact Hacc]. }
      cbn [List.nth List.firstn]. unfold last_value. cbn [List.fold_left].
      rewrite (is_number_notna acc' Hacc').
      apply (IH Hrest (S i) acc' j Hacc'). lia.
Qed.

Lemma combine_nth_lt (a b : Series) :
  forall j, (j < List.length a)%nat -> (j < List.length b)%nat ->
    List.nth j (List.combine a b) (NaN, NaN)
    = (List.nth j a NaN, List.nth j b NaN).
Proof.
  revert b. induction a as [|x a IH]; intros b j Ha Hb; [cbn in Ha; lia|].
  destruct b as [|y b]; [cbn in Hb; lia|].
  destruct j as [|j]; [reflexivity|].
  cbn [List.combine List.nth]. apply IH; cbn in Ha, Hb; lia.
Qed.

(** OBV is a running total that is never reset.  On a frame of at least
    two rows whose volumes are not infinite: the series is as long as
    the closes; row 0 has no value, so that the volume of row 0 is never
    counted; a later row has no value when its close, the close before
    it or its volume is missing; every other row holds the last value
    written before it (0 when there is none) plus the row's volume when
    the close rose, minus it when the close fell, unchanged when the
    close did not move. *)
Theorem obv_running_total (close volume : Series) :
  (2 <= List.length close)%nat ->
  (List.length close <= List.length volume)%nat ->
  Forall no_inf volume ->
  exists obv,
    calculate_obv close volume = Some obv
    /\ List.length obv = List.length close
    /\ List.nth 0 obv NaN = NaN
    /\ forall i, (1 <= i < List.length close)%nat ->
         let d := fsub (List.nth i close NaN) (List.nth (i - 1) close NaN) in
         let v := List.nth i volume NaN in
         let before := last_value (Fin 0) (List.firstn i obv) in
         List.nth i obv NaN
         = if isna d || isna v then NaN
           else if fgt d (Fin 0) then fadd before v
           else if flt d (Fin 0) then fsub before v
           else before.
Proof.
  intros Hlen Hvol Hinf. unfold calculate_obv.
  assert (E : (List.length close <? 2)%nat = false) by (apply Nat.ltb_ge; lia).
  rewrite E.
  set (rows := List.combine (diff close) volume).
  assert (Lrows : List.length rows = List.length close).
  { unfold rows. rewrite List.length_combine, diff_length. lia. }
  rewrite obv_loop_length, Lrows, Nat.eqb_refl.
  exists (obv_loop 0 (Fin 0) rows).
  assert (Hrows : Forall (fun r => no_inf (snd r)) rows).
  { apply List.Forall_forall. intros [d v] Hin. cbn [snd].
    unfold rows in Hin. apply List.in_combine_r in Hin.
    apply (proj1 (List.Forall_forall _ _) Hinf). exact Hin. }
  split; [reflexivity|].
  split; [rewrite obv_loop_length; exact Lrows|].
  split.
  - rewrite (obv_loop_nth rows Hrows 0 (Fin 0) 0 I) by lia. reflexivity.
  - intros i Hi. cbn zeta.
    rewrite (obv_loop_nth rows Hrows 0 (Fin 0) i I) by lia. cbn zeta.
    assert (Hrow : List.nth i rows (NaN, NaN)
                   = (fsub (List.nth i close NaN) (List.nth (i - 1) close NaN),
                      List.nth i volume NaN)).
    { unfold rows. rewrite combine_nth_lt by (rewrite ?diff_length; lia).
      rewrite diff_nth by lia. reflexivity. }
    rewrite !Hrow. cbn [fst snd].
    assert (E0 : (0 + i =? 0)%nat = false) by (apply Nat.eqb_neq; lia).
    rewrite E0. reflexivity.
Qed.

Lemma obv_running_total_witness :
  calculate_obv IndicatorSamples.closes3 IndicatorSamples.volumes3
  = Some [NaN; Fin (0 + 700); Fin (0 + 700 + - 300)].
Proof.
  destruct (obv_running_total IndicatorSamples.closes3 IndicatorSamples.volumes3)
    as (obv & Hobv & _).
  - cbn. lia.
  - cbn. lia.
  - repeat constructor.
  - rewrite Hobv. vm_compute in Hobv. injection Hobv as <-. reflexivity.
Defined.

(** When the volume column is shorter than the closes, on at least two
    closes, the series cannot be built: [pd.Series] raises. *)
Lemma obv_short_volume (close volume : Series) :
  (2 <= List.length close)%nat ->
  (List.length volume < List.length close)%nat ->
  calculate_obv close volume = None.
Proof.
  intros H2 Hlt. unfold calculate_obv.
  assert (E : (List.length close <? 2)%nat = false) by (apply Nat.ltb_ge; lia).
  rewrite E, obv_loop_length, List.length_combine, diff_length.
  assert (E' : (Nat.min (List.length close) (List.length volume)
                =? List.length close)%nat = false)
    by (apply Nat.eqb_neq; lia).
  rewrite E'. reflexivity.
Qed.

End OscillatorProofs.

(* ===================================================================== *)
(** ** The summary of an analysis *)
(* ===================================================================== *)

Module EngineProofs.

Import PyFloat Pandas PyFloatFacts TechnicalIndicators IndicatorProofs.
Import AnalysisEngine.
Local Open Scope string_scope.

Lemma last_of_two (rest : list Row) (prev latest : Row) :
  List.last (List.map Some (rest ++ [prev; latest])) None = Some latest.
Proof.
  rewrite List.map_app.
  change (List.map Some [prev; latest]) with ([Some prev] ++ [Some latest])%list.
  rewrite List.app_assoc. apply List.last_last.
Qed.

(** The technical status and the signals of one frame agree: the RSI
    status is 超买 exactly when the overbought signal is set and 超卖
    exactly when the oversold signal is set; a golden cross of the
    moving averages comes with the rising trend and a death cross with
    the falling one; a golden cross of the MACD comes with 多头 and a
    death cross with 空头. *)
Theorem status_agrees_with_signals (rest : list Row) (prev latest : Row) :
  let df := (rest ++ [prev; latest])%list in
  let s := get_latest_signals df in
  exists st,
    _analyze_technical_status df = Py.Ok st
    /\ (rsi_overbought s = true <-> rsi_status st = Some "超买")
    /\ (rsi_oversold s = true <-> rsi_status st = Some "超卖")
    /\ (ma_golden_cross s = true -> trend st = Some "上升趋势")
    /\ (ma_death_cross s = true -> trend st = Some "下降趋势")
    /\ (macd_golden_cross s = true -> macd_status st = Some "多头")
    /\ (macd_death_cross s = true -> macd_status st = Some "空头").
Proof.
  cbn zeta. rewrite get_latest_signals_two.
  unfold _analyze_technical_status. rewrite last_of_two.
  cbn [Py.of_option Py.bind]. eexists. split; [reflexivity|].
  unfold signals_of_rows, golden, death.
  cbn [rsi_overbought rsi_oversold ma_golden_cross ma_death_cross
       macd_golden_cross macd_death_cross trend rsi_status macd_status].
  repeat split.
  - destruct (isna (rsi latest)); cbn [negb andb]; [discriminate|].
    intros ->. reflexivity.
  - destruct (isna (rsi latest)); cbn [negb andb]; [discriminate|].
    destruct (fgt (rsi latest) (Fin 70)); [reflexivity|].
    destruct (flt (rsi latest) (Fin 30)); discriminate.
  - destruct (isna (rsi latest)); cbn [negb andb]; [discriminate|].
    destruct (fgt (rsi latest) (Fin 70)); cbn [negb andb]; [discriminate|].
    intros ->. reflexivity.
  - destruct (isna (rsi latest)); cbn [negb andb]; [discriminate|].
    destruct (fgt (rsi latest) (Fin 70)); cbn [negb andb]; [discriminate|].
    destruct (flt (rsi latest) (Fin 30)); [reflexivity | discriminate].
  - destruct (isna (ma5 latest)), (isna (ma20 latest)); cbn [negb andb];
      try discriminate.
    destruct (fgt (ma5 latest) (ma20 latest)); cbn [andb];
      [reflexivity | discriminate].
  - destruct (isna (ma5 latest)), (isna (ma20 latest)); cbn [negb andb];
      try discriminate.
    destruct (fgt (ma5 latest) (ma20 latest)) eqn:E; cbn [negb andb];
      [|reflexivity].
    destruct (fle (ma5 prev) (ma20 prev)); cbn [negb andb]; [discriminate|].
    intro H. apply andb_true_iff in H. destruct H as [H _].
    exfalso. unfold fgt in E.
    destruct (ma5 latest) as [| | |a], (ma20 latest) as [| | |b];
      cbn in E, H; try discriminate.
    apply Qltb_iff in E. apply Qltb_iff in H.
    apply (Qlt_irrefl a). apply (Qlt_trans _ b); assumption.
  - destruct (isna (macd latest)), (isna (macd_signal latest));
      cbn [negb andb]; try discriminate.
    destruct (fgt (macd latest) (macd_signal latest)); cbn [andb];
      [reflexivity | discriminate].
  - destruct (isna (macd latest)), (isna (macd_signal latest));
      cbn [negb andb]; try discriminate.
    destruct (fgt (macd latest) (macd_signal latest)) eqn:E; cbn [negb andb];
      [|reflexivity].
    destruct (fle (macd prev) (macd_signal prev)); cbn [negb andb];
      [discriminate|].
    intro H. apply andb_true_iff in H. destruct H as [H _].
    exfalso. unfold fgt in E.
    destruct (macd latest) as [| | |a], (macd_signal latest) as [| | |b];
      cbn in E, H; try discriminate.
    apply Qltb_iff in E. apply Qltb_iff in H.
    apply (Qlt_irrefl a). apply (Qlt_trans _ b); assumption.
Qed.

Lemma count_flags (s : Signals) :
  count_signals (signal_keys s) 0 0 = (bullish s, bearish s).
Proof.
  destruct s as [a b c d e f g h i j].
  destruct a, b, c, d, e, f, g, h, i, j; vm_compute; reflexivity.
Qed.

Lemma golden_death_exclusive (a b : Row -> pyfloat) (prev latest : Row) :
  golden a b prev latest && death a b prev latest = false.
Proof.
  unfold golden, death.
  destruct (negb (isna (a latest)) && negb (isna (b latest))); [|reflexivity].
  destruct (fgt (a latest) (b latest) && fle (a prev) (b prev)); reflexivity.
Qed.

Lemma exclusive_count (x y : bool) :
  x && y = false ->
  (count_true [x] + count_true [y] <= 1)%nat.
Proof. destruct x, y; cbn; intro H; try discriminate; lia. Qed.

(** The recommendation of a summary compares how many of the signals
    set speak for a purchase (golden crosses, RSI oversold, a close
    below the lower band) and how many against (death crosses, RSI
    overbought, a close above the upper band): more for gives 建议关注,
    more against 建议谨慎, a tie, and so also no signal at all,
    建议观望.  Of the five indicators at most one signal each is set. *)
Theorem recommendation_follows_signals (df : list Row) :
  let s := get_latest_signals df in
  _generate_recommendation df (signal_keys s)
  = match df with
    | [] => "数据不足，无法给出建议"
    | _ =>
        if (bearish s <? bullish s)%nat then "建议关注，可能存在买入机会"
        else if (bullish s <? bearish s)%nat then "建议谨慎，可能存在风险"
        else "建议观望，保持关注"
    end
  /\ (bullish s + bearish s <= 5)%nat
  /\ ((List.length df < 2)%nat -> bullish s = 0%nat /\ bearish s = 0%nat).
Proof.
  cbn zeta. split; [|split].
  - unfold _generate_recommendation. rewrite count_flags.
    destruct df; reflexivity.
  - unfold get_latest_signals.
    destruct (List.rev df) as [|latest [|prev l]]; try (cbn; lia).
    unfold bullish, bearish, signals_of_rows, count_true.
    cbn [ma_golden_cross ma_death_cross macd_golden_cross macd_death_cross
         rsi_overbought rsi_oversold kdj_golden_cross kdj_death_cross
         boll_breakthrough_upper boll_breakthrough_lower].
    pose proof (golden_death_exclusive ma5 ma20 prev latest) as H1.
    pose proof (golden_death_exclusive macd macd_signal prev latest) as H2.
    pose proof (golden_death_exclusive kdj_k_val kdj_d_val prev latest) as H3.
    destruct (golden ma5 ma20 prev latest), (death ma5 ma20 prev latest);
      try discriminate H1;
      destruct (golden macd macd_signal prev latest),
               (death macd macd_signal prev latest);
      try discriminate H2;
      destruct (golden kdj_k_val kdj_d_val prev latest),
               (death kdj_k_val kdj_d_val prev latest);
      try discriminate H3;
      destruct (negb (isna (rsi latest)));
      destruct (fgt (rsi latest) (Fin 70));
      destruct (flt (rsi latest) (Fin 30));
      destruct (negb (isna (close latest)) && negb (isna (boll_upper latest))
                && negb (isna (boll_lower latest)));
      destruct (fgt (close latest) (boll_upper latest));
      destruct (flt (close latest) (boll_lower latest));
      cbn; lia.
  - intro H. rewrite (get_latest_signals_short df H). split; reflexivity.
Qed.

End EngineProofs.

(* ===================================================================== *)
(** ** The two channels of the turtle systems *)
(* ===================================================================== *)

Module TurtleChannelProofs.

Import PyFloat Pandas PyFloatFacts PandasFacts TurtleStrategy TurtleSamples.
Import TurtleProofs OscillatorProofs.
Local Open Scope string_scope.
Local Open Scope Q_scope.

Lemma dropna_is_number (xs : Series) :
  Forall is_number xs -> dropna xs = xs.
Proof.
  induction xs as [|x xs IH]; intro H; [reflexivity|].
  inversion H as [|? ? Hx Hxs]; subst.
  destruct x; try contradiction. unfold dropna in *. cbn.
  rewrite (IH Hxs). reflexivity.
Qed.

Lemma fold_max (rest : Series) :
  Forall is_number rest ->
  forall a,
    exists m,
      List.fold_left (fun m y => if flt m y then y else m) rest (Fin a) = Fin m
      /\ a <= m
      /\ (forall q, In (Fin q) rest -> q <= m)
      /\ (m = a \/ In (Fin m) rest).
Proof.
  induction rest as [|y rest IH]; intros H a.
  - exists a. split; [reflexivity|]. split; [apply Qle_refl|].
    split; [intros q []|]. left. reflexivity.
  - inversion H as [|? ? Hy Hrest]; subst.
    destruct y as [| | |b]; try contradiction.
    cbn [List.fold_left flt].
    destruct (Qltb a b) eqn:E.
    + apply Qltb_iff in E.
      destruct (IH Hrest b) as (m & Hm & Hle & Hall & Hin).
      exists m. split; [exact Hm|].
      split; [apply Qlt_le_weak; apply (Qlt_le_trans _ b); assumption|].
      split.
      * intros q [Hq|Hq]; [injection Hq as <-; exact Hle | apply Hall; exact Hq].
      * right. destruct Hin as [->|Hin]; [left; reflexivity | right; exact Hin].
    + apply Qltb_false_iff in E.
      destruct (IH Hrest a) as (m & Hm & Hle & Hall & Hin).
      exists m. split; [exact Hm|]. split; [exact Hle|]. split.
      * intros q [Hq|Hq]; [injection Hq as <-|apply Hall; exact Hq].
        apply (Qle_trans _ a); assumption.
      * destruct Hin as [->|Hin]; [left; reflexivity | right; right; exact Hin].
Qed.

Lemma fold_min (rest : Series) :
  Forall is_number rest ->
  forall a,
    exists m,
      List.fold_left (fun m y => if flt y m then y else m) rest (Fin a) = Fin m
      /\ m <= a
      /\ (forall q, In (Fin q) rest -> m <= q)
      /\ (m = a \/ In (Fin m) rest).
Proof.
  induction rest as [|y rest IH]; intros H a.
  - exists a. split; [reflexivity|]. split; [apply Qle_refl|].
    split; [intros q []|]. left. reflexivity.
  - inversion H as [|? ? Hy Hrest]; subst.
    destruct y as [| | |b]; try contradiction.
    cbn [List.fold_left flt].
    destruct (Qltb b a) eqn:E.
    + apply Qltb_iff in E.
      destruct (IH Hrest b) as (m & Hm & Hle & Hall & Hin).
      exists m. split; [exact Hm|].
      split; [apply Qlt_le_weak; apply (Qle_lt_trans _ b); assumption|].
      split.
      * intros q [Hq|Hq]; [injection Hq as <-; exact Hle | apply Hall; exact Hq].
      * right. destruct Hin as [->|Hin]; [left; reflexivity | right; exact Hin].
    + apply Qltb_false_iff in E.
      destruct (IH Hrest a) as (m & Hm & Hle & Hall & Hin).
      exists m. split; [exact Hm|]. split; [exact Hle|]. split.
      * intros q [Hq|Hq]; [injection Hq as <-|apply Hall; exact Hq].
        apply (Qle_trans _ a); assumption.
      * destruct Hin as [->|Hin]; [left; reflexivity | right; right; exact Hin].
Qed.

(** The maximum of a non-empty series of numbers is one of them and is
    not below any of them. *)
Lemma series_max_spec (xs : Series) :
  Forall is_number xs -> xs <> [] ->
  exists m, series_max xs = Fin m
            /\ In (Fin m) xs
            /\ forall q, In (Fin q) xs -> q <= m.
Proof.
  intros H Hne. unfold series_max. rewrite (dropna_is_number xs H).
  destruct xs as [|x rest]; [contradiction Hne; reflexivity|].
  inversion H as [|? ? Hx Hrest]; subst.
  destruct x as [| | |a]; try contradiction.
  destruct (fold_max rest Hrest a) as (m & Hm & Hle & Hall & Hin).
  exists m. split; [exact Hm|]. split.
  - destruct Hin as [->|Hin]; [left; reflexivity | right; exact Hin].
  - intros q [Hq|Hq]; [injection Hq as <-; exact Hle | apply Hall; exact Hq].
Qed.

Lemma series_min_spec (xs : Series) :
  Forall is_number xs -> xs <> [] ->
  exists m, series_min xs = Fin m
            /\ In (Fin m) xs
            /\ forall q, In (Fin q) xs -> m <= q.
Proof.
  intros H Hne. unfold series_min. rewrite (dropna_is_number xs H).
  destruct xs as [|x rest]; [contradiction Hne; reflexivity|].
  inversion H as [|? ? Hx Hrest]; subst.
  destruct x as [| | |a]; try contradiction.
  destruct (fold_min rest Hrest a) as (m & Hm & Hle & Hall & Hin).
  exists m. split; [exact Hm|]. split.
  - destruct Hin as [->|Hin]; [left; reflexivity | right; exact Hin].
  - intros q [Hq|Hq]; [injection Hq as <-; exact Hle | apply Hall; exact Hq].
Qed.

(** The bars before the last one: a shorter look-back is part of a
    longer one. *)
Lemma iloc_window_incl (n1 n2 : nat) (s : Series) :
  (n1 <= n2)%nat -> (n2 + 1 <= List.length s)%nat ->
  incl (iloc_window n1 s) (iloc_window n2 s).
Proof.
  intros Hn Hlen.
  destruct (iloc_window_spec n1 s ltac:(lia)) as [E1 L1].
  destruct (iloc_window_spec n2 s Hlen) as [E2 L2].
  intros x Hx.
  destruct (List.In_nth _ x NaN Hx) as (j & Hj & Hnth).
  rewrite L1 in Hj. rewrite E1 in Hnth.
  rewrite List.nth_firstn, List.nth_skipn in Hnth.
  assert (Ej : (j <? n1)%nat = true) by (apply Nat.ltb_lt; exact Hj).
  rewrite Ej in Hnth.
  assert (Hx2 : List.nth (j + (n2 - n1)) (iloc_window n2 s) NaN = x).
  { rewrite E2, List.nth_firstn, List.nth_skipn.
    assert (Ej2 : (j + (n2 - n1) <? n2)%nat = true) by (apply Nat.ltb_lt; lia).
    rewrite Ej2. rewrite <- Hnth. f_equal. lia. }
  rewrite <- Hx2. apply List.nth_In. rewrite L2. lia.
Qed.

Lemma iloc_window_numbers (n : nat) (s : Series) :
  Forall is_number s -> Forall is_number (iloc_window n s).
Proof.
  intro H. unfold iloc_window. apply Forall_firstn. apply Forall_skipn. exact H.
Qed.

Lemma iloc_window_nonempty (n : nat) (s : Series) :
  (1 <= n)%nat -> (n + 1 <= List.length s)%nat -> iloc_window n s <> [].
Proof.
  intros H1 H2 E. destruct (iloc_window_spec n s H2) as [_ L].
  rewrite E in L. cbn in L. lia.
Qed.

(** The channel of the longer look-back contains the channel of the
    shorter one. *)
Lemma channel_nested (n1 n2 : nat) (s : Series) :
  Forall is_number s ->
  (1 <= n1)%nat -> (n1 <= n2)%nat -> (n2 + 1 <= List.length s)%nat ->
  exists h1 h2 l1 l2,
    series_max (iloc_window n1 s) = Fin h1
    /\ series_max (iloc_window n2 s) = Fin h2
    /\ series_min (iloc_window n1 s) = Fin l1
    /\ series_min (iloc_window n2 s) = Fin l2
    /\ h1 <= h2 /\ l2 <= l1.
Proof.
  intros Hs H1 Hn Hlen.
  pose proof (iloc_window_incl n1 n2 s Hn Hlen) as Hincl.
  destruct (series_max_spec (iloc_window n1 s) (iloc_window_numbers n1 s Hs)
              (iloc_window_nonempty n1 s H1 ltac:(lia)))
    as (h1 & Eh1 & Ih1 & _).
  destruct (series_max_spec (iloc_window n2 s) (iloc_window_numbers n2 s Hs)
              (iloc_window_nonempty n2 s ltac:(lia) Hlen))
    as (h2 & Eh2 & _ & Ah2).
  destruct (series_min_spec (iloc_window n1 s) (iloc_window_numbers n1 s Hs)
              (iloc_window_nonempty n1 s H1 ltac:(lia)))
    as (l1 & El1 & Il1 & _).
  destruct (series_min_spec (iloc_window n2 s) (iloc_window_numbers n2 s Hs)
              (iloc_window_nonempty n2 s ltac:(lia) Hlen))
    as (l2 & El2 & _ & Al2).
  exists h1, h2, l1, l2. repeat split; try assumption.
  - apply Ah2. apply Hincl. exact Ih1.
  - apply Al2. apply Hincl. exact Il1.
Qed.

Lemma fgt_weaken (c : pyfloat) (h1 h2 : Q) :
  h1 <= h2 -> fgt c (Fin h2) = true -> fgt c (Fin h1) = true.
Proof.
  intros Hle. unfold fgt. destruct c as [| | |q]; cbn; try congruence.
  intro H. apply Qltb_iff in H. apply Qltb_iff.
  apply (Qle_lt_trans _ h2); assumption.
Qed.

Lemma flt_weaken (c : pyfloat) (l1 l2 : Q) :
  l2 <= l1 -> flt c (Fin l2) = true -> flt c (Fin l1) = true.
Proof.
  intros Hle. destruct c as [| | |q]; cbn; try congruence.
  intro H. apply Qltb_iff in H. apply Qltb_iff.
  apply (Qlt_le_trans _ l2); assumption.
Qed.

(** What [_analyze_system] returns on a frame that is long enough, by
    the signals alone. *)
Lemma analyze_system_signals (p : Params) (system_num : Z)
    (price_data : DataFrame) :
  let entry_period :=
    if (system_num =? 1)%Z then system1_entry_period p
    else system2_entry_period p in
  let exit_period :=
    if (system_num =? 1)%Z then system1_exit_period p
    else system2_exit_period p in
  let current_high := List.last (col high price_data) NaN in
  let current_low := List.last (col low price_data) NaN in
  let entry_high := series_max (iloc_window entry_period (col high price_data)) in
  let entry_low := series_min (iloc_window entry_period (col low price_data)) in
  let exit_high :=
    if (exit_period + 1 <=? len price_data)%nat
    then series_max (iloc_window exit_period (col high price_data))
    else entry_high in
  let exit_low :=
    if (exit_period + 1 <=? len price_data)%nat
    then series_min (iloc_window exit_period (col low price_data))
    else entry_low in
  (entry_period + 1 <= len price_data)%nat ->
  exists r,
    _analyze_system p system_num price_data = Py.Ok r
    /\ entry_signal r
       = (if fgt current_high entry_high then "BUY"
          else if flt current_low entry_low then "SELL" else "NONE")
    /\ exit_signal r
       = (if flt current_low exit_low then "EXIT_LONG"
          else if fgt current_high exit_high then "EXIT_SHORT" else "NONE")
    /\ (entry_signal r = "NONE" -> confidence r = Fin 0.0)
    /\ (entry_price r = None <-> entry_signal r = "NONE").
Proof.
  intros entry_period exit_period current_high current_low entry_high
         entry_low exit_high exit_low Hlen.
  pose proof (frame_nonempty _ _ Hlen) as Hne.
  unfold _analyze_system. fold entry_period. fold exit_period.
  assert (Hlt : (len price_data <? entry_period + 1)%nat = false)
    by (apply Nat.ltb_ge; exact Hlen).
  rewrite Hlt.
  rewrite !(iloc_last_nonempty _ (col_nonempty _ price_data Hne)).
  cbn [Py.bind]. fold current_high current_low entry_high entry_low.
  eexists. split; [reflexivity|].
  cbn [entry_signal exit_signal confidence entry_price].
  subst exit_high exit_low.
  destruct (exit_period + 1 <=? len price_data)%nat; cbn [fst snd];
    (split; [destruct (fgt current_high entry_high); [reflexivity|];
             destruct (flt current_low entry_low); reflexivity|]);
    (split; [match goal with
             | |- context [flt current_low ?x] =>
                 destruct (flt current_low x); [reflexivity|]
             end;
             match goal with
             | |- context [fgt current_high ?x] =>
                 destruct (fgt current_high x); reflexivity
             end|]);
    (destruct (fgt current_high entry_high); cbn [fst snd];
     [split; [discriminate | split; discriminate]|];
     destruct (flt current_low entry_low); cbn [fst snd];
     [split; [discriminate | split; discriminate]|];
     split; [reflexivity | split; reflexivity]).
Qed.

Lemma entry_signal_cases (s : string) (a b : bool) :
  s = (if a then "BUY" else if b then "SELL" else "NONE") ->
  s = "BUY" \/ s = "SELL" \/ s = "NONE".
Proof. intros ->. destruct a; [auto|]. destruct b; auto. Qed.

(** A breakout of the long system is a breakout of the short system.
    When the entry look-back of System 1 is not longer than the one of
    System 2 and the highs and lows are numbers, on a frame long enough
    for both: a System 2 BUY comes with a System 1 BUY; a System 2 SELL
    comes with a System 1 entry signal; when System 1 is silent so is
    System 2; and the combined signal is BUY only when System 1 says
    BUY. *)
Theorem long_breakout_is_short_breakout (p : Params) (price_data : DataFrame) :
  (1 <= system1_entry_period p)%nat ->
  (system1_entry_period p <= system2_entry_period p)%nat ->
  (system2_entry_period p + 1 <= len price_data)%nat ->
  Forall is_number (col high price_data) ->
  Forall is_number (col low price_data) ->
  exists r1 r2,
    _analyze_system p 1 price_data = Py.Ok r1
    /\ _analyze_system p 2 price_data = Py.Ok r2
    /\ (entry_signal r2 = "BUY" -> entry_signal r1 = "BUY")
    /\ (entry_signal r2 = "SELL" ->
        entry_signal r1 = "BUY" \/ entry_signal r1 = "SELL")
    /\ (entry_signal r1 = "NONE" -> entry_signal r2 = "NONE")
    /\ (_combine_signals r1 r2 = "BUY" -> entry_signal r1 = "BUY").
Proof.
  intros H1 H12 Hlen Hh Hl.
  destruct (analyze_system_signals p 1 price_data ltac:(cbn; lia))
    as (r1 & Hr1 & He1 & _).
  destruct (analyze_system_signals p 2 price_data ltac:(cbn; lia))
    as (r2 & Hr2 & He2 & _).
  cbn [Z.eqb Pos.eqb] in He1, He2.
  destruct (channel_nested (system1_entry_period p) (system2_entry_period p)
              (col high price_data) Hh H1 H12
              ltac:(rewrite col_length; exact Hlen))
    as (h1 & h2 & _ & _ & Eh1 & Eh2 & _ & _ & Hhh & _).
  destruct (channel_nested (system1_entry_period p) (system2_entry_period p)
              (col low price_data) Hl H1 H12
              ltac:(rewrite col_length; exact Hlen))
    as (_ & _ & l1 & l2 & _ & _ & El1 & El2 & _ & Hll).
  rewrite Eh1, El1 in He1. rewrite Eh2, El2 in He2.
  set (ch := List.last (col high price_data) NaN) in *.
  set (cl := List.last (col low price_data) NaN) in *.
  assert (Hbuy : entry_signal r2 = "BUY" -> entry_signal r1 = "BUY").
  { rewrite He1, He2.
    destruct (fgt ch (Fin h2)) eqn:E2.
    - rewrite (fgt_weaken ch h1 h2 Hhh E2). reflexivity.
    - destruct (flt cl (Fin l2)); discriminate. }
  assert (Hsell : entry_signal r2 = "SELL" ->
                  entry_signal r1 = "BUY" \/ entry_signal r1 = "SELL").
  { rewrite He1, He2.
    destruct (fgt ch (Fin h2)); [discriminate|].
    destruct (flt cl (Fin l2)) eqn:E2; [|discriminate].
    rewrite (flt_weaken cl l1 l2 Hll E2).
    destruct (fgt ch (Fin h1)); auto. }
  exists r1, r2. split; [exact Hr1|]. split; [exact Hr2|].
  split; [exact Hbuy|]. split; [exact Hsell|]. split.
  - intro Hn.
    destruct (entry_signal_cases _ _ _ He2) as [E|[E|E]]; [| |exact E].
    + rewrite (Hbuy E) in Hn. discriminate.
    + destruct (Hsell E) as [E'|E']; rewrite E' in Hn; discriminate.
  - unfold _combine_signals.
    destruct (entry_signal_cases _ _ _ He2) as [E|[E|E]]; rewrite E;
      cbn [String.eqb Ascii.eqb Bool.eqb negb andb].
    + intros _. exact (Hbuy E).
    + discriminate.
    + destruct (negb (entry_signal r1 =? "NONE")
                && fgt (confidence r1) (Fin 0.6)); [intro H; exact H|].
      destruct (negb (exit_signal r2 =? "NONE")); [discriminate|].
      destruct (negb (exit_signal r1 =? "NONE")); discriminate.
Qed.

Lemma long_breakout_is_short_breakout_witness :
  exists r1 r2,
    _analyze_system params 1 breakout_frame_55 = Py.Ok r1
    /\ _analyze_system params 2 breakout_frame_55 = Py.Ok r2
    /\ entry_signal r1 = "BUY" /\ entry_signal r2 = "BUY".
Proof.
  destruct (long_breakout_is_short_breakout params breakout_frame_55)
    as (r1 & r2 & H1 & H2 & Hbuy & _).
  - cbn. lia.
  - cbn. lia.
  - cbn. lia.
  - unfold col. cbn. repeat constructor.
  - unfold col. cbn. repeat constructor.
  - exists r1, r2. split; [exact H1|]. split; [exact H2|].
    assert (E2 : entry_signal r2 = "BUY").
    { vm_compute in H2. injection H2 as <-. reflexivity. }
    split; [exact (Hbuy E2) | exact E2].
Defined.

(** An entry signal never comes alone.  When the exit look-back of a
    system is not longer than its entry look-back and the highs and lows
    are numbers, on a frame long enough for the entry: a SELL entry
    comes with the exit signal EXIT_LONG, a BUY entry with EXIT_SHORT or
    EXIT_LONG, and without exit signal there is no entry signal. *)
Theorem entry_comes_with_exit (p : Params) (system_num : Z)
    (price_data : DataFrame) :
  let entry_period :=
    if (system_num =? 1)%Z then system1_entry_period p
    else system2_entry_period p in
  let exit_period :=
    if (system_num =? 1)%Z then system1_exit_period p
    else system2_exit_period p in
  (1 <= exit_period)%nat -> (exit_period <= entry_period)%nat ->
  (entry_period + 1 <= len price_data)%nat ->
  Forall is_number (col high price_data) ->
  Forall is_number (col low price_data) ->
  exists r,
    _analyze_system p system_num price_data = Py.Ok r
    /\ (entry_signal r = "SELL" -> exit_signal r = "EXIT_LONG")
    /\ (entry_signal r = "BUY" ->
        exit_signal r = "EXIT_SHORT" \/ exit_signal r = "EXIT_LONG")
    /\ (exit_signal r = "NONE" -> entry_signal r = "NONE").
Proof.
  intros entry_period exit_period H1 H12 Hlen Hh Hl.
  destruct (analyze_system_signals p system_num price_data Hlen)
    as (r & Hr & He & Hx & _).
  fold entry_period exit_period in He, Hx.
  assert (Ex : (exit_period + 1 <=? len price_data)%nat = true)
    by (apply Nat.leb_le; lia).
  rewrite Ex in Hx.
  destruct (channel_nested exit_period entry_period
              (col high price_data) Hh H1 H12
              ltac:(rewrite col_length; exact Hlen))
    as (h1 & h2 & _ & _ & Eh1 & Eh2 & _ & _ & Hhh & _).
  destruct (channel_nested exit_period entry_period
              (col low price_data) Hl H1 H12
              ltac:(rewrite col_length; exact Hlen))
    as (_ & _ & l1 & l2 & _ & _ & El1 & El2 & _ & Hll).
  rewrite Eh2, El2 in He. rewrite Eh1, El1 in Hx.
  set (ch := List.last (col high price_data) NaN) in *.
  set (cl := List.last (col low price_data) NaN) in *.
  exists r. split; [exact Hr|]. rewrite He, Hx.
  destruct (fgt ch (Fin h2)) eqn:E2.
  - rewrite (fgt_weaken ch h1 h2 Hhh E2).
    split; [discriminate|]. split.
    + intros _. destruct (flt cl (Fin l1)); auto.
    + destruct (flt cl (Fin l1)); discriminate.
  - destruct (flt cl (Fin l2)) eqn:E3.
    + rewrite (flt_weaken cl l1 l2 Hll E3).
      split; [reflexivity|]. split; discriminate.
    + split; [discriminate|]. split; [discriminate | reflexivity].
Qed.

Lemma entry_comes_with_exit_witness :
  exists r,
    _analyze_system params 1 breakout_frame_55 = Py.Ok r
    /\ entry_signal r = "BUY" /\ exit_signal r = "EXIT_SHORT".
Proof.
  destruct (entry_comes_with_exit params 1 breakout_frame_55)
    as (r & Hr & _ & _ & _).
  - cbn. lia.
  - cbn. lia.
  - cbn. lia.
  - unfold col. cbn. repeat constructor.
  - unfold col. cbn. repeat constructor.
  - exists r. split; [exact Hr|].
    vm_compute in Hr. injection Hr as <-. split; reflexivity.
Defined.

(** *** Stop loss *)

(** With a multiple that is a positive number, on a frame whose last
    close is a number and for an ATR that is a number and not negative:
    the stop of a BUY is the close minus the ATR times the multiple and
    is not above the close, the stop of a SELL is the close plus the
    same distance and is not below the close; any other signal has no
    stop.  The values are exact rationals here: the distance is the
    exact one, and the order is stated as it also holds after rounding,
    where a small distance can leave the stop at the close. *)
Theorem stop_loss_sides (p : Params) (price_data : DataFrame)
    (c a m : Q) (signal : string) :
  rows price_data <> [] ->
  List.last (col close price_data) NaN = Fin c ->
  stop_loss_atr_multiple p = Fin m -> 0 < m -> 0 <= a ->
  (exists s,
      _calculate_stop_loss p price_data (Fin a) "BUY" = Some (Fin s)
      /\ s == c - a * m /\ s <= c)
  /\ (exists s,
        _calculate_stop_loss p price_data (Fin a) "SELL" = Some (Fin s)
        /\ s == c + a * m /\ c <= s)
  /\ (signal <> "BUY" -> signal <> "SELL" ->
      _calculate_stop_loss p price_data (Fin a) signal = None).
Proof.
  intros Hne Hc Hm Hmpos Ha.
  unfold _calculate_stop_loss, stop_loss_body.
  rewrite (iloc_last_nonempty _ (col_nonempty _ price_data Hne)), Hc, Hm.
  cbn [Py.bind fmul fsub fadd fneg].
  assert (Hd : 0 <= a * m).
  { apply Qmult_le_0_compat; [exact Ha | apply Qlt_le_weak; exact Hmpos]. }
  split; [|split].
  - cbn. eexists. split; [reflexivity|]. split; [ring | lra].
  - cbn. eexists. split; [reflexivity|]. split; [ring | lra].
  - intros Hb Hs.
    apply String.eqb_neq in Hb. apply String.eqb_neq in Hs.
    rewrite Hb, Hs. reflexivity.
Qed.

Lemma stop_loss_sides_witness :
  exists s,
    _calculate_stop_loss params breakout_frame_55 (Fin 0.5) "BUY"
    = Some (Fin s)
    /\ s == 11 - 0.5 * 2.0.
Proof.
  destruct (stop_loss_sides params breakout_frame_55 11 0.5 2.0 "HOLD")
    as ((s & Hs & Hd & _) & _).
  - discriminate.
  - reflexivity.
  - reflexivity.
  - reflexivity.
  - discriminate.
  - exists s. split; [exact Hs | exact Hd].
Defined.

(** On an empty frame there is no stop, whatever the signal: the
    exception of the positional access is swallowed. *)
Lemma stop_loss_empty (p : Params) (v : bool) (atr : pyfloat)
    (signal : string) :
  _calculate_stop_loss p {| has_volume := v; rows := [] |} atr signal = None.
Proof. reflexivity. Qed.

(** *** The recommendation *)

Lemma analyze_system_total (p : Params) (system_num : Z)
    (price_data : DataFrame) :
  rows price_data <> [] ->
  exists r,
    _analyze_system p system_num price_data = Py.Ok r
    /\ (entry_signal r = "BUY" \/ entry_signal r = "SELL"
        \/ entry_signal r = "NONE")
    /\ (exit_signal r = "EXIT_LONG" \/ exit_signal r = "EXIT_SHORT"
        \/ exit_signal r = "NONE").
Proof.
  intro Hne. unfold _analyze_system.
  destruct (len price_data <? _ + 1)%nat.
  - eexists. split; [reflexivity|]. cbn. auto.
  - rewrite !(iloc_last_nonempty _ (col_nonempty _ price_data Hne)).
    cbn [Py.bind]. eexists. split; [reflexivity|].
    cbn [entry_signal exit_signal]. split.
    + destruct (fgt _ _); cbn [fst]; [auto|].
      destruct (flt _ _); cbn [fst]; auto.
    + destruct (flt _ _); cbn [fst]; [auto|].
      destruct (fgt _ _); cbn [fst]; auto.
Qed.

(** The ATR that the analysis reads: the last value of the series, 0
    for the empty series. *)
Lemma current_atr_ok (atr_data : Series) :
  match atr_data with
  | [] => Py.Ok (Fin 0)
  | _ => iloc_last atr_data
  end
  = Py.Ok (match atr_data with [] => Fin 0 | _ => List.last atr_data NaN end).
Proof.
  destruct atr_data as [|x l]; [reflexivity|].
  apply iloc_last_nonempty. discriminate.
Qed.

(** The recommendation of the turtle strategy, from the frame and the
    ATR series.  On fewer bars than the longest look-back plus five it
    is NO_ACTION with confidence 0 and the message of the length test.
    Otherwise nothing raises and the recommendation is the combined
    signal of the two systems, one of BUY, SELL, EXIT and HOLD:
    - BUY or SELL is the entry signal of System 2, with its confidence,
      or, when System 2 is silent, the entry signal of System 1 with
      its confidence, which is then above 0.6; the position size and
      the stop loss are the ones computed from the last ATR;
    - EXIT has confidence 0.8 and HOLD 0.3; both carry position size 0
      and no stop loss, and System 2 has no entry signal. *)
Theorem turtle_recommendation_shape (p : Params) (price_data : DataFrame)
    (atr_data : Series) :
  let need := (Nat.max (system2_entry_period p) (atr_period p) + 5)%nat in
  let current_atr :=
    match atr_data with [] => Fin 0 | _ => List.last atr_data NaN end in
  ((len price_data < need)%nat ->
   get_turtle_recommendation p price_data atr_data
   = Py.Ok {| recommendation := "NO_ACTION"; rec_confidence := Fin 0.0;
              reason := ErrorReason DataShort; rec_position_size := None;
              rec_stop_loss := None; system_details := None |})
  /\ ((need <= len price_data)%nat ->
      exists s1 s2 r,
        _analyze_system p 1 price_data = Py.Ok s1
        /\ _analyze_system p 2 price_data = Py.Ok s2
        /\ get_turtle_recommendation p price_data atr_data = Py.Ok r
        /\ recommendation r = _combine_signals s1 s2
        /\ system_details r = Some (Some s1, Some s2)
        /\ (recommendation r = "BUY" \/ recommendation r = "SELL"
            \/ recommendation r = "EXIT" \/ recommendation r = "HOLD")
        /\ (recommendation r = "BUY" \/ recommendation r = "SELL" ->
            ((entry_signal s2 = recommendation r
              /\ rec_confidence r = confidence s2)
             \/ (entry_signal s2 = "NONE"
                 /\ entry_signal s1 = recommendation r
                 /\ rec_confidence r = confidence s1
                 /\ fgt (confidence s1) (Fin 0.6) = true))
            /\ rec_position_size r
               = Some (_calculate_position_size p price_data current_atr)
            /\ rec_stop_loss r
               = _calculate_stop_loss p price_data current_atr
                   (recommendation r))
        /\ (recommendation r = "EXIT" \/ recommendation r = "HOLD" ->
            rec_confidence r
            = (if (recommendation r =? "EXIT")%string then Fin 0.8
               else Fin 0.3)
            /\ rec_position_size r = Some (Fin 0)
            /\ rec_stop_loss r = None
            /\ entry_signal s2 = "NONE")).
Proof.
  cbn zeta. split.
  - intro Hshort. unfold get_turtle_recommendation, analyze_turtle_signals.
    assert (E : (len price_data
                 <? Nat.max (system2_entry_period p) (atr_period p) + 5)%nat
                = true) by (apply Nat.ltb_lt; exact Hshort).
    rewrite E. reflexivity.
  - intro Hlong.
    assert (Hne : rows price_data <> []).
    { apply (frame_nonempty 0). cbn. lia. }
    destruct (analyze_system_total p 1 price_data Hne) as (s1 & H1 & He1 & Hx1).
    destruct (analyze_system_total p 2 price_data Hne) as (s2 & H2 & He2 & Hx2).
    exists s1, s2.
    unfold get_turtle_recommendation, analyze_turtle_signals.
    assert (E : (len price_data
                 <? Nat.max (system2_entry_period p) (atr_period p) + 5)%nat
                = false) by (apply Nat.ltb_ge; exact Hlong).
    rewrite E, (current_atr_ok atr_data), H1, H2. clear E.
    set (current_atr :=
           match atr_data with [] => Fin 0 | _ => List.last atr_data NaN end).
    unfold _combine_signals.
    destruct He2 as [E2|[E2|E2]]; rewrite E2;
      cbn [String.eqb Ascii.eqb Bool.eqb negb andb orb].
    + eexists. split; [reflexivity|]. split; [reflexivity|].
      cbn [error combined_signal system1 system2 position_size stop_loss
           String.eqb Ascii.eqb Bool.eqb system_entry system_confidence
           Py.bind Nat.eqb].
      rewrite E2. cbn [String.eqb Ascii.eqb Bool.eqb Nat.eqb Py.bind].
      split; [reflexivity|].
      cbn [recommendation rec_confidence rec_position_size rec_stop_loss
           system_details].
      split; [reflexivity|]. split; [reflexivity|]. split; [auto|].
      split; [intros _; split; [left; split; reflexivity|];
              split; reflexivity|].
      intros [H|H]; discriminate H.
    + eexists. split; [reflexivity|]. split; [reflexivity|].
      cbn [error combined_signal system1 system2 position_size stop_loss
           String.eqb Ascii.eqb Bool.eqb system_entry system_confidence
           Py.bind Nat.eqb].
      rewrite E2. cbn [String.eqb Ascii.eqb Bool.eqb Nat.eqb Py.bind].
      split; [reflexivity|].
      cbn [recommendation rec_confidence rec_position_size rec_stop_loss
           system_details].
      split; [reflexivity|]. split; [reflexivity|]. split; [auto|].
      split; [intros _; split; [left; split; reflexivity|];
              split; reflexivity|].
      intros [H|H]; discriminate H.
    + destruct (fgt (confidence s1) (Fin 0.6)) eqn:Ec;
        destruct He1 as [E1|[E1|E1]]; rewrite E1;
        destruct Hx1 as [X1|[X1|X1]]; rewrite X1;
        destruct Hx2 as [X2|[X2|X2]]; rewrite X2;
        cbn [String.eqb Ascii.eqb Bool.eqb negb andb orb];
        (eexists; split; [reflexivity|]; split; [reflexivity|];
         cbn [error combined_signal system1 system2 position_size stop_loss
              String.eqb Ascii.eqb Bool.eqb system_entry system_confidence
              Py.bind Nat.eqb];
         rewrite ?E2;
         cbn [String.eqb Ascii.eqb Bool.eqb Nat.eqb Py.bind];
         split; [reflexivity|];
         cbn [recommendation rec_confidence rec_position_size rec_stop_loss
              system_details String.eqb Ascii.eqb Bool.eqb];
         split; [reflexivity|]; split; [reflexivity|]; split; [auto 6|];
         split;
         [ intros [H|H]; try discriminate H;
           (split; [right; repeat split; reflexivity|];
            split; reflexivity)
         | intros [H|H]; try discriminate H; repeat split ]).
Qed.

End TurtleChannelProofs.

(* ===================================================================== *)
(** ** The traditional signals and the risk management of the retail
       strategy *)
(* ===================================================================== *)

Module RetailSignalProofs.

Import PyFloat Pandas PyFloatFacts PandasFacts TechData RetailStrategy.
Local Open Scope string_scope.
Local Open Scope Q_scope.

Lemma last_snoc {A : Type} (pre : list A) (x : A) :
  List.last (List.map Some (pre ++ [x])) None = Some x.
Proof.
  rewrite List.map_app. cbn [List.map]. apply List.last_last.
Qed.

Lemma last_some_nonempty {A : Type} (l : list A) :
  l <> [] -> exists x, List.last (List.map Some l) None = Some x.
Proof.
  intro H. destruct (List.exists_last H) as (pre & x & ->).
  exists x. apply last_snoc.
Qed.

Lemma compare_values (op : pyfloat -> pyfloat -> bool) (c1 c2 : Cell)
    (d1 d2 : pyfloat) :
  is_none c1 = false -> is_none c2 = false ->
  compare op (get c1 d1) (get c2 d2)
  = Done (op (cell_value c1 d1) (cell_value c2 d2)).
Proof. destruct c1, c2; cbn; intros; try discriminate; reflexivity. Qed.

Lemma compare_value_const (op : pyfloat -> pyfloat -> bool) (c : Cell)
    (d k : pyfloat) :
  is_none c = false ->
  compare op (get c d) (Some k) = Done (op (cell_value c d) k).
Proof. destruct c; cbn; intros; try discriminate; reflexivity. Qed.

(** The signals of a run that returns, from the conditions on the last
    indicator row. *)
Lemma traditional_signals_done (sp : SignalParams)
    (price_data : TurtleStrategy.DataFrame) (pre : list TechRow)
    (latest : TechRow) (latest_price : TurtleStrategy.Bar) :
  List.last (List.map Some (TurtleStrategy.rows price_data)) None
  = Some latest_price ->
  has_none latest = false ->
  _analyze_traditional_signals sp price_data (pre ++ [latest])
  = Done
      {| trend :=
           if ma_rising latest then fadd (Fin 0) (Fin 0.3)
           else fsub (Fin 0) (Fin 0.3);
         technical :=
           (let technical :=
              if rsi_oversold sp latest then fadd (Fin 0) (Fin 0.4)
              else if rsi_overbought sp latest then fsub (Fin 0) (Fin 0.4)
              else Fin 0 in
            if macd_above latest then fadd technical (Fin 0.2)
            else fsub technical (Fin 0.2));
         volume := volume_signal sp price_data latest_price |}.
Proof.
  intros Hp Hn. unfold _analyze_traditional_signals.
  rewrite last_snoc, Hp.
  unfold has_none in Hn.
  repeat (apply orb_false_iff in Hn; destruct Hn as [Hn ?]).
  rewrite (compare_values fgt (ma5 latest) (ma20 latest)) by assumption.
  cbn [and_then].
  rewrite !(compare_value_const _ (rsi latest)) by assumption.
  cbn [and_then].
  fold (ma_rising latest).
  change (flt (cell_value (rsi latest) (Fin 50)) (oversold_threshold sp))
    with (rsi_oversold sp latest).
  unfold rsi_overbought.
  destruct (rsi_oversold sp latest); cbn [and_then negb andb];
    rewrite (compare_values fgt (macd latest) (macd_signal latest))
      by assumption;
    cbn [and_then]; reflexivity.
Qed.

Lemma traditional_empty_frame (sp : SignalParams)
    (price_data : TurtleStrategy.DataFrame) (pre : list TechRow)
    (latest : TechRow) :
  TurtleStrategy.rows price_data = [] ->
  _analyze_traditional_signals sp price_data (pre ++ [latest]) = IndexErr.
Proof.
  intro He. unfold _analyze_traditional_signals.
  rewrite last_snoc, He. reflexivity.
Qed.

Lemma traditional_none_cell (sp : SignalParams)
    (price_data : TurtleStrategy.DataFrame) (pre : list TechRow)
    (latest : TechRow) :
  TurtleStrategy.rows price_data <> [] -> has_none latest = true ->
  _analyze_traditional_signals sp price_data (pre ++ [latest]) = TypeErr.
Proof.
  intros Hne Hn. destruct (last_some_nonempty _ Hne) as (lp & Hlp).
  unfold _analyze_traditional_signals. rewrite last_snoc, Hlp.
  unfold has_none in Hn.
  destruct (ma5 latest) as [| |v1]; [| reflexivity |];
    (destruct (ma20 latest) as [| |v2]; [| reflexivity |]);
    cbn [get compare and_then];
    (destruct (rsi latest) as [| |v3];
     [| cbn [get compare and_then]; reflexivity |]);
    cbn [get compare and_then];
    match goal with
    | |- context [flt ?a ?b] => destruct (flt a b)
    end;
    cbn [and_then];
    try match goal with
        | |- context [fgt ?a (overbought_threshold sp)] =>
            destruct (fgt a (overbought_threshold sp))
        end;
    cbn [and_then];
    (destruct (macd latest) as [| |v4]; [| reflexivity |]);
    (destruct (macd_signal latest) as [| |v5]; [| reflexivity |]);
    cbn in Hn; discriminate Hn.
Qed.

(** The outcome of [_analyze_traditional_signals].  Without indicator
    rows the three signals are 0.  With indicator rows: on an empty
    price frame an [IndexError] escapes; when one of the five cells read
    from the last indicator row is [None] (a column that is NULL in
    every row), a [TypeError] escapes; otherwise the call returns with a
    trend of 0.3 or -0.3, a technical signal made of 0.4, -0.4 or 0 for
    the RSI plus 0.2 or -0.2 for the MACD, and a volume signal of 0, 0.2
    or -0.1. *)
Theorem traditional_signals_outcome (price_data : TurtleStrategy.DataFrame)
    (pre : list TechRow) (latest : TechRow) :
  let out :=
    _analyze_traditional_signals signal_params price_data (pre ++ [latest]) in
  _analyze_traditional_signals signal_params price_data []
  = Done {| trend := Fin 0; technical := Fin 0; volume := Fin 0 |}
  /\ (TurtleStrategy.rows price_data = [] -> out = IndexErr)
  /\ (TurtleStrategy.rows price_data <> [] -> has_none latest = true ->
      out = TypeErr)
  /\ (TurtleStrategy.rows price_data <> [] -> has_none latest = false ->
      exists t,
        out = Done t
        /\ feq (trend t) (Fin (if ma_rising latest then 0.3 else - 0.3))
        /\ feq (technical t)
               (Fin ((if rsi_oversold signal_params latest then 0.4
                      else if rsi_overbought signal_params latest then - 0.4
                      else 0)
                     + (if macd_above latest then 0.2 else - 0.2)))
        /\ (feq (volume t) (Fin 0) \/ feq (volume t) (Fin 0.2)
            \/ feq (volume t) (Fin (- 0.1)))).
Proof.
  cbn zeta. split; [reflexivity|]. split; [|split].
  - apply traditional_empty_frame.
  - apply traditional_none_cell.
  - intros Hne Hn. destruct (last_some_nonempty _ Hne) as (lp & Hlp).
    rewrite (traditional_signals_done signal_params price_data pre latest lp
               Hlp Hn).
    eexists. split; [reflexivity|].
    cbn [trend technical volume]. split; [|split].
    + destruct (ma_rising latest); cbn; reflexivity.
    + destruct (rsi_oversold signal_params latest);
        [|destruct (rsi_overbought signal_params latest)];
        destruct (macd_above latest); cbn; reflexivity.
    + unfold volume_signal.
      destruct ((20 <=? TurtleStrategy.len price_data)%nat
                && TurtleStrategy.has_volume price_data);
        [|left; cbn; reflexivity].
      destruct (fgt _ _); [|left; cbn; reflexivity].
      destruct (fgt _ _); [right; left | right; right]; cbn; reflexivity.
Qed.

(** A turtle recommendation that is neither BUY, SELL nor EXIT leaves
    the action to the traditional signals. *)
Lemma silent_turtle_action (p : Params) (t : TraditionalSignals)
    (ts : option TurtleSignals) :
  turtle_silent ts = true ->
  action (_make_combined_decision p (Some t) ts)
  = action (_make_combined_decision p (Some t) None).
Proof.
  destruct ts as [s|]; [|reflexivity].
  unfold turtle_silent. intro H. apply negb_true_iff in H.
  apply orb_false_iff in H. destruct H as [H He].
  apply orb_false_iff in H. destruct H as [Hb Hs].
  unfold _make_combined_decision. rewrite Hb, Hs, He.
  destruct (negb (recommendation s =? "NO_ACTION")); cbn [fst snd];
    destruct (fgt _ _); try reflexivity;
    destruct (flt _ _); reflexivity.
Qed.

(** Without a turtle signal the traditional signals decide alone, and
    with the shipped weight of 0.6 for the turtle strategy they reach
    the thresholds only when they all agree: the action is BUY exactly
    when MA5 is above MA20, the RSI is below 30 and the MACD is above
    its signal line; it is SELL exactly when MA5 is not above MA20, the
    RSI is above 70, the MACD is not above its signal line and the
    volume signal is not positive; in every other case it is HOLD. *)
Theorem traditional_signals_must_agree
    (price_data : TurtleStrategy.DataFrame) (pre : list TechRow)
    (latest : TechRow) (ts : option TurtleSignals) (t : TraditionalSignals) :
  _analyze_traditional_signals signal_params price_data (pre ++ [latest])
  = Done t ->
  turtle_silent ts = true ->
  let d := _make_combined_decision params (Some t) ts in
  (action d = "BUY" <->
   ma_rising latest && rsi_oversold signal_params latest
   && macd_above latest = true)
  /\ (action d = "SELL" <->
      negb (ma_rising latest) && rsi_overbought signal_params latest
      && negb (macd_above latest) && negb (fgt (volume t) (Fin 0)) = true)
  /\ (action d = "BUY" \/ action d = "SELL" \/ action d = "HOLD").
Proof.
  intros Hrun Hsilent. cbn zeta.
  rewrite (silent_turtle_action params t ts Hsilent).
  assert (Hne : TurtleStrategy.rows price_data <> []).
  { intro E.
    rewrite (traditional_empty_frame signal_params price_data pre latest E)
      in Hrun.
    discriminate. }
  assert (Hn : has_none latest = false).
  { destruct (has_none latest) eqn:E; [|reflexivity].
    rewrite (traditional_none_cell signal_params price_data pre latest Hne E)
      in Hrun.
    discriminate. }
  destruct (last_some_nonempty _ Hne) as (lp & Hlp).
  rewrite (traditional_signals_done signal_params price_data pre latest lp
             Hlp Hn) in Hrun.
  injection Hrun as <-. cbn [volume].
  unfold rsi_overbought.
  assert (Hv : volume_signal signal_params price_data lp = Fin 0
               \/ volume_signal signal_params price_data lp
                  = fadd (Fin 0) (Fin 0.2)
               \/ volume_signal signal_params price_data lp
                  = fsub (Fin 0) (Fin 0.1)).
  { unfold volume_signal.
    destruct ((20 <=? TurtleStrategy.len price_data)%nat
              && TurtleStrategy.has_volume price_data); [|auto].
    destruct (fgt _ _); [|auto]. destruct (fgt _ _); auto. }
  destruct (ma_rising latest);
    destruct (rsi_oversold signal_params latest);
    destruct (fgt (cell_value (rsi latest) (Fin 50))
                  (overbought_threshold signal_params));
    destruct (macd_above latest);
    destruct Hv as [-> | [-> | ->]];
    vm_compute; (split; [|split]); try (split; intro; congruence); auto.
Qed.

Lemma traditional_signals_must_agree_witness :
  action
    (_make_combined_decision params
       (Some {| trend := Fin (0 + 0.3); technical := Fin (0 + 0.4 + 0.2);
                volume := Fin 0 |})
       None)
  = "BUY".
Proof.
  apply (proj1 (traditional_signals_must_agree
                  TurtleSamples.sample_frame [] RetailSamples.bullish_row None
                  _ eq_refl eq_refl)).
  reflexivity.
Defined.

(** *** Risk management *)

(** The risk management of a decision, on a frame whose last close [c]
    is a positive number.  An action other than BUY and SELL gets no
    stop and no target and a position of 0.1.  Without a usable turtle
    stop (no turtle recommendation, or a stop that is missing, [None] or
    zero) a BUY gets a stop 8% below and a target 15% above the close, a
    SELL a stop 8% above and a target 15% below it, and the position is
    0.05, 0.1 or 0.15 by the volatility; a usable turtle stop is taken
    as it is, whatever the action. *)
Theorem risk_management_sides (price_data : TurtleStrategy.DataFrame)
    (volatility : pyfloat) (action : string)
    (turtle_signals : option TurtleRisk) (c : Q) :
  TurtleStrategy.rows price_data <> [] ->
  List.last (TurtleStrategy.col TurtleStrategy.close price_data) NaN = Fin c ->
  0 < c ->
  exists r,
    _calculate_enhanced_risk_management signal_params price_data volatility
      action turtle_signals = Py.Ok r
    /\ entry_price r = Fin c
    /\ (action <> "BUY" -> action <> "SELL" ->
        stop_loss r = None /\ take_profit r = None
        /\ position_size r = Some (Fin 0.1))
    /\ (match turtle_signals with
        | Some ts => truthy (turtle_stop_loss ts) = false
        | None => True
        end ->
        (action = "BUY" ->
         exists s tp,
           stop_loss r = Some (Fin s) /\ take_profit r = Some (Fin tp)
           /\ s == c * 0.92 /\ tp == c * 1.15 /\ s < c /\ c < tp)
        /\ (action = "SELL" ->
            exists s tp,
              stop_loss r = Some (Fin s) /\ take_profit r = Some (Fin tp)
              /\ s == c * 1.08 /\ tp == c * 0.85 /\ tp < c /\ c < s)
        /\ (action = "BUY" \/ action = "SELL" ->
            position_size r
            = if fgt volatility (Fin 0.05) then Some (Fin 0.05)
              else if fgt volatility (Fin 0.03) then Some (Fin 0.1)
              else Some (Fin 0.15)))
    /\ (forall ts, turtle_signals = Some ts ->
                   truthy (turtle_stop_loss ts) = true ->
                   action = "BUY" \/ action = "SELL" ->
                   stop_loss r = turtle_stop_loss ts).
Proof.
  intros Hne Hc Hpos. unfold _calculate_enhanced_risk_management.
  assert (Hcol : TurtleStrategy.col TurtleStrategy.close price_data <> []).
  { unfold TurtleStrategy.col. destruct (TurtleStrategy.rows price_data);
      [contradiction Hne; reflexivity | discriminate]. }
  rewrite (iloc_last_nonempty _ Hcol), Hc. cbn [Py.bind].
  assert (H92 : c * 0.92 < c) by lra.
  assert (H115 : c < c * 1.15) by lra.
  assert (H108 : c < c * 1.08) by lra.
  assert (H85 : c * 0.85 < c) by lra.
  destruct (String.eqb_spec action "BUY") as [->|Hb].
  - change ("BUY" =? "BUY") with true. cbn [orb andb].
    destruct turtle_signals as [ts|];
      [destruct (truthy (turtle_stop_loss ts)) eqn:Et|].
    + eexists. split; [reflexivity|]. split; [reflexivity|].
      split; [intros H; contradiction H; reflexivity|].
      split; [intro Hu; discriminate Hu|].
      intros ts' Hts _ _. injection Hts as <-. reflexivity.
    + eexists. split; [reflexivity|]. split; [reflexivity|].
      split; [intros H; contradiction H; reflexivity|].
      split.
      * intros _. split; [|split; [discriminate | intros _; reflexivity]].
        intros _. cbn. eexists. eexists.
        split; [reflexivity|]. split; [reflexivity|].
        split; [ring|]. split; [ring|]. split; lra.
      * intros ts' Hts Ht' _. injection Hts as <-. congruence.
    + eexists. split; [reflexivity|]. split; [reflexivity|].
      split; [intros H; contradiction H; reflexivity|].
      split.
      * intros _. split; [|split; [discriminate | intros _; reflexivity]].
        intros _. cbn. eexists. eexists.
        split; [reflexivity|]. split; [reflexivity|].
        split; [ring|]. split; [ring|]. split; lra.
      * intros ts' Hts. discriminate Hts.
  - destruct (String.eqb_spec action "SELL") as [->|Hs].
    + change ("SELL" =? "BUY") with false. cbn [orb andb].
      destruct turtle_signals as [ts|];
        [destruct (truthy (turtle_stop_loss ts)) eqn:Et|].
      * eexists. split; [reflexivity|]. split; [reflexivity|].
        split; [intros _ H; contradiction H; reflexivity|].
        split; [intro Hu; discriminate Hu|].
        intros ts' Hts _ _. injection Hts as <-. reflexivity.
      * eexists. split; [reflexivity|]. split; [reflexivity|].
        split; [intros _ H; contradiction H; reflexivity|].
        split.
        -- intros _. split; [discriminate|]. split; [|intros _; reflexivity].
           intros _. cbn. eexists. eexists.
           split; [reflexivity|]. split; [reflexivity|].
           split; [ring|]. split; [ring|]. split; lra.
        -- intros ts' Hts Ht' _. injection Hts as <-. congruence.
      * eexists. split; [reflexivity|]. split; [reflexivity|].
        split; [intros _ H; contradiction H; reflexivity|].
        split.
        -- intros _. split; [discriminate|]. split; [|intros _; reflexivity].
           intros _. cbn. eexists. eexists.
           split; [reflexivity|]. split; [reflexivity|].
           split; [ring|]. split; [ring|]. split; lra.
        -- intros ts' Hts. discriminate Hts.
    + cbn [orb]. eexists. split; [reflexivity|]. split; [reflexivity|].
      split; [intros _ _; repeat split|].
      split.
      * intros _. split; [intro; contradiction|].
        split; [intro; contradiction | intros [H|H]; contradiction].
      * intros ts' _ _ [H|H]; contradiction.
Qed.

Lemma risk_management_sides_witness :
  exists r,
    _calculate_enhanced_risk_management signal_params
      TurtleSamples.sample_frame (Fin 0.02) "BUY" None = Py.Ok r
    /\ entry_price r = Fin 10.
Proof.
  destruct (risk_management_sides TurtleSamples.sample_frame (Fin 0.02)
              "BUY" None 10)
    as (r & Hr & He & _).
  - discriminate.
  - reflexivity.
  - reflexivity.
  - exists r. split; [exact Hr | exact He].
Defined.

(** A turtle recommendation whose position size holds [None] hands
    that [None] on; a missing key is answered 0.1. *)
Example stored_position_size_is_kept :
  returned_position_size
    (_calculate_enhanced_risk_management signal_params
       TurtleSamples.sample_frame (Fin 0.02) "BUY"
       (Some {| turtle_stop_loss := Some (Fin 9);
                turtle_position_size := Some None;
                risk_atr_pct := None |}))
  = Some None
  /\ returned_position_size
       (_calculate_enhanced_risk_management signal_params
          TurtleSamples.sample_frame (Fin 0.02) "BUY"
          (Some {| turtle_stop_loss := Some (Fin 9);
                   turtle_position_size := None;
                   risk_atr_pct := None |}))
     = Some (Some (Fin 0.1)).
Proof. split; reflexivity. Qed.

End RetailSignalProofs.

(* ===================================================================== *)
(** ** The technical risk factor and the warnings *)
(* ===================================================================== *)

Module RiskFactorProofs.

Import PyFloat Pandas PyFloatFacts TechData RiskAssessment.
Import RetailSignalProofs.
Local Open Scope string_scope.
Local Open Scope Q_scope.

Ltac split_ifs :=
  repeat match goal with
         | |- context [if fgt ?a ?b then _ else _] => destruct (fgt a b)
         | |- context [if flt ?a ?b then _ else _] => destruct (flt a b)
         | |- context [if isna ?a then _ else _] => destruct (isna a)
         end.

(** The technical risk factor.  Without indicator rows the score is 40
    with level 无数据.  When building the entry raises (the RSI cell of
    the last row is missing or [None], or a MACD cell is [None]) the
    score is 50 with level 未知.  Otherwise the score is an integer from
    20 to 80, so that the cap at 100 never binds, and the level is 低
    below 40, 中 below 70 and 高 from 70 on. *)
Theorem technical_risk_score (pre : list TechRow) (latest : TechRow) :
  let r := assess_technical_risk (pre ++ [latest]) in
  assess_technical_risk []
  = {| factor := "技术指标"; score := Fin 40; level := "无数据" |}
  /\ (entry_raises latest = true ->
      r = {| factor := "技术指标"; score := Fin 50; level := "未知" |})
  /\ (entry_raises latest = false ->
      exists s : Z,
        score r = Fin (inject_Z s)
        /\ (20 <= s <= 80)%Z
        /\ level r = (if (s <? 40)%Z then "低"
                      else if (s <? 70)%Z then "中" else "高")
        /\ factor r = "技术指标").
Proof.
  cbn zeta. split; [reflexivity|].
  unfold assess_technical_risk, technical_risk_body, entry_raises.
  rewrite last_snoc.
  split.
  - intro H.
    destruct (rsi latest) as [| |v]; cbn [format_rsi] in *;
      destruct (macd latest) as [| |m]; cbn [get compare and_then is_none] in *;
      destruct (macd_signal latest) as [| |g];
      cbn [get compare and_then is_none orb] in *;
      try reflexivity; discriminate H.
  - intro H.
    destruct (rsi latest) as [| |v]; cbn [orb] in H; try discriminate H.
    cbn [format_rsi].
    destruct (guarded (ma5 latest)) as [a|];
      destruct (guarded (ma20 latest)) as [b|];
      destruct (macd latest) as [| |m]; cbn [is_none orb] in H;
      try discriminate H;
      destruct (macd_signal latest) as [| |g]; cbn [is_none orb] in H;
      try discriminate H;
      cbn [get compare and_then guarded];
      split_ifs;
      (eexists; split; [reflexivity|]; split; [vm_compute; split; discriminate|];
       split; reflexivity).
Qed.

(** *** Warnings *)

Lemma of_nat_succ (n : nat) :
  inject_Z (Z.of_nat (S n)) == inject_Z (Z.of_nat n) + 1.
Proof.
  rewrite Nat2Z.inj_succ. unfold Z.succ. rewrite inject_Z_plus. reflexivity.
Qed.

Lemma sum_below (l : list pyfloat) :
  Forall (fun x => exists q, x = Fin q /\ q < 60) l ->
  forall a,
    exists s,
      List.fold_left fadd l (Fin a) = Fin s
      /\ s <= a + 60 * inject_Z (Z.of_nat (List.length l))
      /\ (l <> [] -> s < a + 60 * inject_Z (Z.of_nat (List.length l))).
Proof.
  induction l as [|x l IH]; intros H a.
  - exists a. split; [reflexivity|]. split.
    + cbn [List.length Z.of_nat]. change (inject_Z 0) with 0. lra.
    + intro E. contradiction E. reflexivity.
  - inversion H as [|? ? (q & -> & Hq) Hl]; subst.
    cbn [List.fold_left fadd].
    destruct (IH Hl (a + q)) as (s & Hs & Hle & _).
    exists s. split; [exact Hs|].
    cbn [List.length]. rewrite of_nat_succ.
    split; [|intros _]; lra.
Qed.

Lemma find_high (l : list RiskEntry) :
  Forall (fun f => is_number (score (entry f))) l ->
  (exists f, In f l /\ fge (score (entry f)) (Fin 60) = true)
  \/ Forall (fun x => exists q, x = Fin q /\ q < 60)
        (List.map (fun f => score (entry f)) l).
Proof.
  induction l as [|x l IH]; intro H; [right; constructor|].
  inversion H as [|? ? Hx Hl]; subst.
  destruct (score (entry x)) as [| | |q] eqn:E; try contradiction.
  destruct (Qle_bool 60 q) eqn:Eq.
  - left. exists x. split; [left; reflexivity|]. rewrite E. exact Eq.
  - destruct (IH Hl) as [(f & Hin & Hf)|Hall].
    + left. exists f. split; [right; exact Hin | exact Hf].
    + right. cbn [List.map]. constructor; [|exact Hall].
      exists q. split; [exact E|]. apply Qle_bool_false_iff. exact Eq.
Qed.

Lemma warning_for (l : list RiskEntry) (f : RiskEntry) :
  In f l -> fgt (score (entry f)) (Fin 50) = true ->
  _generate_warnings l <> [].
Proof.
  induction l as [|x l IH]; intros Hin Hf; [contradiction|].
  cbn [_generate_warnings].
  destruct (fgt (score (entry x)) (Fin 70)) eqn:E70; [discriminate|].
  destruct (fgt (score (entry x)) (Fin 50)) eqn:E50; [discriminate|].
  destruct Hin as [->|Hin]; [congruence|].
  apply IH; assumption.
Qed.

Lemma warnings_length (l : list RiskEntry) :
  List.length (_generate_warnings l)
  = List.length (List.filter (fun f => fgt (score (entry f)) (Fin 50)) l).
Proof.
  induction l as [|x l IH]; [reflexivity|].
  cbn [_generate_warnings List.filter].
  destruct (fgt (score (entry x)) (Fin 70)) eqn:E70.
  - assert (E50 : fgt (score (entry x)) (Fin 50) = true).
    { unfold fgt in *. destruct (score (entry x)) as [| | |q]; cbn in *;
        try congruence.
      apply Qltb_iff in E70. apply Qltb_iff. lra. }
    rewrite E50. cbn [List.length]. rewrite IH. reflexivity.
  - destruct (fgt (score (entry x)) (Fin 50)); cbn [List.length];
      rewrite IH; reflexivity.
Qed.

(** A verdict of 高风险 never comes without a warning.  The overall
    score is the mean of the factor scores and the verdict 高风险 means
    a mean of 60 or more; when the scores are numbers some factor then
    scores 60 or more, and every factor that scores above 50 gets one
    warning, so that the list of warnings is not empty. *)
Theorem high_risk_has_warning (risk_factors : list RiskEntry) :
  risk_factors <> [] ->
  Forall (fun f => is_number (score (entry f))) risk_factors ->
  _determine_risk_level
    (np_mean (List.map (fun f => score (entry f)) risk_factors))
  = "高风险" ->
  (exists f, In f risk_factors /\ fge (score (entry f)) (Fin 60) = true)
  /\ _generate_warnings risk_factors <> []
  /\ List.length (_generate_warnings risk_factors)
     = List.length
         (List.filter (fun f => fgt (score (entry f)) (Fin 50)) risk_factors).
Proof.
  intros Hne Hnum Hlevel.
  assert (Hex : exists f, In f risk_factors
                          /\ fge (score (entry f)) (Fin 60) = true).
  { destruct (find_high risk_factors Hnum) as [Hex|Hall]; [exact Hex|].
    exfalso.
    destruct (sum_below _ Hall 0) as (s & Hs & _ & Hlt).
    assert (Hne' : List.map (fun f => score (entry f)) risk_factors <> []).
    { destruct risk_factors; [contradiction Hne; reflexivity | discriminate]. }
    specialize (Hlt Hne').
    unfold np_mean, series_sum in Hlevel. rewrite Hs in Hlevel.
    set (n := inject_Z (Z.of_nat (List.length
                 (List.map (fun f => score (entry f)) risk_factors)))) in *.
    assert (Hn : 0 < n) by (apply OscillatorProofs.length_positive; exact Hne').
    cbn [fdiv] in Hlevel.
    destruct (Qeq_bool n 0) eqn:En.
    { apply Qeq_bool_iff in En. rewrite En in Hn. discriminate. }
    assert (Hmean : s / n < 60).
    { apply Qlt_shift_div_r; [exact Hn|]. lra. }
    unfold _determine_risk_level in Hlevel. cbn [flt] in Hlevel.
    destruct (Qltb (s / n) 30); [discriminate|].
    apply Qltb_iff in Hmean. rewrite Hmean in Hlevel. discriminate. }
  split; [exact Hex|]. split; [|apply warnings_length].
  destruct Hex as (f & Hin & Hf).
  apply (warning_for risk_factors f Hin).
  unfold fge, fgt in *. destruct (score (entry f)) as [| | |q]; cbn in *;
    try congruence.
  apply Qle_bool_iff in Hf. apply Qltb_iff. lra.
Qed.

Lemma high_risk_has_warning_witness :
  List.length (_generate_warnings RiskSamples.risky_entries) = 4%nat.
Proof.
  rewrite (proj2 (proj2 (high_risk_has_warning RiskSamples.risky_entries
                           ltac:(discriminate)
                           ltac:(repeat constructor)
                           ltac:(reflexivity)))).
  reflexivity.
Defined.

End RiskFactorProofs.

(* ===================================================================== *)
(** ** The range of the KDJ lines *)
(* ===================================================================== *)

Module KdjRangeProofs.

Import PyFloat Pandas PyFloatFacts TechnicalIndicators IndicatorProofs.
Import OscillatorProofs.
Local Open Scope Q_scope.

Lemma existsb_isna_numbers (xs : Series) :
  Forall is_number xs -> List.existsb isna xs = false.
Proof.
  induction xs as [|x xs IH]; intro H; [reflexivity|].
  inversion H as [|? ? Hx Hxs]; subst.
  destruct x; try contradiction. cbn. apply IH. exact Hxs.
Qed.

(** The last element of a rolling window is the row itself. *)
Lemma window_holds_row (s : Series) (w t : nat) :
  (1 <= w)%nat -> (w <= t + 1)%nat -> (t < List.length s)%nat ->
  In (List.nth t s NaN) (List.firstn w (List.skipn (t + 1 - w) s)).
Proof.
  intros H1 H2 H3.
  assert (E : List.nth (w - 1) (List.firstn w (List.skipn (t + 1 - w) s)) NaN
              = List.nth t s NaN).
  { rewrite List.nth_firstn, List.nth_skipn.
    assert (Ew : (w - 1 <? w)%nat = true) by (apply Nat.ltb_lt; lia).
    rewrite Ew. f_equal. lia. }
  rewrite <- E. apply List.nth_In.
  rewrite List.length_firstn, List.length_skipn. lia.
Qed.

Lemma numbers_of_rows (s : Series) (n : nat) :
  List.length s = n ->
  (forall t, (t < n)%nat -> is_number (List.nth t s NaN)) ->
  Forall is_number s.
Proof.
  intros Hlen H. apply List.Forall_forall. intros x Hx.
  destruct (List.In_nth _ x NaN Hx) as (t & Ht & <-).
  apply H. lia.
Qed.

(** RSV of a bar whose close lies between its low and its high. *)
Lemma rsv_row_range (high low close : Series) (k_period t : nat) :
  List.length high = List.length close ->
  List.length low = List.length close ->
  (forall u, (u < List.length close)%nat ->
     exists l c h,
       List.nth u low NaN = Fin l /\ List.nth u close NaN = Fin c
       /\ List.nth u high NaN = Fin h /\ l <= c /\ c <= h) ->
  (t < List.length close)%nat ->
  List.nth t (rsv_series high low close k_period) NaN = NaN
  \/ in_range 0 100 (List.nth t (rsv_series high low close k_period) NaN).
Proof.
  intros Hh Hl Hbars Ht.
  destruct (Nat.lt_ge_cases (t + 1) k_period) as [Hw|Hw];
    [left; apply rsv_warmup; assumption|].
  destruct (Nat.eq_dec k_period 0) as [->|Hk].
  { left. unfold rsv_series.
    rewrite map_nth_nan by reflexivity.
    rewrite map2_nth
      by (rewrite map2_length, !rolling_length, ?Hh, ?Hl, ?Nat.min_id; lia).
    rewrite (map2_nth fsub close) by (rewrite ?rolling_length, ?Hl; lia).
    rewrite (rolling_nth_full series_min 0 low t) by lia.
    cbn [List.firstn List.existsb]. unfold series_min. cbn [dropna List.filter].
    rewrite fsub_nan_r. reflexivity. }
  assert (Nlow : Forall is_number low).
  { apply (numbers_of_rows low (List.length close) Hl). intros u Hu.
    destruct (Hbars u Hu) as (l & c & h & -> & _). exact I. }
  assert (Nhigh : Forall is_number high).
  { apply (numbers_of_rows high (List.length close) Hh). intros u Hu.
    destruct (Hbars u Hu) as (l & c & h & _ & _ & -> & _). exact I. }
  destruct (Hbars t Ht) as (l & c & h & El & Ec & Eh & Hlc & Hch).
  set (wl := List.firstn k_period (List.skipn (t + 1 - k_period) low)).
  set (wh := List.firstn k_period (List.skipn (t + 1 - k_period) high)).
  assert (Nwl : Forall is_number wl)
    by (apply Forall_firstn; apply Forall_skipn; exact Nlow).
  assert (Nwh : Forall is_number wh)
    by (apply Forall_firstn; apply Forall_skipn; exact Nhigh).
  assert (Il : In (Fin l) wl).
  { rewrite <- El. apply window_holds_row; lia. }
  assert (Ih : In (Fin h) wh).
  { rewrite <- Eh. apply window_holds_row; lia. }
  destruct (TurtleChannelProofs.series_min_spec wl Nwl)
    as (m & Em & _ & Hm); [intro E; rewrite E in Il; contradiction|].
  destruct (TurtleChannelProofs.series_max_spec wh Nwh)
    as (M & EM & _ & HM); [intro E; rewrite E in Ih; contradiction|].
  pose proof (Hm l Il) as Hml. pose proof (HM h Ih) as HhM.
  unfold rsv_series.
  rewrite map_nth_nan by reflexivity.
  rewrite map2_nth
    by (rewrite map2_length, !rolling_length, ?Hh, ?Hl, ?Nat.min_id; lia).
  rewrite (map2_nth fsub close) by (rewrite ?rolling_length, ?Hl; lia).
  rewrite (map2_nth fsub (rolling series_max k_period high))
    by (rewrite ?rolling_length, ?Hh, ?Hl; lia).
  rewrite (rolling_nth_full series_min k_period low t) by lia.
  rewrite (rolling_nth_full series_max k_period high t) by lia.
  fold wl wh.
  rewrite (existsb_isna_numbers wl Nwl), (existsb_isna_numbers wh Nwh).
  rewrite Em, EM, Ec. cbn [fsub fneg fadd fdiv].
  destruct (Qeq_bool (M + - m) 0) eqn:E0.
  - left. apply Qeq_bool_iff in E0.
    unfold signed_inf.
    assert (E1 : Qltb 0 (c + - m) = false) by (apply Qltb_false_iff; lra).
    assert (E2 : Qltb (c + - m) 0 = false) by (apply Qltb_false_iff; lra).
    rewrite E1, E2. reflexivity.
  - right.
    assert (Hpos : 0 < M + - m).
    { destruct (Qlt_le_dec 0 (M + - m)) as [H|H]; [exact H|].
      exfalso. assert (E : M + - m == 0) by lra.
      apply Qeq_bool_iff in E. congruence. }
    cbn [fmul in_range].
    assert (H0 : 0 <= (c + - m) / (M + - m)).
    { apply Qle_shift_div_l; [exact Hpos | lra]. }
    assert (H1 : (c + - m) / (M + - m) <= 1).
    { apply Qle_shift_div_r; [exact Hpos | lra]. }
    split; nra.
Qed.

Lemma smooth_step_range (p v : Q) :
  0 <= p <= 100 -> 0 <= v <= 100 ->
  in_range 0 100 (smooth_step (Fin p) (Fin v)).
Proof.
  intros Hp Hv. unfold smooth_step. cbn [fmul fadd in_range].
  change (2 / 3) with (2 # 3). change (1 / 3) with (1 # 3).
  split; lra.
Qed.

Lemma smooth_loop_range (vals : Series) :
  Forall (fun x => x = NaN \/ in_range 0 100 x) vals ->
  forall p, 0 <= p <= 100 ->
    Forall (fun x => x = NaN \/ in_range 0 100 x) (smooth_loop (Fin p) vals).
Proof.
  induction vals as [|v rest IH]; intros H p Hp; [constructor|].
  inversion H as [|? ? Hv Hrest]; subst. cbn [smooth_loop].
  destruct Hv as [->|Hv].
  - cbn [isna]. constructor; [left; reflexivity|]. apply IH; assumption.
  - destruct v as [| | |q]; try contradiction. cbn [isna].
    pose proof (smooth_step_range p q Hp Hv) as Hs.
    constructor; [right; exact Hs|].
    unfold smooth_step in *. cbn [fmul fadd] in *.
    apply IH; [exact Hrest | exact Hs].
Qed.

Lemma nan_series_range (n : nat) (lo hi : Q) :
  Forall (fun x => x = NaN \/ in_range lo hi x) (nan_series n).
Proof.
  apply List.Forall_forall. intros x Hx. left.
  apply (List.repeat_spec _ _ _ Hx).
Qed.

(** On bars whose close lies between the low and the high, every K and
    every D is NaN or lies between 0 and 100, and every J is NaN or lies
    between -200 and 300. *)
Theorem kdj_in_range (high low close : Series) (k_period : nat) :
  List.length high = List.length close ->
  List.length low = List.length close ->
  (forall u, (u < List.length close)%nat ->
     exists l c h,
       List.nth u low NaN = Fin l /\ List.nth u close NaN = Fin c
       /\ List.nth u high NaN = Fin h /\ l <= c /\ c <= h) ->
  let r := calculate_kdj high low close k_period in
  Forall (fun x => x = NaN \/ in_range 0 100 x) (kdj_k r)
  /\ Forall (fun x => x = NaN \/ in_range 0 100 x) (kdj_d r)
  /\ Forall (fun x => x = NaN \/ in_range (-200) 300 x) (kdj_j r).
Proof.
  intros Hh Hl Hbars. cbn zeta. unfold calculate_kdj.
  destruct (List.length close <? k_period)%nat;
    cbn [kdj_k kdj_d kdj_j];
    [repeat split; apply nan_series_range|].
  assert (Hrsv : Forall (fun x => x = NaN \/ in_range 0 100 x)
                   (rsv_series high low close k_period)).
  { apply List.Forall_forall. intros x Hx.
    destruct (List.In_nth _ x NaN Hx) as (t & Ht & <-).
    rewrite (rsv_length high low close k_period Hh Hl) in Ht.
    apply rsv_row_range; assumption. }
  assert (H50 : 0 <= 50 <= 100) by (split; discriminate).
  pose proof (smooth_loop_range _ Hrsv 50 H50) as HK.
  pose proof (smooth_loop_range _ HK 50 H50) as HD.
  split; [exact HK|]. split; [exact HD|].
  apply (Forall_map2 (fun x => x = NaN \/ in_range 0 300 x)
                     (fun x => x = NaN \/ in_range 0 200 x)).
  - intros x y [->|Hx] [->|Hy]; try (left; reflexivity).
    + left. apply fsub_nan_r.
    + destruct x as [| | |a]; try contradiction.
      destruct y as [| | |b]; try contradiction.
      right. cbn in *. split; lra.
  - apply List.Forall_map. eapply List.Forall_impl; [|exact HK].
    intros x [->|Hx]; [left; reflexivity|].
    destruct x as [| | |a]; try contradiction. right. cbn in *. split; lra.
  - apply List.Forall_map. eapply List.Forall_impl; [|exact HD].
    intros x [->|Hx]; [left; reflexivity|].
    destruct x as [| | |a]; try contradiction. right. cbn in *. split; lra.
Qed.

Lemma kdj_in_range_witness :
  Forall (fun x => x = NaN \/ in_range 0 100 x)
    (kdj_k (calculate_kdj IndicatorSamples.highs3 IndicatorSamples.lows3
              IndicatorSamples.closes3 2)).
Proof.
  apply (kdj_in_range IndicatorSamples.highs3 IndicatorSamples.lows3
           IndicatorSamples.closes3 2).
  - reflexivity.
  - reflexivity.
  - intros u Hu. destruct u as [|[|[|u]]]; [| | |cbn in Hu; lia];
      cbn; eexists; eexists; eexists;
      (split; [reflexivity|]; split; [reflexivity|]; split; [reflexivity|]);
      split; discriminate.
Defined.

End KdjRangeProofs.
